(** * VIP threat monitoring dashboard (frontend/src/App.js)

    A shallow embedding of the React dashboard: JSON values as they come
    back from axios, the three presentational components as virtual-DOM
    trees, the [App] component as a state record driven by events, its
    asynchronous handlers in a state-and-exception monad over an abstract
    network, and the HTTP backend the dashboard talks to. *)

From Stdlib Require Import String Ascii List ZArith QArith Bool Lia.
From ExtLib Require Import Structures.Monad.
Import ListNotations.
Set Warnings "-register-all".
Import MonadNotation.
Local Open Scope string_scope.
Local Open Scope monad_scope.

(* ===================================================================== *)
(** ** JavaScript values *)
(* ===================================================================== *)

(** What [response.data] can hold after axios has parsed a JSON body, plus
    [undefined], which property reads produce.  An object is the list of
    its own properties. *)
Inductive value : Type :=
| VUndefined
| VNull
| VBool (b : bool)
| VNum (q : Q)
| VStr (s : string)
| VArr (items : list value)
| VObj (fields : list (string * value)).

(** The exceptions the dashboard can meet. [err_message] is [err.message]. *)
Inductive exn : Type :=
| TypeError (msg : string)
| AxiosError (msg : string).

Definition err_message (e : exn) : string :=
  match e with TypeError s => s | AxiosError s => s end.

(** An expression either evaluates or throws. *)
Inductive res (A : Type) : Type :=
| Ok (a : A)
| Throw (e : exn).
Arguments Ok {A} a.
Arguments Throw {A} e.

Definition res_bind {A B} (c : res A) (k : A -> res B) : res B :=
  match c with Ok a => k a | Throw e => Throw e end.

#[global] Instance Monad_res : Monad res :=
  {| ret := @Ok; bind := @res_bind |}.

Fixpoint mapM_res {A B} (f : A -> res B) (l : list A) : res (list B) :=
  match l with
  | [] => Ok []
  | x :: xs => y <- f x ;; ys <- mapM_res f xs ;; ret (y :: ys)
  end.

Definition num_of_nat (n : nat) : value := VNum (inject_Z (Z.of_nat n)).

Fixpoint assoc {A} (k : string) (l : list (string * A)) : option A :=
  match l with
  | [] => None
  | (k', v) :: rest => if String.eqb k k' then Some v else assoc k rest
  end.

Definition nullish (v : value) : bool :=
  match v with VUndefined | VNull => true | _ => false end.

Definition typeof_nullish (v : value) : string :=
  match v with VNull => "null" | _ => "undefined" end.

(** [v.k] for the property names the dashboard uses (none of them lives on
    a prototype except [length]).  Reading a property of [null] or
    [undefined] throws, with the message V8 gives.  A string is taken as
    its sequence of code units, one per character of the model. *)
Definition get (v : value) (k : string) : res value :=
  match v with
  | VUndefined | VNull =>
      Throw (TypeError ("Cannot read properties of " ++ typeof_nullish v
                          ++ " (reading '" ++ k ++ "')"))
  | VObj fields =>
      Ok (match assoc k fields with Some x => x | None => VUndefined end)
  | VArr items =>
      Ok (if String.eqb k "length" then num_of_nat (List.length items)
          else VUndefined)
  | VStr s =>
      Ok (if String.eqb k "length" then num_of_nat (String.length s)
          else VUndefined)
  | VBool _ | VNum _ => Ok VUndefined
  end.

(** [v?.k] *)
Definition get_opt (v : value) (k : string) : value :=
  match get v k with Ok x => x | Throw _ => VUndefined end.

(** ToBoolean *)
Definition truthy (v : value) : bool :=
  match v with
  | VUndefined | VNull => false
  | VBool b => b
  | VNum q => negb (Z.eqb (Qnum q) 0)
  | VStr s => negb (String.eqb s EmptyString)
  | VArr _ | VObj _ => true
  end.

(** [a || b], [!a] and [v === 0] *)
Definition js_or (a b : value) : value := if truthy a then a else b.
Definition js_not (a : value) : value := VBool (negb (truthy a)).
Definition is_zero (v : value) : bool :=
  match v with VNum q => Qeq_bool q 0 | _ => false end.

(** ToString of a value that can be converted (see [converts] below),
    where it can be worked out without printing a number: [None] stands
    for a string that has the decimal form of a number in it, which is no
    property name of the tables below nor of [Object.prototype]. *)
Fixpoint to_string (v : value) : option string :=
  let fix join (l : list value) : option string :=
    match l with
    | [] => Some EmptyString
    | [x] => if nullish x then Some EmptyString else to_string x
    | x :: rest =>
        match (if nullish x then Some EmptyString else to_string x), join rest with
        | Some a, Some b => Some (a ++ "," ++ b)
        | _, _ => None
        end
    end in
  match v with
  | VUndefined => Some "undefined"
  | VNull => Some "null"
  | VBool true => Some "true"
  | VBool false => Some "false"
  | VNum _ => None
  | VStr s => Some s
  | VArr items => join items
  | VObj _ => Some "[object Object]"
  end.

(** ToPrimitive.  No JSON value is callable, so an object with an own
    [toString] property has no usable [toString]; its [valueOf], own or
    inherited, gives no primitive either, and the conversion throws.  Any
    other object is converted by [Object.prototype.toString].  An array is
    converted by [join], which converts each entry that is not [null] or
    [undefined]. *)
Fixpoint converts (v : value) : bool :=
  match v with
  | VObj fields =>
      match assoc "toString" fields with Some _ => false | None => true end
  | VArr items => forallb converts items
  | _ => true
  end.

Definition cannot_convert : exn :=
  TypeError "Cannot convert object to primitive value".

Definition to_primitive (v : value) : res unit :=
  if converts v then Ok tt else Throw cannot_convert.

(** What [table[key]] finds on an object literal whose values are strings:
    an own property, a method inherited from [Object.prototype], the
    prototype itself (under [__proto__]), or nothing. *)
Inductive member : Type :=
| Own (s : string)
| Method (name : string)
| ObjectPrototype
| Absent.

Definition object_prototype_methods : list string :=
  [ "constructor"; "hasOwnProperty"; "isPrototypeOf"; "propertyIsEnumerable";
    "toLocaleString"; "toString"; "valueOf";
    "__defineGetter__"; "__defineSetter__";
    "__lookupGetter__"; "__lookupSetter__" ].

Definition lookup (table : list (string * string)) (k : string) : member :=
  match assoc k table with
  | Some s => Own s
  | None =>
      if String.eqb k "__proto__" then ObjectPrototype
      else if existsb (String.eqb k) object_prototype_methods then Method k
      else Absent
  end.

(** [table[key]] on one of the two object literals of the file.  The key
    is converted to a string first, which can throw; a key [to_string]
    cannot print is the name of no property. *)
Definition index (table : list (string * string)) (key : value) : res member :=
  _ <- to_primitive key ;;
  ret (match to_string key with
       | Some k => lookup table k
       | None => Absent
       end).

(* ===================================================================== *)
(** ** Rendered output *)
(* ===================================================================== *)

(** Strings the browser formats.  Decimal and locale formatting are left
    as they are written in the source. *)
Inductive text : Type :=
| Lit (s : string)
| ToString (v : value)            (* `${v}` *)
| StringOf (m : member)           (* `${table[key]}` *)
| ToFixed1x100 (v : value)        (* (v * 100).toFixed(1) *)
| ToLocaleString (v : value)      (* new Date(v).toLocaleString() *)
| ToLocaleTimeString (v : value). (* new Date(v).toLocaleTimeString() *)

(** A template literal, piece by piece. *)
Definition template := list text.

(** Whether ToString of a value is the empty string. *)
Fixpoint to_string_empty (v : value) : bool :=
  match v with
  | VStr s => String.eqb s EmptyString
  | VArr [] => true
  | VArr [x] => nullish x || to_string_empty x
  | _ => false
  end.

Definition text_empty (t : text) : bool :=
  match t with
  | Lit s => String.eqb s EmptyString
  | ToString v => to_string_empty v
  | StringOf (Own s) => String.eqb s EmptyString
  | StringOf _ => false
  | ToFixed1x100 _ | ToLocaleString _ | ToLocaleTimeString _ => false
  end.

(** ToBoolean of a string given as a template. *)
Definition template_truthy (t : template) : bool := negb (forallb text_empty t).

(** The callbacks a button can carry. *)
Inductive handler : Type :=
| startMonitoring_h
| stopMonitoring_h
| clearAlerts_h
| generateMockAlert_h
| closeNotification_h.

Inductive prop : Type :=
| className (t : template)
| onClick (h : handler)
| disabled (v : value)
| href (v : value)
| target (s : string)
| rel (s : string)
| key (v : value).

(** React elements. [Child v] is a [{expression}] child, [ChildOf m] one
    that was looked up in a table. *)
Inductive node : Type :=
| Elem (tag : string) (props : list prop) (children : list node)
| Text (s : string)
| TextOf (t : template)
| Child (v : value)
| ChildOf (m : member).

(** React refuses a plain object as a child. *)
Fixpoint renderable (v : value) : bool :=
  match v with
  | VObj _ => false
  | VArr items => forallb renderable items
  | _ => true
  end.

(** React turns the value of an [href] into a string when it sets the
    attribute. *)
Definition prop_ok (p : prop) : bool :=
  match p with
  | href v => converts v
  | _ => true
  end.

(** As a child, a function is left out (with a warning) and
    [Object.prototype] is refused like any other object. *)
Definition member_ok (m : member) : bool :=
  match m with ObjectPrototype => false | _ => true end.

Fixpoint react_ok (n : node) : bool :=
  match n with
  | Elem _ ps children => forallb prop_ok ps && forallb react_ok children
  | Child v => renderable v
  | ChildOf m => member_ok m
  | Text _ | TextOf _ => true
  end.

(** The [onClick] of an element and whether the element is disabled. *)
Fixpoint onClick_of (ps : list prop) : option handler :=
  match ps with
  | [] => None
  | onClick h :: _ => Some h
  | _ :: rest => onClick_of rest
  end.

Fixpoint disabled_of (ps : list prop) : bool :=
  match ps with
  | [] => false
  | disabled v :: _ => truthy v
  | _ :: rest => disabled_of rest
  end.

(** Every clickable element of a tree, with its [disabled] state. *)
Fixpoint buttons (n : node) : list (handler * bool) :=
  match n with
  | Elem _ ps children =>
      match onClick_of ps with
      | Some h => [(h, disabled_of ps)]
      | None => []
      end ++ flat_map buttons children
  | _ => []
  end.

Definition handler_eqb (a b : handler) : bool :=
  match a, b with
  | startMonitoring_h, startMonitoring_h
  | stopMonitoring_h, stopMonitoring_h
  | clearAlerts_h, clearAlerts_h
  | generateMockAlert_h, generateMockAlert_h
  | closeNotification_h, closeNotification_h => true
  | _, _ => false
  end.

(** A click reaches [h] when some enabled element carries it. *)
Definition clickable (h : handler) (n : node) : bool :=
  existsb (fun b => handler_eqb h (fst b) && negb (snd b)) (buttons n).

(** Every node of a tree, the tree itself first. *)
Fixpoint subnodes (n : node) : list node :=
  n :: match n with
       | Elem _ _ children => flat_map subnodes children
       | _ => []
       end.

Definition dquote : string := String (ascii_of_nat 34) EmptyString.

(* ===================================================================== *)
(** ** Presentational components *)
(* ===================================================================== *)

Definition cls (s : string) : prop := className [Lit s].

(** Platform icons mapping *)
Definition platformIcons : list (string * string) :=
  [ ("Twitter", "🐦"); ("Facebook", "📘"); ("Instagram", "📷") ].

(** Threat level colors *)
Definition threatColors : list (string * string) :=
  [ ("low", "bg-green-100 border-green-500 text-green-800");
    ("medium", "bg-yellow-100 border-yellow-500 text-yellow-800");
    ("high", "bg-orange-100 border-orange-500 text-orange-800");
    ("critical", "bg-red-100 border-red-500 text-red-800") ].

(** The object handed to [setNotification]. *)
Record notification : Type := {
  type : string;
  title : string;
  message : template;
  details : template
}.

Definition NotificationPopup (n : option notification) : node :=
  match n with
  | None => Child VNull
  | Some notification =>
      let bgColor :=
        if String.eqb (type notification) "success"
        then "bg-green-50 border-green-200"
        else "bg-red-50 border-red-200" in
      let textColor :=
        if String.eqb (type notification) "success"
        then "text-green-800"
        else "text-red-800" in
      Elem "div" [cls "fixed top-4 right-4 z-50 max-w-sm"]
        [ Elem "div"
            [className [Lit bgColor; Lit " border rounded-lg shadow-lg p-4 ";
                        Lit textColor; Lit " animate-slide-in"]]
            [ Elem "div" [cls "flex items-start justify-between"]
                [ Elem "div" [cls "flex-1"]
                    [ Elem "div" [cls "font-semibold text-sm mb-1"]
                        [Child (VStr (title notification))];
                      Elem "div" [cls "text-sm mb-1"]
                        [TextOf (message notification)];
                      if template_truthy (details notification)
                      then Elem "div" [cls "text-xs opacity-75"]
                             [TextOf (details notification)]
                      else TextOf (details notification) ];
                  Elem "button"
                    [onClick closeNotification_h;
                     cls "ml-3 text-lg leading-none hover:opacity-75"]
                    [Text "×"] ] ] ]
  end.

(** [formatTime] of [ThreatAlert]: [new Date(timestamp)] converts an
    object to a primitive first. *)
Definition formatTime (timestamp : value) : res template :=
  _ <- to_primitive timestamp ;;
  ret [ToLocaleString timestamp].

(** [(score * 100).toFixed(1)]: the product converts [score] to a number. *)
Definition percent (score : value) : res template :=
  _ <- to_primitive score ;;
  ret [ToFixed1x100 score].

(** The [alert.ai_analysis && (...)] block of [ThreatAlert]. *)
Definition aiAnalysisSection (ai_analysis : value) : node :=
  if truthy ai_analysis
  then Elem "div" [cls "mb-3"]
         [ Elem "div" [cls "text-sm font-semibold text-gray-800"]
             [Text "AI Analysis:"];
           Elem "div" [cls "text-sm text-gray-600"] [Child ai_analysis] ]
  else Child ai_analysis.

Definition ThreatAlert (alert : value) : res node :=
  threat_level <- get alert "threat_level" ;;
  platform <- get alert "platform" ;;
  score <- get alert "score" ;;
  author <- get alert "author" ;;
  content <- get alert "content" ;;
  reason <- get alert "reason" ;;
  ai_analysis <- get alert "ai_analysis" ;;
  timestamp <- get alert "timestamp" ;;
  url <- get alert "url" ;;
  color <- index threatColors threat_level ;;
  icon <- index platformIcons platform ;;
  badge <- index threatColors threat_level ;;
  score100 <- percent score ;;
  time <- formatTime timestamp ;;
  ret (Elem "div"
         [className [Lit "border-l-4 p-4 mb-4 rounded-lg shadow-md ";
                     StringOf color]]
         [ Elem "div" [cls "flex items-start justify-between"]
             [ Elem "div" [cls "flex items-center space-x-2 mb-2"]
                 [ Elem "span" [cls "text-2xl"] [ChildOf icon];
                   Elem "span" [cls "font-semibold text-lg"] [Child platform];
                   Elem "span"
                     [className
                        [Lit "px-2 py-1 rounded text-xs font-semibold uppercase ";
                         StringOf badge]]
                     [Child threat_level] ];
               Elem "div" [cls "text-sm text-gray-600"]
                 [Text "Score: "; TextOf score100; Text "%"] ];
           Elem "div" [cls "mb-3"]
             [ Elem "div" [cls "font-medium text-gray-900"]
                 [Text "@"; Child author];
               Elem "div" [cls "text-gray-700 mt-1 italic"]
                 [Text dquote; Child content; Text dquote] ];
           Elem "div" [cls "mb-3"]
             [ Elem "div" [cls "text-sm font-semibold text-gray-800"]
                 [Text "Detected Issues:"];
               Elem "div" [cls "text-sm text-gray-600"] [Child reason] ];
           aiAnalysisSection ai_analysis;
           Elem "div" [cls "flex justify-between items-center text-xs text-gray-500"]
             [ Elem "div" [] [TextOf time];
               Elem "a"
                 [href url; target "_blank"; rel "noopener noreferrer";
                  cls "text-blue-600 hover:underline"]
                 [Text "View Original Post →"] ] ]).

(** [status.platforms_monitored?.length || 0] *)
Definition platformsCount (status : value) : res value :=
  platforms_monitored <- get status "platforms_monitored" ;;
  ret (js_or (get_opt platforms_monitored "length") (VNum 0)).

(** [status.last_check ? new Date(status.last_check).toLocaleTimeString() : '--:--'] *)
Definition lastCheckText (status : value) : res template :=
  last_check <- get status "last_check" ;;
  if truthy last_check
  then _ <- to_primitive last_check ;;
       ret [ToLocaleTimeString last_check]
  else ret [Lit "--:--"].

Definition MonitoringStatus (status : value) (onStart onStop onClear : handler)
  : res node :=
  is_running <- get status "is_running" ;;
  alerts_count <- get status "alerts_count" ;;
  platforms <- platformsCount status ;;
  last_check <- lastCheckText status ;;
  ret (Elem "div" [cls "bg-white p-6 rounded-lg shadow-md mb-6"]
         [ Elem "div" [cls "flex items-center justify-between mb-4"]
             [ Elem "h2" [cls "text-xl font-bold text-gray-900"]
                 [Text "Monitoring Status"];
               Elem "div"
                 [className
                    [Lit "px-3 py-1 rounded-full text-sm font-semibold ";
                     Lit (if truthy is_running
                          then "bg-green-100 text-green-800"
                          else "bg-gray-100 text-gray-800")]]
                 [Child (VStr (if truthy is_running
                               then "🟢 ACTIVE" else "⭕ STOPPED"))] ];
           Elem "div" [cls "grid grid-cols-1 md:grid-cols-3 gap-4 mb-4"]
             [ Elem "div" [cls "text-center"]
                 [ Elem "div" [cls "text-2xl font-bold text-blue-600"]
                     [Child alerts_count];
                   Elem "div" [cls "text-sm text-gray-600"] [Text "Total Alerts"] ];
               Elem "div" [cls "text-center"]
                 [ Elem "div" [cls "text-2xl font-bold text-green-600"]
                     [Child platforms];
                   Elem "div" [cls "text-sm text-gray-600"] [Text "Platforms"] ];
               Elem "div" [cls "text-center"]
                 [ Elem "div" [cls "text-2xl font-bold text-purple-600"]
                     [TextOf last_check];
                   Elem "div" [cls "text-sm text-gray-600"] [Text "Last Check"] ] ];
           Elem "div" [cls "flex space-x-3"]
             [ Elem "button"
                 [onClick onStart; disabled is_running;
                  className
                    [Lit "px-4 py-2 rounded-md font-semibold ";
                     Lit (if truthy is_running
                          then "bg-gray-300 text-gray-500 cursor-not-allowed"
                          else "bg-green-600 text-white hover:bg-green-700")]]
                 [Text "🟢 Start Monitoring"];
               Elem "button"
                 [onClick onStop; disabled (js_not is_running);
                  className
                    [Lit "px-4 py-2 rounded-md font-semibold ";
                     Lit (if truthy (js_not is_running)
                          then "bg-gray-300 text-gray-500 cursor-not-allowed"
                          else "bg-red-600 text-white hover:bg-red-700")]]
                 [Text "🔴 Stop Monitoring"];
               Elem "button"
                 [onClick onClear;
                  cls "px-4 py-2 bg-yellow-600 text-white rounded-md font-semibold hover:bg-yellow-700"]
                 [Text "🗑️ Clear Alerts"] ] ]).

(* ===================================================================== *)
(** ** The network and the browser, as the dashboard sees them *)
(* ===================================================================== *)

Inductive method : Type := GET | POST | DELETE.

Record request : Type := { meth : method; url : string }.

(** How an axios promise settles: with [response.data], or rejected
    (network failure, or a status outside 2xx) with an error message. *)
Inductive response : Type :=
| Resolved (data : value)
| Rejected (msg : string).

(** Everything outside the page: the server behind axios, the user in
    front of [window.confirm], and the build-time
    [process.env.REACT_APP_BACKEND_URL]. *)
Class World (W : Type) : Type := {
  BACKEND_URL : string;
  send : request -> W -> response * W;
  confirm : string -> W -> bool * W
}.

Definition API {W} `{World W} : string := BACKEND_URL ++ "/api".

(* ===================================================================== *)
(** ** The App component *)
(* ===================================================================== *)

(** The five [useState] cells. *)
Record state : Type := {
  alerts : value;
  status : value;
  loading : bool;
  error : value;
  notification_of : option notification
}.

(** What a timer runs: the polling arrow function of the second effect,
    or [() => setNotification(null)]. *)
Inductive callback : Type := poll_cb | hideNotification_cb.

Record timer : Type := {
  tid : nat;
  remaining : Z;
  period : option Z;
  callback_of : callback
}.

(** The page at one instant: hook state, the browser's timers and clock,
    what went over the wire, the dialogs shown, the console, the world. *)
Record machine (W : Type) : Type := {
  hooks : state;
  mounted : bool;
  interval : option nat;
  timers : list timer;
  next_timer : nat;
  now : Z;
  exchanges : list (request * response);
  dialogs : list string;
  console : list (string * exn);
  world : W
}.
Arguments hooks {W} m.
Arguments mounted {W} m.
Arguments interval {W} m.
Arguments timers {W} m.
Arguments next_timer {W} m.
Arguments now {W} m.
Arguments exchanges {W} m.
Arguments dialogs {W} m.
Arguments console {W} m.
Arguments world {W} m.

Definition initial_status : value :=
  VObj [ ("is_running", VBool false);
         ("platforms_monitored", VArr []);
         ("alerts_count", VNum 0);
         ("last_check", VNull) ].

Definition initial_state : state :=
  {| alerts := VArr []; status := initial_status; loading := true;
     error := VNull; notification_of := None |}.

Definition initial_machine {W} (w : W) : machine W :=
  {| hooks := initial_state; mounted := false; interval := None;
     timers := []; next_timer := 0; now := 0; exchanges := [];
     dialogs := []; console := []; world := w |}.

Definition with_hooks {W} (f : state -> state) (m : machine W) : machine W :=
  {| hooks := f (hooks m); mounted := mounted m; interval := interval m;
     timers := timers m; next_timer := next_timer m; now := now m;
     exchanges := exchanges m; dialogs := dialogs m; console := console m;
     world := world m |}.

(** Code that reads and writes the page and may throw. *)
Definition M (W A : Type) : Type := machine W -> res A * machine W.

Definition M_ret {W A} (a : A) : M W A := fun m => (Ok a, m).

Definition M_bind {W A B} (c : M W A) (k : A -> M W B) : M W B :=
  fun m => match c m with
           | (Ok a, m') => k a m'
           | (Throw e, m') => (Throw e, m')
           end.

#[global] Instance Monad_M {W} : Monad (M W) :=
  {| ret := @M_ret W; bind := @M_bind W |}.

(** [try { body } catch (err) { handler }] *)
Definition try_catch {W A} (body : M W A) (handler : exn -> M W A) : M W A :=
  fun m => match body m with
           | (Ok a, m') => (Ok a, m')
           | (Throw e, m') => handler e m'
           end.

Definition lift {W A} (r : res A) : M W A := fun m => (r, m).

Definition run {W A} (c : M W A) (m : machine W) : machine W := snd (c m).

Section Hooks.
Context {W : Type}.

Definition setAlerts (v : value) : M W unit := fun m =>
  (Ok tt, with_hooks (fun s =>
     {| alerts := v; status := status s; loading := loading s;
        error := error s; notification_of := notification_of s |}) m).

Definition setStatus (v : value) : M W unit := fun m =>
  (Ok tt, with_hooks (fun s =>
     {| alerts := alerts s; status := v; loading := loading s;
        error := error s; notification_of := notification_of s |}) m).

Definition setLoading (b : bool) : M W unit := fun m =>
  (Ok tt, with_hooks (fun s =>
     {| alerts := alerts s; status := status s; loading := b;
        error := error s; notification_of := notification_of s |}) m).

Definition setError (v : value) : M W unit := fun m =>
  (Ok tt, with_hooks (fun s =>
     {| alerts := alerts s; status := status s; loading := loading s;
        error := v; notification_of := notification_of s |}) m).

Definition setNotification (n : option notification) : M W unit := fun m =>
  (Ok tt, with_hooks (fun s =>
     {| alerts := alerts s; status := status s; loading := loading s;
        error := error s; notification_of := n |}) m).

(** [console.error(label, err)] *)
Definition console_error (label : string) (err : exn) : M W unit := fun m =>
  (Ok tt,
   {| hooks := hooks m; mounted := mounted m; interval := interval m;
      timers := timers m; next_timer := next_timer m; now := now m;
      exchanges := exchanges m; dialogs := dialogs m;
      console := console m ++ [(label, err)]; world := world m |}).

Definition add_timer (ms : Z) (p : option Z) (cb : callback) : M W nat :=
  fun m =>
    (Ok (next_timer m),
     {| hooks := hooks m; mounted := mounted m; interval := interval m;
        timers := timers m ++ [ {| tid := next_timer m; remaining := ms;
                                   period := p; callback_of := cb |} ];
        next_timer := S (next_timer m); now := now m;
        exchanges := exchanges m; dialogs := dialogs m;
        console := console m; world := world m |}).

(** [setTimeout(cb, ms)] and [setInterval(cb, ms)] *)
Definition setTimeout (cb : callback) (ms : Z) : M W nat :=
  add_timer ms None cb.
Definition setInterval (cb : callback) (ms : Z) : M W nat :=
  add_timer ms (Some ms) cb.

(** [clearInterval(id)] *)
Definition clearInterval (id : nat) : M W unit := fun m =>
  (Ok tt,
   {| hooks := hooks m; mounted := mounted m; interval := interval m;
      timers := filter (fun t => negb (Nat.eqb (tid t) id)) (timers m);
      next_timer := next_timer m; now := now m;
      exchanges := exchanges m; dialogs := dialogs m;
      console := console m; world := world m |}).

Context `{World W}.

(** [await axios.get(url)], [.post(url)], [.delete(url)]: the value is
    [response.data]. *)
Definition axios (mt : method) (u : string) : M W value := fun m =>
  let rq := {| meth := mt; url := u |} in
  let (r, w') := send rq (world m) in
  let m' :=
    {| hooks := hooks m; mounted := mounted m; interval := interval m;
       timers := timers m; next_timer := next_timer m; now := now m;
       exchanges := exchanges m ++ [(rq, r)]; dialogs := dialogs m;
       console := console m; world := w' |} in
  match r with
  | Resolved data => (Ok data, m')
  | Rejected msg => (Throw (AxiosError msg), m')
  end.

(** [window.confirm(text)] *)
Definition window_confirm (text : string) : M W bool := fun m =>
  let (b, w') := confirm text (world m) in
  (Ok b,
   {| hooks := hooks m; mounted := mounted m; interval := interval m;
      timers := timers m; next_timer := next_timer m; now := now m;
      exchanges := exchanges m; dialogs := dialogs m ++ [text];
      console := console m; world := w' |}).

(** Fetch alerts from API *)
Definition fetchAlerts : M W unit :=
  try_catch
    (data <- axios GET (API ++ "/alerts") ;;
     setAlerts data ;;
     setError VNull)
    (fun err =>
       console_error "Error fetching alerts:" err ;;
       setError (VStr "Failed to fetch alerts")).

(** Fetch monitoring status *)
Definition fetchStatus : M W unit :=
  try_catch
    (data <- axios GET (API ++ "/status") ;;
     setStatus data ;;
     setError VNull)
    (fun err =>
       console_error "Error fetching status:" err ;;
       setError (VStr "Failed to fetch status")).

(** Start monitoring *)
Definition startMonitoring : M W unit :=
  try_catch
    (axios POST (API ++ "/monitoring/start") ;;
     fetchStatus)
    (fun err =>
       console_error "Error starting monitoring:" err ;;
       setError (VStr "Failed to start monitoring")).

(** Stop monitoring *)
Definition stopMonitoring : M W unit :=
  try_catch
    (axios POST (API ++ "/monitoring/stop") ;;
     fetchStatus)
    (fun err =>
       console_error "Error stopping monitoring:" err ;;
       setError (VStr "Failed to stop monitoring")).

(** Clear all alerts *)
Definition clearAlerts : M W unit :=
  yes <- window_confirm "Are you sure you want to clear all alerts?" ;;
  if (yes : bool) then
    try_catch
      (axios DELETE (API ++ "/alerts") ;;
       fetchAlerts ;;
       fetchStatus)
      (fun err =>
         console_error "Error clearing alerts:" err ;;
         setError (VStr "Failed to clear alerts"))
  else ret tt.

(** Generate mock alert for testing *)
Definition generateMockAlert : M W unit :=
  try_catch
    (data <- axios GET (API ++ "/test/generate-mock-alert") ;;
     fetchAlerts ;;
     fetchStatus ;;
     alertData <- lift (get data "alert") ;;
     threat_level <- lift (get alertData "threat_level") ;;
     lift (to_primitive threat_level) ;;
     platform <- lift (get alertData "platform") ;;
     lift (to_primitive platform) ;;
     score <- lift (get alertData "score") ;;
     lift (to_primitive score) ;;
     author <- lift (get alertData "author") ;;
     lift (to_primitive author) ;;
     setNotification
       (Some {| type := "success";
                title := "✅ Test Alert Generated!";
                message := [Lit "Created "; ToString threat_level;
                            Lit " threat alert from "; ToString platform];
                details := [Lit "Score: "; ToFixed1x100 score;
                            Lit "% | Author: @"; ToString author] |}) ;;
     setTimeout hideNotification_cb 4000 ;;
     ret tt)
    (fun err =>
       console_error "Error generating mock alert:" err ;;
       setError (VStr "Failed to generate mock alert") ;;
       setNotification
         (Some {| type := "error";
                  title := "❌ Error";
                  message := [Lit "Failed to generate test alert"];
                  details := [Lit (err_message err)] |}) ;;
       setTimeout hideNotification_cb 4000 ;;
       ret tt).

(** Initial data load.  The source starts the two fetches of
    [Promise.all] together; here the first is settled before the second
    is started, which is the run of the source in which the responses
    come back in the order of the requests. *)
Definition loadData : M W unit :=
  setLoading true ;;
  fetchAlerts ;;
  fetchStatus ;;
  setLoading false.

(** The arrow function handed to [setInterval].  As in [loadData], the
    source starts the two fetches together and the responses are taken in
    the order of the requests. *)
Definition poll : M W unit :=
  fetchAlerts ;;
  fetchStatus.

End Hooks.

(** The [error && (...)] block of [App]. *)
Definition errorBanner (error : value) : node :=
  if truthy error
  then Elem "div"
         [cls "bg-red-100 border border-red-400 text-red-700 px-4 py-3 rounded mb-6"]
         [Elem "strong" [] [Text "Error:"]; Text " "; Child error]
  else Child error.

Definition with_key (k : value) (n : node) : node :=
  match n with
  | Elem tag ps children => Elem tag (key k :: ps) children
  | _ => n
  end.

(** [alerts.map((alert) => <ThreatAlert key={alert.id} alert={alert} />)]:
    React turns the key into a string when the element is created. *)
Definition alertCards (alerts : value) : res (list node) :=
  match alerts with
  | VArr items =>
      mapM_res (fun alert =>
                  id <- get alert "id" ;;
                  _ <- to_primitive id ;;
                  card <- ThreatAlert alert ;;
                  ret (with_key id card)) items
  | _ => Throw (TypeError "alerts.map is not a function")
  end.

Definition loadingScreen : node :=
  Elem "div" [cls "min-h-screen bg-gray-100 flex items-center justify-center"]
    [ Elem "div" [cls "text-center"]
        [ Elem "div"
            [cls "animate-spin rounded-full h-12 w-12 border-b-2 border-blue-600 mx-auto mb-4"]
            [];
          Elem "div" [cls "text-gray-600"]
            [Text "Loading VIP Threat Monitoring System..."] ] ].

(** The tree [App] returns once the data is loaded, as a function of its
    computed parts: the notification popup, the error block, the
    monitoring panel, [alerts.length] and the alert list. *)
Definition dashboard (popup banner monitoring : node) (length : value)
           (list : node) : node :=
  Elem "div" [cls "min-h-screen bg-gray-100"]
    [ popup;
      Elem "header" [cls "bg-white shadow-sm border-b"]
        [ Elem "div" [cls "max-w-7xl mx-auto px-4 sm:px-6 lg:px-8 py-4"]
            [ Elem "div" [cls "flex items-center justify-between"]
                [ Elem "div" []
                    [ Elem "h1" [cls "text-2xl font-bold text-gray-900"]
                        [Text "🛡️ VIP Threat Monitoring System"];
                      Elem "p" [cls "text-gray-600"]
                        [Text "Real-time social media threat detection and analysis"] ];
                  Elem "div" [cls "flex space-x-2"]
                    [ Elem "button"
                        [onClick generateMockAlert_h;
                         cls "px-3 py-2 bg-blue-600 text-white rounded-md text-sm font-semibold hover:bg-blue-700"]
                        [Text "🧪 Generate Test Alert"] ] ] ] ];
      Elem "main" [cls "max-w-7xl mx-auto px-4 sm:px-6 lg:px-8 py-8"]
        [ banner;
          monitoring;
          Elem "div" [cls "bg-white p-6 rounded-lg shadow-md"]
            [ Elem "div" [cls "flex items-center justify-between mb-6"]
                [ Elem "h2" [cls "text-xl font-bold text-gray-900"]
                    [Text "Threat Alerts"];
                  Elem "div" [cls "text-sm text-gray-600"]
                    [Child length;
                     Text " alerts • Updated every 15 seconds"] ];
              list ] ];
      Elem "footer" [cls "bg-white border-t mt-12"]
        [ Elem "div" [cls "max-w-7xl mx-auto px-4 sm:px-6 lg:px-8 py-4"]
            [ Elem "div" [cls "text-center text-sm text-gray-600"]
                [Text "VIP Threat Monitoring System • Monitoring: Twitter, Facebook, Instagram"] ] ] ].

(** The [alerts.length === 0] branch of [App]. *)
Definition noThreats : node :=
  Elem "div" [cls "text-center py-12"]
    [ Elem "div" [cls "text-6xl mb-4"] [Text "🎉"];
      Elem "div" [cls "text-xl font-semibold text-gray-900 mb-2"]
        [Text "No Threats Detected"];
      Elem "div" [cls "text-gray-600"]
        [Text "All monitored content appears safe"];
      Elem "button"
        [onClick generateMockAlert_h;
         cls "mt-4 px-4 py-2 bg-blue-600 text-white rounded-md hover:bg-blue-700"]
        [Text "Generate Test Alert"] ].

(** What [App] returns for the current hook state, with the child
    components rendered in place.  A failure anywhere leaves no page, so
    the order in which the parts are evaluated does not show. *)
Definition App (s : state) : res node :=
  if loading s then ret loadingScreen
  else
    monitoring <- MonitoringStatus (status s)
                    startMonitoring_h stopMonitoring_h clearAlerts_h ;;
    length <- get (alerts s) "length" ;;
    list <- (if is_zero length then ret noThreats
             else cards <- alertCards (alerts s) ;;
                  ret (Elem "div" [cls "space-y-4"] cards)) ;;
    ret (dashboard (NotificationPopup (notification_of s))
                   (errorBanner (error s)) monitoring length list).

(** The page on screen: the tree [App] returns, when it can be built and
    React accepts every child of it. *)
Definition screen (s : state) : option node :=
  match App s with
  | Ok n => if react_ok n then Some n else None
  | Throw _ => None
  end.

(* ===================================================================== *)
(** ** Events *)
(* ===================================================================== *)

(** What happens to the page: React mounts and unmounts it, time passes,
    a due timer runs, the user clicks.  An event runs its asynchronous
    code to the end, every [await] included, before the next event: the
    runs covered are those in which no event falls between a request and
    its response.  [Unmount] stands for every unmount, the one React does
    on its own after a render that threw included; when it comes is left
    to the run. *)
Inductive event : Type :=
| Mount
| Unmount
| Elapse (ms : Z)
| Fire (id : nat)
| Click (h : handler).

Section Events.
Context {W : Type} `{World W}.

Definition handler_code (h : handler) : M W unit :=
  match h with
  | startMonitoring_h => startMonitoring
  | stopMonitoring_h => stopMonitoring
  | clearAlerts_h => clearAlerts
  | generateMockAlert_h => generateMockAlert
  | closeNotification_h => setNotification None
  end.

Definition callback_code (cb : callback) : M W unit :=
  match cb with
  | poll_cb => poll
  | hideNotification_cb => setNotification None
  end.

(** The two effects of [App], run on mount: the initial data load, then
    the polling interval, whose id the cleanup closure keeps.  The source
    arms the interval while the two requests of the load are pending; the
    load is settled here before the next event, by which time the
    interval is armed in both. *)
Definition mount_effects : M W unit :=
  loadData ;;
  id <- setInterval poll_cb 15000 ;;
  (fun m =>
     (Ok tt,
      {| hooks := hooks m; mounted := true; interval := Some id;
         timers := timers m; next_timer := next_timer m; now := now m;
         exchanges := exchanges m; dialogs := dialogs m;
         console := console m; world := world m |})).

(** The cleanup of the polling effect. *)
Definition unmount_effects : M W unit :=
  fun m =>
    let m' :=
      {| hooks := hooks m; mounted := false; interval := None;
         timers := timers m; next_timer := next_timer m; now := now m;
         exchanges := exchanges m; dialogs := dialogs m;
         console := console m; world := world m |} in
    match interval m with
    | Some id => clearInterval id m'
    | None => (Ok tt, m')
    end.

Definition find_timer (id : nat) (ts : list timer) : option timer :=
  find (fun t => Nat.eqb (tid t) id) ts.

(** A timer that has run is re-armed when it is an interval and dropped
    when it is a timeout. *)
Definition rearm (id : nat) (ts : list timer) : list timer :=
  flat_map (fun t =>
              if Nat.eqb (tid t) id
              then match period t with
                   | Some p => [ {| tid := tid t; remaining := p;
                                    period := period t;
                                    callback_of := callback_of t |} ]
                   | None => []
                   end
              else [t]) ts.

Definition with_timers (f : list timer -> list timer) (dt : Z)
           (m : machine W) : machine W :=
  {| hooks := hooks m; mounted := mounted m; interval := interval m;
     timers := f (timers m); next_timer := next_timer m; now := now m + dt;
     exchanges := exchanges m; dialogs := dialogs m;
     console := console m; world := world m |}.

(** One event; [None] when it cannot happen in this state: time does not
    run past a due timer, a timer runs when its delay is used up, a
    click needs an enabled element carrying the handler on screen. *)
Definition step (e : event) (m : machine W) : option (machine W) :=
  match e with
  | Mount =>
      if mounted m then None else Some (run mount_effects m)
  | Unmount =>
      if mounted m then Some (run unmount_effects m) else None
  | Elapse ms =>
      if (0 <? ms)%Z && forallb (fun t => (ms <=? remaining t)%Z) (timers m)
      then Some (with_timers
                   (map (fun t => {| tid := tid t;
                                     remaining := remaining t - ms;
                                     period := period t;
                                     callback_of := callback_of t |}))
                   ms m)
      else None
  | Fire id =>
      match find_timer id (timers m) with
      | Some t =>
          if (remaining t =? 0)%Z
          then Some (run (callback_code (callback_of t))
                         (with_timers (rearm id) 0 m))
          else None
      | None => None
      end
  | Click h =>
      if mounted m
      then match screen (hooks m) with
           | Some page =>
               if clickable h page then Some (run (handler_code h) m)
               else None
           | None => None
           end
      else None
  end.

Fixpoint steps (es : list event) (m : machine W) : option (machine W) :=
  match es with
  | [] => Some m
  | e :: rest =>
      match step e m with
      | Some m' => steps rest m'
      | None => None
      end
  end.

End Events.

(* ===================================================================== *)
(** ** The backend behind the API *)
(* ===================================================================== *)

Definition request_url (rq : request) : string := url rq.

Module Backend.

(** Modelled from the spec: the server (Alert Store, Monitoring
    Controller and HTTP surface of sections 3, 4.4 and 6) is not part of
    the sources.  A post after the analysis pipeline has produced its
    verdict, with the fields an Alert copies from both. *)
Record analysed : Type := {
  platform : string;
  author : string;
  content : string;
  url : string;
  score : Q;
  threat_level : string;
  reason : string;
  ai_analysis : string
}.

(** Modelled from the spec: the backend's state is missing from the
    sources.  The Alert Store in persisting order, the MonitoringState
    of section 3, the next unique alert id and the server's clock. *)
Record server : Type := {
  store : list value;
  is_running : bool;
  platforms_monitored : list string;
  alerts_count : nat;
  last_check : option Z;
  next_id : nat;
  clock : Z
}.

(** Modelled from the spec: the backend at process start, which is not
    in the sources: Stopped, nothing stored, nothing counted, no scan
    completed yet. *)
Definition initial (platforms : list string) : server :=
  {| store := []; is_running := false; platforms_monitored := platforms;
     alerts_count := 0; last_check := None; next_id := 0; clock := 0 |}.

(** Modelled from the spec: the persisted Alert of section 3, with its
    unique [id] and its [timestamp] taken at detection time. *)
Definition alert_json (id : nat) (time : Z) (p : analysed) : value :=
  VObj [ ("id", num_of_nat id);
         ("platform", VStr (platform p));
         ("author", VStr (author p));
         ("content", VStr (content p));
         ("url", VStr (url p));
         ("timestamp", VNum (inject_Z time));
         ("score", VNum (score p));
         ("threat_level", VStr (threat_level p));
         ("reason", VStr (reason p));
         ("ai_analysis", VStr (ai_analysis p)) ].

(** Modelled from the spec: writing one Alert to the store and counting
    it, the step shared by the scan cycle and the mock-alert endpoint. *)
Definition persist (p : analysed) (s : server) : value * server :=
  let a := alert_json (next_id s) (clock s) p in
  (a, {| store := store s ++ [a]; is_running := is_running s;
         platforms_monitored := platforms_monitored s;
         alerts_count := S (alerts_count s); last_check := last_check s;
         next_id := S (next_id s); clock := clock s + 1 |}).

(** Modelled from the spec: one scan cycle of section 4.4, given the
    verdicts of the cycle that reach the alert threshold.  It runs only
    while Running and sets [last_check] whether or not an alert was
    produced. *)
Definition scan_cycle (qualifying : list analysed) (s : server) : server :=
  if is_running s then
    let s' := fold_left (fun acc p => snd (persist p acc)) qualifying s in
    {| store := store s'; is_running := is_running s';
       platforms_monitored := platforms_monitored s';
       alerts_count := alerts_count s'; last_check := Some (clock s');
       next_id := next_id s'; clock := clock s' + 1 |}
  else s.

(** Modelled from the spec: [start()] of the Monitoring Controller,
    section 4.4, missing from the sources: Running afterwards, a no-op
    when already Running. *)
Definition start (s : server) : server :=
  {| store := store s; is_running := true;
     platforms_monitored := platforms_monitored s;
     alerts_count := alerts_count s; last_check := last_check s;
     next_id := next_id s; clock := clock s |}.

(** Modelled from the spec: [stop()] of the Monitoring Controller,
    missing from the sources: Stopped afterwards, a no-op when already
    Stopped. *)
Definition stop (s : server) : server :=
  {| store := store s; is_running := false;
     platforms_monitored := platforms_monitored s;
     alerts_count := alerts_count s; last_check := last_check s;
     next_id := next_id s; clock := clock s |}.

(** Modelled from the spec: [clear()] of the Monitoring Controller,
    missing from the sources: empties the store and resets the counter
    in one step, and leaves [is_running] alone. *)
Definition clear (s : server) : server :=
  {| store := []; is_running := is_running s;
     platforms_monitored := platforms_monitored s;
     alerts_count := 0; last_check := last_check s;
     next_id := next_id s; clock := clock s |}.

(** Modelled from the spec: the MonitoringState object of GET /status. *)
Definition status_json (s : server) : value :=
  VObj [ ("is_running", VBool (is_running s));
         ("platforms_monitored", VArr (map VStr (platforms_monitored s)));
         ("alerts_count", num_of_nat (alerts_count s));
         ("last_check",
          match last_check s with
          | Some t => VNum (inject_Z t)
          | None => VNull
          end) ].

(** Modelled from the spec: the status ack of the commands, whose body
    the spec leaves open and the dashboard never reads. *)
Definition ack (text : string) : value := VObj [ ("status", VStr text) ].

(** Modelled from the spec: the table of section 6, one row per
    endpoint the dashboard calls; [synth] is the post the mock endpoint
    synthesizes.  A path outside the table has no answer. *)
Definition handle (synth : analysed) (mt : method) (path : string)
           (s : server) : option value * server :=
  match mt with
  | GET =>
      if String.eqb path "/alerts" then (Some (VArr (store s)), s)
      else if String.eqb path "/status" then (Some (status_json s), s)
      else if String.eqb path "/test/generate-mock-alert"
      then let (a, s') := persist synth s in
           (Some (VObj [ ("alert", a) ]), s')
      else (None, s)
  | POST =>
      if String.eqb path "/monitoring/start"
      then (Some (ack "started"), start s)
      else if String.eqb path "/monitoring/stop"
      then (Some (ack "stopped"), stop s)
      else (None, s)
  | DELETE =>
      if String.eqb path "/alerts" then (Some (ack "cleared"), clear s)
      else (None, s)
  end.

(** Modelled from the spec: what surrounds one request on its way, since
    neither the network nor the scan loop is in the sources: whether the
    request is lost, and the qualifying verdicts of the scan cycle that
    completes before it is served. *)
Record arrival : Type := {
  lost : bool;
  scanned : option (list analysed)
}.

(** Modelled from the spec: a request that gets through while the scan
    loop is idle. *)
Definition quiet : arrival := {| lost := false; scanned := None |}.

(** Modelled from the spec: a world made of the server above, a plan for
    the coming requests, the user's answers to the coming dialogs and
    the post the mock endpoint synthesizes. *)
Record sim : Type := {
  srv : server;
  plan : list arrival;
  answers : list bool;
  synth : analysed
}.

(** Modelled from the spec: the address of the backend, which the build
    environment gives and the sources do not; any string would do. *)
Definition base : string := "https://vip.example".

(** Modelled from the spec: routing under the common API prefix of
    section 6; the part of a URL after the prefix. *)
Fixpoint strip (prefix s : string) : option string :=
  match prefix, s with
  | EmptyString, _ => Some s
  | String a p, String b t => if Ascii.eqb a b then strip p t else None
  | String _ _, EmptyString => None
  end.

(** Modelled from the spec: what surrounds the next request; a plan that
    has run out means quiet arrivals. *)
Definition next_arrival (w : sim) : arrival := hd quiet (plan w).

(** Modelled from the spec: the server as the next request finds it,
    after the scan cycle that completes before it, if any. *)
Definition before_serving (w : sim) : server :=
  match scanned (next_arrival w) with
  | Some posts => scan_cycle posts (srv w)
  | None => srv w
  end.

(** Modelled from the spec: the world once a request has been dealt
    with, the server being left in state [s]. *)
Definition after (w : sim) (s : server) : sim :=
  {| srv := s; plan := tl (plan w); answers := answers w; synth := synth w |}.

(** Modelled from the spec: one request over the network to the server
    of section 6.  A lost request is rejected without reaching the
    server, a path outside the table is rejected with a 404, any other
    is resolved with the body of its row. *)
Definition sim_send (rq : request) (w : sim) : response * sim :=
  if lost (next_arrival w)
  then (Rejected "Network Error", after w (before_serving w))
  else
    match strip (base ++ "/api") (request_url rq) with
    | Some path =>
        match handle (synth w) (meth rq) path (before_serving w) with
        | (Some body, s2) => (Resolved body, after w s2)
        | (None, s2) =>
            (Rejected "Request failed with status code 404", after w s2)
        end
    | None => (Rejected "Network Error", after w (before_serving w))
    end.

(** Modelled from the spec: the user in front of a confirmation dialog,
    who declines when no answer is planned. *)
Definition sim_confirm (text : string) (w : sim) : bool * sim :=
  (hd false (answers w),
   {| srv := srv w; plan := plan w; answers := tl (answers w);
      synth := synth w |}).

(** Modelled from the spec: the world the dashboard runs in when its
    backend is the one of the spec. *)
#[global] Instance World_sim : World sim :=
  {| BACKEND_URL := base; send := sim_send; confirm := sim_confirm |}.




End Backend.

(* ===================================================================== *)
(** ** Vocabulary of the properties *)
(* ===================================================================== *)

Section Requests.
Context {W : Type} `{World W}.

Definition GET_alerts : request := {| meth := GET; url := API ++ "/alerts" |}.
Definition GET_status : request := {| meth := GET; url := API ++ "/status" |}.
Definition POST_start : request :=
  {| meth := POST; url := API ++ "/monitoring/start" |}.
Definition POST_stop : request :=
  {| meth := POST; url := API ++ "/monitoring/stop" |}.
Definition DELETE_alerts : request :=
  {| meth := DELETE; url := API ++ "/alerts" |}.
Definition GET_mock : request :=
  {| meth := GET; url := API ++ "/test/generate-mock-alert" |}.

(** What a piece of code put on the wire, with how each request settled. *)
Definition sent (m m' : machine W) (l : list (request * response)) : Prop :=
  exchanges m' = (exchanges m ++ l)%list.

End Requests.

(** The question [clearAlerts] asks. *)
Definition clear_question : string :=
  "Are you sure you want to clear all alerts?".

(** The Alert fields of the data model, and those a card shows. *)
Definition card_fields : list string :=
  [ "platform"; "author"; "content"; "url"; "timestamp"; "score";
    "threat_level"; "reason"; "ai_analysis" ].

Definition alert_fields : list string := "id" :: card_fields.

(** The fields a card turns into a property name, a number or a date,
    and the alerts a card can be built from: those whose four fields can
    be converted. *)
Definition converted_fields : list string :=
  [ "threat_level"; "platform"; "score"; "timestamp" ].

Definition field_is (ok : value -> bool) (a : value) (k : string) : bool :=
  match get a k with Ok v => ok v | Throw _ => false end.

Definition card_buildable (a : value) : bool :=
  forallb (field_is converts a) converted_fields.

(** What a lookup gives once its key is a string. *)
Definition looked_up (table : list (string * string)) (key : value) : member :=
  match to_string key with
  | Some k => lookup table k
  | None => Absent
  end.

(** The element [ThreatAlert] returns, from what it read and looked up. *)
Definition card (color icon badge : member) (platform threat_level : value)
           (score100 : template) (author content reason ai_analysis : value)
           (time : template) (url : value) : node :=
  Elem "div"
    [className [Lit "border-l-4 p-4 mb-4 rounded-lg shadow-md ";
                StringOf color]]
    [ Elem "div" [cls "flex items-start justify-between"]
        [ Elem "div" [cls "flex items-center space-x-2 mb-2"]
            [ Elem "span" [cls "text-2xl"] [ChildOf icon];
              Elem "span" [cls "font-semibold text-lg"] [Child platform];
              Elem "span"
                [className
                   [Lit "px-2 py-1 rounded text-xs font-semibold uppercase ";
                    StringOf badge]]
                [Child threat_level] ];
          Elem "div" [cls "text-sm text-gray-600"]
            [Text "Score: "; TextOf score100; Text "%"] ];
      Elem "div" [cls "mb-3"]
        [ Elem "div" [cls "font-medium text-gray-900"]
            [Text "@"; Child author];
          Elem "div" [cls "text-gray-700 mt-1 italic"]
            [Text dquote; Child content; Text dquote] ];
      Elem "div" [cls "mb-3"]
        [ Elem "div" [cls "text-sm font-semibold text-gray-800"]
            [Text "Detected Issues:"];
          Elem "div" [cls "text-sm text-gray-600"] [Child reason] ];
      aiAnalysisSection ai_analysis;
      Elem "div" [cls "flex justify-between items-center text-xs text-gray-500"]
        [ Elem "div" [] [TextOf time];
          Elem "a"
            [href url; target "_blank"; rel "noopener noreferrer";
             cls "text-blue-600 hover:underline"]
            [Text "View Original Post →"] ] ].

(** The fields a card hands to React as children, and the alerts whose
    card React accepts: no child is an object, the [url] can be made a
    string, and the platform is not the name of the prototype. *)
Definition child_fields : list string :=
  [ "platform"; "threat_level"; "author"; "content"; "reason"; "ai_analysis" ].

Definition not_proto (platform : value) : bool :=
  match to_string platform with
  | Some k => negb (String.eqb k "__proto__")
  | None => true
  end.

Definition card_acceptable (a : value) : bool :=
  forallb (field_is renderable a) child_fields
  && field_is converts a "url"
  && field_is not_proto a "platform".

(** The entries of [alerts] the list can hold: the key can be made a
    string and the card can be built. *)
Definition entry_buildable (a : value) : bool :=
  field_is converts a "id" && card_buildable a.

(** The values that reach the page through a template. *)
Definition text_value (t : text) : list value :=
  match t with
  | Lit _ => []
  | StringOf _ => []
  | ToString v | ToFixed1x100 v | ToLocaleString v | ToLocaleTimeString v => [v]
  end.

Definition prop_values (p : prop) : list value :=
  match p with
  | className t => flat_map text_value t
  | disabled v | href v | key v => [v]
  | onClick _ | target _ | rel _ => []
  end.

(** Every value a tree puts on the page: as a child, inside a formatted
    string, or in an attribute. *)
Fixpoint values_of (n : node) : list value :=
  match n with
  | Elem _ ps children =>
      (flat_map prop_values ps ++ flat_map values_of children)%list
  | Text _ => []
  | TextOf t => flat_map text_value t
  | Child v => [v]
  | ChildOf _ => []
  end.


(** A status object that may lack fields: each MonitoringState field is
    absent, null, or of the type the data model gives it. *)
Definition absent (v : value) : bool := nullish v.

Definition field_ok (ty : value -> bool) (fields : list (string * value))
           (k : string) : bool :=
  match assoc k fields with
  | None => true
  | Some v => absent v || ty v
  end.

Definition is_bool (v : value) : bool :=
  match v with VBool _ => true | _ => false end.
Definition is_num (v : value) : bool :=
  match v with VNum _ => true | _ => false end.
Definition is_time (v : value) : bool :=
  match v with VNum _ | VStr _ => true | _ => false end.
Definition is_str (v : value) : bool :=
  match v with VStr _ => true | _ => false end.
Definition is_str_array (v : value) : bool :=
  match v with VArr items => forallb is_str items | _ => false end.

Definition partial_status (fields : list (string * value)) : bool :=
  field_ok is_bool fields "is_running"
  && field_ok is_str_array fields "platforms_monitored"
  && field_ok is_num fields "alerts_count"
  && field_ok is_time fields "last_check".

(** The statuses the panel can be built from: [last_check] can be read,
    and is falsy or can be made a date. *)
Definition panel_buildable (st : value) : bool :=
  field_is (fun last_check => negb (truthy last_check) || converts last_check)
           st "last_check".

(** A GET /status that came back with data. *)
Definition status_fetched {W} `{World W} (l : list (request * response)) : Prop :=
  exists data, In (GET_status, Resolved data) l.

Definition is_poll (t : timer) : bool :=
  match callback_of t with poll_cb => true | hideNotification_cb => false end.

(** The polling interval as the browser holds it. *)
Definition poll_timer (id : nat) (r : Z) : timer :=
  {| tid := id; remaining := r; period := Some 15000%Z; callback_of := poll_cb |}.

(** The timeout that hides a notification. *)
Definition hide_timer (id : nat) (r : Z) : timer :=
  {| tid := id; remaining := r; period := None;
     callback_of := hideNotification_cb |}.

Section Behaviour.
Context {W : Type} `{World W}.

(** The change a handler or a timer callback makes to the page: it
    leaves mounting, the interval and the clock alone, starts at most
    one timer (the 4 s timeout that hides a notification), talks to the
    given endpoints only, and replaces the status only by the data of a
    GET /status that succeeded. *)
Definition footprint (allowed : list request) (m m' : machine W) : Prop :=
  mounted m' = mounted m
  /\ interval m' = interval m
  /\ now m' = now m
  /\ (timers m' = timers m /\ next_timer m' = next_timer m
      \/ timers m' = (timers m ++ [hide_timer (next_timer m) 4000])%list
         /\ next_timer m' = S (next_timer m))
  /\ exists l,
      sent m m' l
      /\ Forall (fun x => In (fst x) allowed) l
      /\ (status (hooks m') = status (hooks m) \/ status_fetched l).

Definition may_send (h : handler) : list request :=
  match h with
  | startMonitoring_h => [POST_start; GET_status]
  | stopMonitoring_h => [POST_stop; GET_status]
  | clearAlerts_h => [DELETE_alerts; GET_alerts; GET_status]
  | generateMockAlert_h => [GET_mock; GET_alerts; GET_status]
  | closeNotification_h => []
  end.

Definition may_request (cb : callback) : list request :=
  match cb with
  | poll_cb => [GET_alerts; GET_status]
  | hideNotification_cb => []
  end.

Definition event_requests (e : event) : list request :=
  match e with
  | Mount => [GET_alerts; GET_status]
  | Fire _ => [GET_alerts; GET_status]
  | Click h => may_send h
  | Unmount | Elapse _ => []
  end.

(** What the panel shows as the running state. *)
Definition displayed_running (m : machine W) (b : bool) : Prop :=
  get (status (hooks m)) "is_running" = Ok (VBool b).

(** Timer ids are handed out in increasing order. *)
Definition fresh_ids (m : machine W) : Prop :=
  forall t, In t (timers m) -> (tid t < next_timer m)%nat.

Local Open Scope Z_scope.

(** While the component is mounted: the cleanup closure knows the
    interval, the browser holds exactly one polling timer, it is due at
    a multiple of 15000 ms after the mount at time 0, and no other timer
    has or will get its id. *)
Definition polling (m : machine W) (id : nat) (r : Z) : Prop :=
  mounted m = true
  /\ interval m = Some id
  /\ filter is_poll (timers m) = [poll_timer id r]
  /\ 0 <= r <= 15000
  /\ (now m + r) mod 15000 = 0
  /\ (forall t, In t (timers m) -> tid t = id -> is_poll t = true)
  /\ (forall t, In t (timers m) -> (tid t < next_timer m)%nat).

Definition tick (ms : Z) (t : timer) : timer :=
  {| tid := tid t; remaining := remaining t - ms; period := period t;
     callback_of := callback_of t |}.

End Behaviour.

(** The request for a path under the API prefix. *)
Definition api_request {W} `{World W} (mt : method) (path : string) : request :=
  {| meth := mt; url := API ++ path |}.

(** The notification [generateMockAlert] builds for an analysed post. *)
Definition success_notification (p : Backend.analysed) : notification :=
  {| type := "success";
     title := "✅ Test Alert Generated!";
     message := [Lit "Created "; ToString (VStr (Backend.threat_level p));
                 Lit " threat alert from "; ToString (VStr (Backend.platform p))];
     details := [Lit "Score: "; ToFixed1x100 (VNum (Backend.score p));
                 Lit "% | Author: @"; ToString (VStr (Backend.author p))] |}.

(** A threatening post, as the pipeline hands it to the store. *)
Definition threat : Backend.analysed :=
  {| Backend.platform := "Twitter";
     Backend.author := "troll42";
     Backend.content := "I know where you live";
     Backend.url := "https://twitter.example/status/1";
     Backend.score := 9 # 10;
     Backend.threat_level := "critical";
     Backend.reason := "toxicity";
     Backend.ai_analysis := EmptyString |}.

(** A running backend with an empty store, where a scan cycle persists an
    alert between the two requests of the first poll. *)
Definition busy_world : Backend.sim :=
  {| Backend.srv :=
       Backend.start (Backend.initial ["Twitter"; "Facebook"; "Instagram"]);
     Backend.plan :=
       [ Backend.quiet; Backend.quiet; Backend.quiet;
         {| Backend.lost := false; Backend.scanned := Some [threat] |} ];
     Backend.answers := [];
     Backend.synth := threat |}.


(** A backend that cannot be reached for the first request after the
    initial load, and a user who confirms. *)
Definition flaky_world : Backend.sim :=
  {| Backend.srv := Backend.initial ["Twitter"; "Facebook"; "Instagram"];
     Backend.plan :=
       [ Backend.quiet; Backend.quiet;
         {| Backend.lost := true; Backend.scanned := None |} ];
     Backend.answers := [true];
     Backend.synth := threat |}.

(** A running backend that holds one alert, with a quiet network and a
    user who confirms. *)
Definition calm_world : Backend.sim :=
  {| Backend.srv :=
       snd (Backend.persist
              threat
              (Backend.start
                 (Backend.initial ["Twitter"; "Facebook"; "Instagram"])));
     Backend.plan := [];
     Backend.answers := [true];
     Backend.synth := threat |}.

(** The page once the effects of the mount have run. *)
Definition loaded {W} `{World W} (w : W) : machine W :=
  run mount_effects (initial_machine w).

(** The monitoring panel of a status, when it can be built. *)
Definition panel_of (st : value) : node :=
  match MonitoringStatus st startMonitoring_h stopMonitoring_h clearAlerts_h with
  | Ok n => n
  | Throw _ => Child VNull
  end.

(** The state a run of events ends in, when every event could happen. *)
Definition outcome {W} `{World W} (es : list event) (w : W) : machine W :=
  match steps es (initial_machine w) with
  | Some m => m
  | None => initial_machine w
  end.

(* ===================================================================== *)
(** ** Vocabulary of the further properties *)
(* ===================================================================== *)

(** A hook state with another error cell, and with another notification. *)
Definition set_error (e : value) (s : state) : state :=
  {| alerts := alerts s; status := status s; loading := loading s;
     error := e; notification_of := notification_of s |}.

Definition set_notification (n : option notification) (s : state) : state :=
  {| alerts := alerts s; status := status s; loading := loading s;
     error := error s; notification_of := n |}.

(** The six messages the file hands to [setError]. *)
Definition error_messages : list string :=
  [ "Failed to fetch alerts"; "Failed to fetch status";
    "Failed to start monitoring"; "Failed to stop monitoring";
    "Failed to clear alerts"; "Failed to generate mock alert" ].

(** An error cell the file can produce: [null] or one of the six. *)
Definition known_error (e : value) : bool :=
  match e with
  | VNull => true
  | VStr s => existsb (String.eqb s) error_messages
  | _ => false
  end.

(** The notification of the [catch] block of [generateMockAlert]. *)
Definition error_notification (msg : string) : notification :=
  {| type := "error";
     title := "❌ Error";
     message := [Lit "Failed to generate test alert"];
     details := [Lit msg] |}.

(** The two kinds of notification the file builds. *)
Definition notification_kind (n : option notification) : option string :=
  match n with Some x => Some (type x) | None => None end.

Definition method_eqb (a b : method) : bool :=
  match a, b with
  | GET, GET | POST, POST | DELETE, DELETE => true
  | _, _ => false
  end.

Definition request_eqb (a b : request) : bool :=
  method_eqb (meth a) (meth b) && String.eqb (url a) (url b).

(** The body of the latest resolved request to [rq] in a log, [d] when
    there is none. *)
Fixpoint last_resolved (rq : request) (d : value)
         (l : list (request * response)) : value :=
  match l with
  | [] => d
  | (r, Resolved data) :: rest =>
      last_resolved rq (if request_eqb r rq then data else d) rest
  | (_, Rejected _) :: rest => last_resolved rq d rest
  end.

(** The values of [alerts] the list part of [App] can be built from: an
    array without [null] or [undefined] entry, or anything whose [length]
    is zero. *)
Definition listable (a : value) : bool :=
  match a with
  | VUndefined | VNull => false
  | VArr items => forallb (fun x => negb (nullish x)) items
  | _ => match get a "length" with
         | Ok len => is_zero len
         | Throw _ => false
         end
  end.

(** The values of [alerts] the list part of [App] is built from: an
    array of entries a card can be made of, or anything else whose
    [length] is zero. *)
Definition list_buildable (a : value) : bool :=
  match a with
  | VUndefined | VNull => false
  | VArr items => forallb entry_buildable items
  | _ => match get a "length" with
         | Ok len => is_zero len
         | Throw _ => false
         end
  end.

Definition is_hide (t : timer) : bool := negb (is_poll t).

Section Endpoints.
Context {W : Type} `{World W}.

(** The endpoint of the backend the file has no call for. *)
Definition GET_recent : request :=
  {| meth := GET; url := API ++ "/alerts/recent" |}.

(** The six requests the file can make. *)
Definition endpoints : list request :=
  [ GET_alerts; GET_status; POST_start; POST_stop; DELETE_alerts; GET_mock ].

End Endpoints.

(** The message of the TypeError [generateMockAlert] runs into on a body
    without alert: the one of reading [alert], or else the one of
    reading [threat_level]. *)
Definition missing_alert_message (data : value) : string :=
  match get data "alert" with
  | Throw e => err_message e
  | Ok a => match get a "threat_level" with
            | Throw e => err_message e
            | Ok _ => EmptyString
            end
  end.

(** One card for each alert, in order, with the alert's [id] as key. *)
Definition keyed_card (a : value) (c : node) : Prop :=
  exists id n, get a "id" = Ok id /\ ThreatAlert a = Ok n /\ c = with_key id n.

(** The rejected requests of a log. *)
Definition is_rejected (x : request * response) : bool :=
  match snd x with Rejected _ => true | Resolved _ => false end.

Definition rejected_count (l : list (request * response)) : nat :=
  List.length (filter is_rejected l).

(** The six labels the file hands to [console.error]. *)
Definition console_labels : list string :=
  [ "Error fetching alerts:"; "Error fetching status:";
    "Error starting monitoring:"; "Error stopping monitoring:";
    "Error clearing alerts:"; "Error generating mock alert:" ].

Section Effects.
Context {W : Type} `{World W}.

(** What a handler or a timer callback does to the hooks, in terms of
    what it put on the wire. *)
Definition frame (m m' : machine W) : Prop :=
  exists l,
    sent m m' l
    /\ Forall (fun x => In (fst x) endpoints) l
    /\ alerts (hooks m') = last_resolved GET_alerts (alerts (hooks m)) l
    /\ status (hooks m') = last_resolved GET_status (status (hooks m)) l
    /\ (known_error (error (hooks m)) = true ->
        known_error (error (hooks m')) = true).

(** What a piece of code adds to the log and to the console. *)
Definition logged (m m' : machine W) : Prop :=
  exists l c,
    sent m m' l
    /\ console m' = (console m ++ c)%list
    /\ (rejected_count l <= List.length c)%nat
    /\ Forall (fun x => In (fst x) console_labels) c.

End Effects.

(** A world that answers the requests from a script, one response for
    each request in turn and a network error once the script has run
    out, in front of a user who accepts every dialog. *)
Definition script : Type := list response.

Definition World_script : World script :=
  {| BACKEND_URL := "http://localhost:8001";
     send := fun _ w => (hd (Rejected "Network Error") w, tl w);
     confirm := fun _ w => (true, w) |}.

(** Bodies for the scripts: a list of one alert, and a status. *)
Definition one_alert : value := VArr [Backend.alert_json 0 0 threat].

Definition running_status (n : nat) : value :=
  VObj [ ("is_running", VBool true);
         ("platforms_monitored", VArr [VStr "Twitter"]);
         ("alerts_count", num_of_nat n);
         ("last_check", VNull) ].

(** The page on screen, when there is one. *)
Definition page_of (s : state) : node :=
  match screen s with Some page => page | None => Child VNull end.

(** The card of an alert, when it can be built. *)
Definition card_of (a : value) : node :=
  match ThreatAlert a with Ok n => n | Throw _ => Child VNull end.

(** A run in which the first poll fails to get the alerts. *)
Definition bumpy_run : list event := [Mount; Elapse 15000; Fire 0].

Definition bumpy_script : script :=
  [ Resolved one_alert; Resolved (running_status 1);
    Rejected "timeout"; Resolved (running_status 2) ].

(** A page right after a test alert was generated. *)
Definition notified : machine script :=
  @outcome script World_script [Mount; Click generateMockAlert_h]
          [ Resolved (VArr []); Resolved (running_status 0);
            Resolved (VObj [("alert", Backend.alert_json 0 0 threat)]);
            Resolved one_alert; Resolved (running_status 1) ].

(** The two outer elements of [NotificationPopup], with the colours
    [bgColor] and [textColor] chose. *)
Definition popup_frame (bgColor textColor : string) (kids : list node) : node :=
  Elem "div" [cls "fixed top-4 right-4 z-50 max-w-sm"]
    [ Elem "div"
        [className [Lit bgColor; Lit " border rounded-lg shadow-lg p-4 ";
                    Lit textColor; Lit " animate-slide-in"]]
        kids ].

(* ===================================================================== *)
(** ** Fetch failures keep the last good data *)
(* ===================================================================== *)

Lemma react_ok_dashboard popup banner monitoring length list :
  react_ok (dashboard popup banner monitoring length list)
  = react_ok popup && react_ok banner && react_ok monitoring
    && renderable length && react_ok list.
Proof.
  simpl.
  destruct (react_ok popup), (react_ok banner), (react_ok monitoring),
    (renderable length), (react_ok list); reflexivity.
Qed.

Lemma App_loaded (s : state) :
  loading s = false ->
  App s =
    (monitoring <- MonitoringStatus (status s)
                     startMonitoring_h stopMonitoring_h clearAlerts_h ;;
     length <- get (alerts s) "length" ;;
     list <- (if is_zero length then ret noThreats
              else cards <- alertCards (alerts s) ;;
                   ret (Elem "div" [cls "space-y-4"] cards)) ;;
     ret (dashboard (NotificationPopup (notification_of s))
                    (errorBanner (error s)) monitoring length list)).
Proof. intros Hl. unfold App. rewrite Hl. reflexivity. Qed.

(** The parts of a dashboard on screen, read back from the hook state. *)
Lemma screen_dashboard (s : state) popup banner monitoring length list :
  screen s = Some (dashboard popup banner monitoring length list) ->
  loading s = false
  /\ popup = NotificationPopup (notification_of s)
  /\ banner = errorBanner (error s)
  /\ MonitoringStatus (status s) startMonitoring_h stopMonitoring_h clearAlerts_h
     = Ok monitoring
  /\ get (alerts s) "length" = Ok length
  /\ (if is_zero length then ret noThreats
      else cards <- alertCards (alerts s) ;;
           ret (Elem "div" [cls "space-y-4"] cards)) = Ok list
  /\ react_ok (dashboard popup banner monitoring length list) = true.
Proof.
  unfold screen. intros Hs.
  destruct (loading s) eqn:Hl.
  - unfold App in Hs. rewrite Hl in Hs. cbn in Hs. discriminate Hs.
  - rewrite (App_loaded s Hl) in Hs. cbn [bind ret Monad_res res_bind] in *.
    destruct (MonitoringStatus _ _ _ _) as [mon|e]; [|discriminate Hs].
    cbn [res_bind] in Hs.
    destruct (get (alerts s) "length") as [len|e]; [|discriminate Hs].
    cbn [res_bind] in Hs.
    destruct (if is_zero len then _ else _) as [lst|e] eqn:Hlst;
      [|discriminate Hs].
    cbn [res_bind] in Hs.
    destruct (react_ok _) eqn:Hok; [|discriminate Hs].
    injection Hs as Hp Hb Hm Hlen Hlist. subst.
    repeat split; auto.
Qed.

Lemma dashboard_screen (s : state) monitoring length list :
  loading s = false ->
  MonitoringStatus (status s) startMonitoring_h stopMonitoring_h clearAlerts_h
  = Ok monitoring ->
  get (alerts s) "length" = Ok length ->
  (if is_zero length then ret noThreats
   else cards <- alertCards (alerts s) ;;
        ret (Elem "div" [cls "space-y-4"] cards)) = Ok list ->
  react_ok (dashboard (NotificationPopup (notification_of s))
                      (errorBanner (error s)) monitoring length list) = true ->
  screen s = Some (dashboard (NotificationPopup (notification_of s))
                             (errorBanner (error s)) monitoring length list).
Proof.
  intros Hl Hm Hlen Hlist Hok. unfold screen.
  rewrite (App_loaded s Hl). cbn [bind ret Monad_res res_bind] in *.
  rewrite Hm. cbn [res_bind]. rewrite Hlen. cbn [res_bind].
  rewrite Hlist. cbn [res_bind]. rewrite Hok. reflexivity.
Qed.

(** Running the monadic code on a machine given by its components, down
    to the calls of the world. *)
Ltac open_machine m :=
  let s := fresh "s" in
  destruct m as [s ? ? ? ? ? ? ? ? ?]; destruct s as [? ? ? ? ?].

Ltac unfold_M :=
  cbv [run fetchAlerts fetchStatus startMonitoring stopMonitoring clearAlerts
       generateMockAlert loadData poll handler_code callback_code
       mount_effects
       bind ret Monad_M M_bind M_ret try_catch lift to_primitive
       axios window_confirm setAlerts setStatus setLoading setError
       setNotification console_error setTimeout setInterval add_timer
       with_hooks
       hooks mounted interval timers next_timer now exchanges dialogs console
       world alerts status loading error notification_of fst snd] in *.

(** Equations on what the world answered, reconciled. *)
Ltac tidy_sends :=
  repeat match goal with
         | H1 : ?t = _, H2 : ?t = _ |- _ => rewrite H1 in H2
         | H : (_, _) = (_, _) |- _ =>
             first [ discriminate H
                   | injection H as ? ?; subst ]
         end.

Ltac case_send :=
  match goal with
  | |- context [send ?r ?w] =>
      let d := fresh "data" in
      let e := fresh "msg" in
      let w' := fresh "w" in
      let E := fresh "Hsend" in
      destruct (send r w) as [[d|e] w'] eqn:E; unfold_M
  end.

Section LastKnownGood.
Context {W : Type} `{World W}.

Lemma fetchAlerts_rejected (m : machine W) msg w' :
  send GET_alerts (world m) = (Rejected msg, w') ->
  hooks (run fetchAlerts m)
  = {| alerts := alerts (hooks m); status := status (hooks m);
       loading := loading (hooks m);
       error := VStr "Failed to fetch alerts";
       notification_of := notification_of (hooks m) |}.
Proof.
  intros Hs. open_machine m. unfold GET_alerts in Hs. unfold_M.
  rewrite Hs. reflexivity.
Qed.

Lemma fetchStatus_rejected (m : machine W) msg w' :
  send GET_status (world m) = (Rejected msg, w') ->
  hooks (run fetchStatus m)
  = {| alerts := alerts (hooks m); status := status (hooks m);
       loading := loading (hooks m);
       error := VStr "Failed to fetch status";
       notification_of := notification_of (hooks m) |}.
Proof.
  intros Hs. open_machine m. unfold GET_status in Hs. unfold_M.
  rewrite Hs. reflexivity.
Qed.

Lemma fetchAlerts_resolved (m : machine W) data w' :
  send GET_alerts (world m) = (Resolved data, w') ->
  hooks (run fetchAlerts m)
  = {| alerts := data; status := status (hooks m);
       loading := loading (hooks m); error := VNull;
       notification_of := notification_of (hooks m) |}.
Proof.
  intros Hs. open_machine m. unfold GET_alerts in Hs. unfold_M.
  rewrite Hs. reflexivity.
Qed.

Lemma fetchStatus_resolved (m : machine W) data w' :
  send GET_status (world m) = (Resolved data, w') ->
  hooks (run fetchStatus m)
  = {| alerts := alerts (hooks m); status := data;
       loading := loading (hooks m); error := VNull;
       notification_of := notification_of (hooks m) |}.
Proof.
  intros Hs. open_machine m. unfold GET_status in Hs. unfold_M.
  rewrite Hs. reflexivity.
Qed.

(** Replacing the error cell of a state whose dashboard is on screen
    replaces the error block and nothing else. *)
Lemma screen_with_error (s : state) (e : value)
      popup banner monitoring length list :
  screen s = Some (dashboard popup banner monitoring length list) ->
  renderable e = true ->
  screen {| alerts := alerts s; status := status s; loading := loading s;
            error := e; notification_of := notification_of s |}
  = Some (dashboard popup (errorBanner e) monitoring length list).
Proof.
  intros Hs He.
  apply screen_dashboard in Hs.
  destruct Hs as (Hl & Hp & Hb & Hm & Hlen & Hlist & Hok).
  subst popup.
  apply (dashboard_screen
           {| alerts := alerts s; status := status s; loading := loading s;
              error := e; notification_of := notification_of s |});
    cbn [alerts status loading error notification_of]; auto.
  rewrite react_ok_dashboard in *.
  apply andb_prop in Hok. destruct Hok as [Hok Hl4].
  apply andb_prop in Hok. destruct Hok as [Hok Hl3].
  apply andb_prop in Hok. destruct Hok as [Hok Hl2].
  apply andb_prop in Hok. destruct Hok as [Hok Hl1].
  rewrite Hok, Hl2, Hl3, Hl4.
  assert (react_ok (errorBanner e) = true) as ->.
  { unfold errorBanner. destruct (truthy e); simpl; rewrite ?He; reflexivity. }
  reflexivity.
Qed.

(** C1. When GET /alerts or GET /status fails while the dashboard is on
    screen, the alerts and the status keep the values they had, and the
    page is the same dashboard with an error block that carries the
    message; when one of them succeeds, its data replaces the old one
    and the error is cleared. *)
Theorem failed_fetch_keeps_last_known_good
        (m : machine W) (popup banner monitoring list : node) (length : value)
        (Hscreen : screen (hooks m)
                   = Some (dashboard popup banner monitoring length list)) :
  (forall msg w', send GET_alerts (world m) = (Rejected msg, w') ->
     alerts (hooks (run fetchAlerts m)) = alerts (hooks m)
     /\ status (hooks (run fetchAlerts m)) = status (hooks m)
     /\ error (hooks (run fetchAlerts m)) = VStr "Failed to fetch alerts"
     /\ screen (hooks (run fetchAlerts m))
        = Some (dashboard popup (errorBanner (VStr "Failed to fetch alerts"))
                          monitoring length list))
  /\ (forall msg w', send GET_status (world m) = (Rejected msg, w') ->
     alerts (hooks (run fetchStatus m)) = alerts (hooks m)
     /\ status (hooks (run fetchStatus m)) = status (hooks m)
     /\ error (hooks (run fetchStatus m)) = VStr "Failed to fetch status"
     /\ screen (hooks (run fetchStatus m))
        = Some (dashboard popup (errorBanner (VStr "Failed to fetch status"))
                          monitoring length list))
  /\ (forall text,
        text <> EmptyString ->
        errorBanner (VStr text)
        = Elem "div"
            [cls "bg-red-100 border border-red-400 text-red-700 px-4 py-3 rounded mb-6"]
            [Elem "strong" [] [Text "Error:"]; Text " "; Child (VStr text)])
  /\ (forall data w', send GET_alerts (world m) = (Resolved data, w') ->
     alerts (hooks (run fetchAlerts m)) = data
     /\ status (hooks (run fetchAlerts m)) = status (hooks m)
     /\ error (hooks (run fetchAlerts m)) = VNull)
  /\ (forall data w', send GET_status (world m) = (Resolved data, w') ->
     status (hooks (run fetchStatus m)) = data
     /\ alerts (hooks (run fetchStatus m)) = alerts (hooks m)
     /\ error (hooks (run fetchStatus m)) = VNull)
  /\ errorBanner VNull = Child VNull.
Proof.
  split; [|split; [|split; [|split; [|split]]]].
  - intros msg w' Hs. rewrite (fetchAlerts_rejected m msg w' Hs).
    cbn [alerts status error]. repeat split.
    eapply screen_with_error; [exact Hscreen | reflexivity].
  - intros msg w' Hs. rewrite (fetchStatus_rejected m msg w' Hs).
    cbn [alerts status error]. repeat split.
    eapply screen_with_error; [exact Hscreen | reflexivity].
  - intros text Hne. destruct text; [contradiction Hne|]; reflexivity.
  - intros data w' Hs. rewrite (fetchAlerts_resolved m data w' Hs).
    repeat split.
  - intros data w' Hs. rewrite (fetchStatus_resolved m data w' Hs).
    repeat split.
  - reflexivity.
Qed.

End LastKnownGood.

(* ===================================================================== *)
(** ** What a handler can touch *)
(* ===================================================================== *)

Ltac footprint_done :=
  unfold footprint, sent, status_fetched, hide_timer;
  cbn [fst snd hooks world exchanges timers next_timer now mounted interval
       dialogs console alerts status loading error notification_of];
  repeat split;
  [ first [ left; split; reflexivity | right; split; reflexivity ]
  | eexists; split;
    [ first [ symmetry; apply app_nil_r
            | rewrite <- ?app_assoc; reflexivity ]
    | cbn [app]; split;
      [ repeat constructor; cbn [fst In];
        unfold GET_alerts, GET_status, POST_start, POST_stop,
          DELETE_alerts, GET_mock; tauto
      | first [ left; reflexivity
              | right; eexists; unfold GET_status;
                cbn [In]; eauto 10 ] ] ] ].

Ltac case_get :=
  match goal with
  | |- context [get ?v ?k] =>
      let x := fresh "x" in
      let e := fresh "e" in
      destruct (get v k) as [x|e]
  | |- context [converts ?v] =>
      destruct (converts v); cbv beta iota
  end.

Section Footprint.
Context {W : Type} `{World W}.

Lemma footprint_handler (h : handler) (m : machine W) :
  footprint (may_send h) m (run (handler_code h) m).
Proof.
  open_machine m. destruct h; unfold_M; cbv [may_send].
  - repeat case_send; footprint_done.
  - repeat case_send; footprint_done.
  - destruct (confirm _ _) as [[|] w0]; unfold_M;
      repeat case_send; footprint_done.
  - repeat case_send; repeat case_get; footprint_done.
  - footprint_done.
Qed.

Lemma footprint_callback (cb : callback) (m : machine W) :
  footprint (may_request cb) m (run (callback_code cb) m).
Proof.
  open_machine m. destruct cb; unfold_M; cbv [may_request].
  - repeat case_send; footprint_done.
  - footprint_done.
Qed.

End Footprint.

(* ===================================================================== *)
(** ** The polling interval *)
(* ===================================================================== *)

Section Polling.
Context {W : Type} `{World W}.
Local Open Scope Z_scope.

Lemma poll_timer_in (ts : list timer) id r :
  filter is_poll ts = [poll_timer id r] -> In (poll_timer id r) ts.
Proof.
  intros Hf.
  assert (In (poll_timer id r) (filter is_poll ts)) as Hin
      by (rewrite Hf; left; reflexivity).
  apply filter_In in Hin. tauto.
Qed.

Lemma poll_timer_only (ts : list timer) id r t :
  filter is_poll ts = [poll_timer id r] ->
  In t ts -> is_poll t = true -> t = poll_timer id r.
Proof.
  intros Hf Hin Hp.
  assert (In t (filter is_poll ts)) as Hin' by (apply filter_In; tauto).
  rewrite Hf in Hin'. destruct Hin' as [<-|[]]. reflexivity.
Qed.

Lemma find_poll_timer (ts : list timer) id r :
  filter is_poll ts = [poll_timer id r] ->
  (forall t, In t ts -> tid t = id -> is_poll t = true) ->
  find_timer id ts = Some (poll_timer id r).
Proof.
  intros Hf Hid. unfold find_timer.
  destruct (find (fun t => Nat.eqb (tid t) id) ts) as [t|] eqn:Hfind.
  - apply find_some in Hfind. destruct Hfind as [Hin Heq].
    apply Nat.eqb_eq in Heq.
    f_equal. eapply poll_timer_only; eauto.
  - exfalso.
    pose proof (find_none _ _ Hfind _ (poll_timer_in _ _ _ Hf)) as Hneq.
    cbn [poll_timer tid] in Hneq. rewrite Nat.eqb_refl in Hneq.
    discriminate Hneq.
Qed.

Lemma filter_poll_tick ms (ts : list timer) :
  filter is_poll (map (tick ms) ts) = map (tick ms) (filter is_poll ts).
Proof.
  induction ts as [|t ts IH]; [reflexivity|].
  cbn [map filter].
  change (is_poll (tick ms t)) with (is_poll t).
  destruct (is_poll t); cbn [map]; rewrite IH; reflexivity.
Qed.

Lemma in_rearm id (ts : list timer) t' :
  In t' (rearm id ts) ->
  exists t, In t ts /\ tid t' = tid t /\ callback_of t' = callback_of t.
Proof.
  unfold rearm. intros Hin. apply in_flat_map in Hin.
  destruct Hin as (t & Hin & Ht). exists t. split; [assumption|].
  destruct (Nat.eqb (tid t) id).
  - destruct (period t); [|destruct Ht].
    destruct Ht as [<-|[]]. split; reflexivity.
  - destruct Ht as [<-|[]]. split; reflexivity.
Qed.

Lemma filter_poll_rearm i (ts : list timer) id r :
  filter is_poll ts = [poll_timer id r] ->
  filter is_poll (rearm i ts)
  = [poll_timer id (if Nat.eqb id i then 15000 else r)].
Proof.
  assert (Hnil : forall l, filter is_poll l = [] ->
                           filter is_poll (rearm i l) = []).
  { induction l as [|t l IH]; [reflexivity|].
    cbn [filter]. destruct (is_poll t) eqn:Hp; [discriminate|].
    intros Hl. unfold rearm. cbn [flat_map].
    rewrite filter_app. fold (rearm i l). rewrite (IH Hl), app_nil_r.
    destruct (Nat.eqb (tid t) i); [destruct (period t)|];
      cbn [filter]; unfold is_poll in *; cbn [callback_of];
      try rewrite Hp; reflexivity. }
  induction ts as [|t ts IH]; [discriminate|].
  cbn [filter]. destruct (is_poll t) eqn:Hp.
  - intros Hf. injection Hf as Ht Hrest. subst t.
    unfold rearm. cbn [flat_map]. fold (rearm i ts).
    rewrite filter_app, (Hnil _ Hrest), app_nil_r.
    cbn [poll_timer tid period].
    destruct (Nat.eqb id i); reflexivity.
  - intros Hf. unfold rearm. cbn [flat_map]. fold (rearm i ts).
    rewrite filter_app, (IH Hf).
    destruct (Nat.eqb (tid t) i); [destruct (period t)|];
      cbn [filter]; unfold is_poll in *; cbn [callback_of];
      try rewrite Hp; reflexivity.
Qed.

(** A handler or a callback keeps the interval as it is. *)
Lemma polling_footprint allowed (m m' : machine W) id r :
  polling m id r -> footprint allowed m m' -> polling m' id r.
Proof.
  intros (Hm & Hi & Hf & Hr & Hmod & Hid & Hfresh)
         (Hm' & Hi' & Hn' & Ht & _).
  assert (Hlt : (id < next_timer m)%nat).
  { apply (Hfresh (poll_timer id r)). apply poll_timer_in. assumption. }
  unfold polling. rewrite Hm', Hi', Hn'.
  destruct Ht as [[Ht Hnt]|[Ht Hnt]]; rewrite Ht, Hnt.
  - repeat split; auto; lia.
  - rewrite filter_app. cbn [filter hide_timer is_poll callback_of].
    rewrite app_nil_r.
    repeat split; auto; try lia.
    + intros t Hin Htid. apply in_app_or in Hin. destruct Hin as [Hin|[<-|[]]].
      * auto.
      * cbn [hide_timer tid] in Htid. lia.
    + intros t Hin. apply in_app_or in Hin. destruct Hin as [Hin|[<-|[]]].
      * specialize (Hfresh t Hin). lia.
      * cbn [hide_timer tid]. lia.
Qed.

Lemma polling_mount (w : W) (m : machine W) :
  step Mount (initial_machine w) = Some m ->
  polling m 0%nat 15000
  /\ now m = 0
  /\ timers m = [poll_timer 0 15000]
  /\ map fst (exchanges m) = [GET_alerts; GET_status].
Proof.
  cbn [step initial_machine mounted]. intros Hs. injection Hs as <-.
  unfold initial_state. unfold_M.
  repeat case_send; unfold polling, poll_timer;
    cbn [fst snd hooks world exchanges timers next_timer now mounted
         interval app map filter is_poll callback_of tid];
    (repeat split; auto; try lia;
     [ intros t [<-|[]] _; reflexivity
     | intros t [<-|[]]; cbn [tid]; lia ]).
Qed.

(** Every event but the unmount keeps the interval ticking. *)
Lemma polling_step (e : event) (m m' : machine W) id r :
  polling m id r -> step e m = Some m' -> e <> Unmount ->
  exists r', polling m' id r'.
Proof.
  intros Hp Hs Hne.
  pose proof Hp as (Hm & Hi & Hf & Hr & Hmod & Hid & Hfresh).
  destruct e as [| |ms|i|h]; cbn [step] in Hs.
  - rewrite Hm in Hs. discriminate Hs.
  - contradiction Hne. reflexivity.
  - destruct (0 <? ms) eqn:Hpos; [|discriminate Hs]. cbn [andb] in Hs.
    destruct (forallb _ _) eqn:Hall; [|discriminate Hs].
    injection Hs as <-.
    apply Z.ltb_lt in Hpos.
    assert (Hle : ms <= r).
    { rewrite forallb_forall in Hall.
      specialize (Hall _ (poll_timer_in _ _ _ Hf)).
      cbn [poll_timer remaining] in Hall. apply Z.leb_le in Hall. exact Hall. }
    exists (r - ms). unfold polling, with_timers.
    cbn [mounted interval timers now next_timer].
    fold (tick ms). rewrite filter_poll_tick, Hf.
    repeat split; auto; try lia.
    + replace (now m + ms + (r - ms)) with (now m + r) by lia. assumption.
    + intros t Hin Htid. apply in_map_iff in Hin.
      destruct Hin as (t0 & <- & Hin). cbn [tick tid] in Htid.
      unfold is_poll. cbn [tick callback_of]. apply (Hid t0 Hin Htid).
    + intros t Hin. apply in_map_iff in Hin.
      destruct Hin as (t0 & <- & Hin). cbn [tick tid]. auto.
  - destruct (find_timer i (timers m)) as [t|] eqn:Hfind; [|discriminate Hs].
    destruct (remaining t =? 0) eqn:Hz; [|discriminate Hs].
    injection Hs as <-. apply Z.eqb_eq in Hz.
    exists (if Nat.eqb id i then 15000 else r).
    eapply polling_footprint; [|apply footprint_callback].
    unfold polling, with_timers. cbn [mounted interval timers now next_timer].
    rewrite (filter_poll_rearm i _ id r Hf).
    repeat split; auto.
    + destruct (Nat.eqb id i); lia.
    + destruct (Nat.eqb id i); lia.
    + destruct (Nat.eqb id i) eqn:Hii.
      * apply Nat.eqb_eq in Hii. subst i.
        rewrite (find_poll_timer _ _ _ Hf Hid) in Hfind.
        injection Hfind as <-. cbn [poll_timer remaining] in Hz. subst r.
        rewrite Z.add_0_r in *.
        replace (now m + 15000) with (now m + 1 * 15000) by lia.
        rewrite Z_mod_plus_full. exact Hmod.
      * rewrite Z.add_0_r. exact Hmod.
    + intros t' Hin Htid. apply in_rearm in Hin.
      destruct Hin as (t0 & Hin & Ht & Hc). unfold is_poll. rewrite Hc.
      apply (Hid t0 Hin). congruence.
    + intros t' Hin. apply in_rearm in Hin.
      destruct Hin as (t0 & Hin & Ht & Hc). rewrite Ht. auto.
  - rewrite Hm in Hs.
    destruct (screen (hooks m)) as [page|]; [|discriminate Hs].
    destruct (clickable h page); [|discriminate Hs].
    injection Hs as <-. exists r.
    eapply polling_footprint; [exact Hp|apply footprint_handler].
Qed.

Lemma polling_steps (es : list event) (m m' : machine W) id r :
  polling m id r -> steps es m = Some m' -> ~ In Unmount es ->
  exists r', polling m' id r'.
Proof.
  revert m r. induction es as [|e es IH]; intros m r Hp Hs Hno.
  - injection Hs as <-. exists r. exact Hp.
  - cbn [steps] in Hs. destruct (step e m) as [m1|] eqn:Hstep; [|discriminate Hs].
    destruct (polling_step e m m1 id r Hp Hstep) as [r1 Hp1].
    + intros ->. apply Hno. left. reflexivity.
    + apply (IH m1 r1 Hp1 Hs). intros Hin. apply Hno. right. exact Hin.
Qed.

End Polling.

Section PollingCadence.
Context {W : Type} `{World W}.
Local Open Scope Z_scope.

Lemma fire_poll (m : machine W) id r :
  polling m id r ->
  step (Fire id) m
  = if r =? 0 then Some (run poll (with_timers (rearm id) 0 m)) else None.
Proof.
  intros (_ & _ & Hf & _ & _ & Hid & _). cbn [step].
  rewrite (find_poll_timer _ _ _ Hf Hid). reflexivity.
Qed.

Lemma poll_sends (m : machine W) :
  exists ra rs, sent m (run poll m) [(GET_alerts, ra); (GET_status, rs)].
Proof.
  open_machine m. unfold sent, GET_alerts, GET_status. unfold_M.
  repeat case_send; rewrite <- ?app_assoc; cbn [app]; eauto.
Qed.

Lemma polling_fired (m m' : machine W) id r :
  polling m id r -> step (Fire id) m = Some m' ->
  r = 0
  /\ (exists ra rs, sent m m' [(GET_alerts, ra); (GET_status, rs)])
  /\ polling m' id 15000.
Proof.
  intros Hp Hs. pose proof Hp as (Hm & Hi & Hf & Hr & Hmod & Hid & Hfresh).
  rewrite (fire_poll m id r Hp) in Hs.
  destruct (r =? 0) eqn:Hz; [|discriminate Hs].
  apply Z.eqb_eq in Hz. subst r. injection Hs as <-.
  split; [reflexivity|]. split.
  - destruct (poll_sends (with_timers (rearm id) 0 m)) as (ra & rs & Hsent).
    exists ra, rs. exact Hsent.
  - eapply polling_footprint; [|apply (footprint_callback poll_cb)].
    unfold polling, with_timers. cbn [mounted interval timers now next_timer].
    rewrite (filter_poll_rearm id _ id 0 Hf), Nat.eqb_refl.
    repeat split; auto; try lia.
    + rewrite Z.add_0_r in *.
      replace (now m + 15000) with (now m + 1 * 15000) by lia.
      rewrite Z_mod_plus_full. exact Hmod.
    + intros t' Hin Htid. apply in_rearm in Hin.
      destruct Hin as (t0 & Hin & Ht & Hc). unfold is_poll. rewrite Hc.
      apply (Hid t0 Hin). congruence.
    + intros t' Hin. apply in_rearm in Hin.
      destruct Hin as (t0 & Hin & Ht & Hc). rewrite Ht. auto.
Qed.

Lemma polling_elapse (m m' : machine W) id r ms :
  polling m id r -> step (Elapse ms) m = Some m' -> 0 < ms <= r.
Proof.
  intros (_ & _ & Hf & _) Hs. cbn [step] in Hs.
  destruct (0 <? ms) eqn:Hpos; [|discriminate Hs]. cbn [andb] in Hs.
  destruct (forallb _ _) eqn:Hall; [|discriminate Hs].
  apply Z.ltb_lt in Hpos. rewrite forallb_forall in Hall.
  specialize (Hall _ (poll_timer_in _ _ _ Hf)).
  cbn [poll_timer remaining] in Hall. apply Z.leb_le in Hall. lia.
Qed.

Lemma filter_none {A} (P : A -> bool) (l : list A) :
  (forall x, In x l -> P x = false) -> filter P l = [].
Proof.
  induction l as [|x l IH]; [reflexivity|].
  intros Hall. cbn [filter]. rewrite (Hall x) by (left; reflexivity).
  apply IH. intros y Hy. apply Hall. right. exact Hy.
Qed.

Lemma polling_unmount (m : machine W) id r :
  polling m id r ->
  exists m', step Unmount m = Some m'
             /\ mounted m' = false
             /\ filter is_poll (timers m') = []
             /\ step (Fire id) m' = None.
Proof.
  intros (Hm & Hi & Hf & _ & _ & Hid & _).
  eexists. cbn [step]. rewrite Hm. split; [reflexivity|].
  unfold run, unmount_effects, clearInterval. rewrite Hi.
  cbn [snd mounted timers step].
  split; [reflexivity|]. split.
  - apply filter_none. intros t Hin.
    apply filter_In in Hin. destruct Hin as [Hin Hne].
    destruct (is_poll t) eqn:Hpt; [|reflexivity].
    rewrite (poll_timer_only _ _ _ _ Hf Hin Hpt) in Hne.
    cbn [poll_timer tid] in Hne. rewrite Nat.eqb_refl in Hne.
    discriminate Hne.
  - unfold find_timer.
    destruct (find _ _) as [t|] eqn:Hfind; [|reflexivity].
    apply find_some in Hfind. destruct Hfind as [Hin Heq].
    apply filter_In in Hin. destruct Hin as [_ Hne].
    rewrite Heq in Hne. discriminate Hne.
Qed.

(** C2. From the mount on and as long as the component stays mounted,
    the browser holds the polling interval: it was armed with 15000 ms
    at the mount, which also ran the initial load; it comes due at the
    multiples of 15000 ms and time does not run past it; each time it
    runs, a GET /alerts and a GET /status go out and it is armed for
    another 15000 ms; unmounting removes it. *)
Theorem polls_every_15_seconds_while_mounted
        (w : W) (es : list event) (m : machine W)
        (Hrun : steps (Mount :: es) (initial_machine w) = Some m)
        (Hmounted : ~ In Unmount es) :
  (exists m0, step Mount (initial_machine w) = Some m0
              /\ timers m0 = [poll_timer 0 15000]
              /\ now m0 = 0
              /\ map fst (exchanges m0) = [GET_alerts; GET_status])
  /\ exists r,
      polling m 0%nat r
      /\ (forall ms m', step (Elapse ms) m = Some m' -> 0 < ms <= r)
      /\ (step (Fire 0) m <> None <-> r = 0)
      /\ (forall m', step (Fire 0) m = Some m' ->
            (exists ra rs, sent m m' [(GET_alerts, ra); (GET_status, rs)])
            /\ polling m' 0%nat 15000)
      /\ (exists m', step Unmount m = Some m'
                     /\ mounted m' = false
                     /\ filter is_poll (timers m') = []
                     /\ step (Fire 0) m' = None).
Proof.
  cbn [steps] in Hrun.
  destruct (step Mount (initial_machine w)) as [m0|] eqn:Hmount;
    [|discriminate Hrun].
  destruct (polling_mount w m0 Hmount) as (Hp0 & Hnow & Htimers & Hreq).
  split; [exists m0; auto|].
  destruct (polling_steps es m0 m 0%nat 15000 Hp0 Hrun Hmounted) as [r Hp].
  exists r. split; [exact Hp|]. split; [|split; [|split]].
  - intros ms m' Hs. eapply polling_elapse; eauto.
  - rewrite (fire_poll m 0%nat r Hp). destruct (r =? 0) eqn:Hz.
    + apply Z.eqb_eq in Hz. split; [auto|discriminate].
    + apply Z.eqb_neq in Hz. split; [intros Hn; contradiction Hn; reflexivity
                                    |intros Hr; contradiction].
  - intros m' Hs. destruct (polling_fired m m' 0%nat r Hp Hs) as (_ & Hsent & Hp').
    split; assumption.
  - eapply polling_unmount; eauto.
Qed.

End PollingCadence.

(* ===================================================================== *)
(** ** The three controls *)
(* ===================================================================== *)

Section Controls.
Context {W : Type} `{World W}.

(** The buttons of the monitoring panel, in the order of the source. *)
Lemma MonitoringStatus_buttons (st : value) (onStart onStop onClear : handler)
      (n : node) :
  MonitoringStatus st onStart onStop onClear = Ok n ->
  exists is_running,
    get st "is_running" = Ok is_running
    /\ buttons n = [ (onStart, truthy is_running);
                     (onStop, negb (truthy is_running));
                     (onClear, false) ].
Proof.
  unfold MonitoringStatus, platformsCount, lastCheckText.
  cbn [bind ret Monad_res].
  destruct (get st "is_running") as [r|]; cbn [res_bind]; [|discriminate].
  destruct (get st "alerts_count"); cbn [res_bind]; [|discriminate].
  destruct (get st "platforms_monitored"); cbn [res_bind]; [|discriminate].
  destruct (get st "last_check") as [lc|]; cbn [res_bind]; [|discriminate].
  destruct (truthy lc);
    [unfold to_primitive; destruct (converts lc); cbn [res_bind];
     [|discriminate]|];
    intros Hn; injection Hn as <-; exists r; split; reflexivity.
Qed.

(** C3. Start posts to /monitoring/start and Stop to /monitoring/stop,
    and each fetches /status again when the post succeeded; Clear, once
    confirmed, deletes /alerts and then fetches /alerts and /status
    again when the delete succeeded.  Nothing else goes out, and a
    command that failed is followed by no fetch.  All URLs start with
    the API prefix, and the panel wires the three handlers to its three
    buttons. *)
Theorem controls_issue_documented_commands (m : machine W) :
  (let m' := run (handler_code startMonitoring_h) m in
   match send POST_start (world m) with
   | (Resolved d, w1) =>
       sent m m' [ (POST_start, Resolved d);
                   (GET_status, fst (send GET_status w1)) ]
   | (Rejected e, _) => sent m m' [ (POST_start, Rejected e) ]
   end)
  /\ (let m' := run (handler_code stopMonitoring_h) m in
      match send POST_stop (world m) with
      | (Resolved d, w1) =>
          sent m m' [ (POST_stop, Resolved d);
                      (GET_status, fst (send GET_status w1)) ]
      | (Rejected e, _) => sent m m' [ (POST_stop, Rejected e) ]
      end)
  /\ (let m' := run (handler_code clearAlerts_h) m in
      match confirm clear_question (world m) with
      | (true, w0) =>
          match send DELETE_alerts w0 with
          | (Resolved d, w1) =>
              sent m m' [ (DELETE_alerts, Resolved d);
                          (GET_alerts, fst (send GET_alerts w1));
                          (GET_status,
                           fst (send GET_status (snd (send GET_alerts w1)))) ]
          | (Rejected e, _) => sent m m' [ (DELETE_alerts, Rejected e) ]
          end
      | (false, _) => sent m m' []
      end)
  /\ POST_start = {| meth := POST; url := API ++ "/monitoring/start" |}
  /\ POST_stop = {| meth := POST; url := API ++ "/monitoring/stop" |}
  /\ DELETE_alerts = {| meth := DELETE; url := API ++ "/alerts" |}
  /\ GET_alerts = {| meth := GET; url := API ++ "/alerts" |}
  /\ GET_status = {| meth := GET; url := API ++ "/status" |}
  /\ (forall fields n,
        MonitoringStatus (VObj fields)
                         startMonitoring_h stopMonitoring_h clearAlerts_h
        = Ok n ->
        map fst (buttons n)
        = [startMonitoring_h; stopMonitoring_h; clearAlerts_h]).
Proof.
  open_machine m.
  unfold sent, POST_start, POST_stop, DELETE_alerts, GET_alerts, GET_status,
    clear_question.
  split; [|split; [|split]].
  - unfold_M. repeat case_send; tidy_sends; rewrite <- ?app_assoc; reflexivity.
  - unfold_M. repeat case_send; tidy_sends; rewrite <- ?app_assoc; reflexivity.
  - unfold_M. destruct (confirm _ _) as [[|] w0]; unfold_M.
    + repeat case_send; tidy_sends; rewrite <- ?app_assoc; reflexivity.
    + symmetry. apply app_nil_r.
  - repeat split.
    intros fields n Hn.
    destruct (MonitoringStatus_buttons _ _ _ _ n Hn) as (r & _ & Hb).
    rewrite Hb. reflexivity.
Qed.

(** C8. Clear asks its question first.  When the answer is no, nothing
    goes out and the hook state, hence the page, is what it was; when
    something goes out, the answer was yes and the first request is the
    DELETE of /alerts. *)
Theorem clear_needs_confirmation (m : machine W) :
  let m' := run clearAlerts m in
  dialogs m' = (dialogs m ++ [clear_question])%list
  /\ (fst (confirm clear_question (world m)) = false ->
      exchanges m' = exchanges m
      /\ hooks m' = hooks m
      /\ screen (hooks m') = screen (hooks m))
  /\ (fst (confirm clear_question (world m)) = true ->
      exists r rest, sent m m' ((DELETE_alerts, r) :: rest))
  /\ (exchanges m' <> exchanges m ->
      fst (confirm clear_question (world m)) = true).
Proof.
  open_machine m. unfold sent, DELETE_alerts, clear_question. unfold_M.
  destruct (confirm _ _) as [[|] w0]; unfold_M.
  - repeat case_send; rewrite <- ?app_assoc;
      (split; [reflexivity|]); (split; [discriminate|]);
      (split; [intros _; eexists; eexists; reflexivity | reflexivity]).
  - split; [reflexivity|]. split; [auto|]. split; [discriminate|].
    intros Hne. contradiction Hne. reflexivity.
Qed.

End Controls.

(* ===================================================================== *)
(** ** What an event puts on the wire *)
(* ===================================================================== *)

Section Wire.
Context {W : Type} `{World W}.

Lemma step_sends (e : event) (m m' : machine W) :
  step e m = Some m' ->
  exists l,
    sent m m' l
    /\ Forall (fun x => In (fst x) (event_requests e)) l
    /\ (status (hooks m') = status (hooks m) \/ status_fetched l).
Proof.
  destruct e as [| |ms|i|h]; cbn [step event_requests]; intros Hs.
  - destruct (mounted m); [discriminate Hs|]. injection Hs as <-.
    open_machine m. unfold_M.
    unfold sent, status_fetched, GET_alerts, GET_status. unfold_M.
    repeat case_send;
      (eexists; split; [rewrite <- ?app_assoc; reflexivity|]; cbn [app];
       split; [repeat constructor; cbn [fst In]; tauto|]);
      first [ left; reflexivity | right; eexists; cbn [In]; eauto 10 ].
  - destruct (mounted m); [|discriminate Hs]. injection Hs as <-.
    exists []. unfold sent, run, unmount_effects, clearInterval.
    destruct (interval m); cbn [snd exchanges hooks];
      (split; [symmetry; apply app_nil_r|]); (split; [constructor|]);
      left; reflexivity.
  - destruct (_ && _); [|discriminate Hs]. injection Hs as <-.
    exists []. unfold sent, with_timers. cbn [exchanges hooks].
    split; [symmetry; apply app_nil_r|]. split; [constructor|].
    left; reflexivity.
  - destruct (find_timer i (timers m)) as [t|]; [|discriminate Hs].
    destruct (_ =? _)%Z; [|discriminate Hs]. injection Hs as <-.
    destruct (footprint_callback (callback_of t) (with_timers (rearm i) 0 m))
      as (_ & _ & _ & _ & l & Hl & Hall & Hst).
    exists l. split; [exact Hl|]. split; [|exact Hst].
    eapply Forall_impl; [|exact Hall]. intros x Hx.
    destruct (callback_of t); [exact Hx|destruct Hx].
  - destruct (mounted m); [|discriminate Hs].
    destruct (screen (hooks m)) as [page|]; [|discriminate Hs].
    destruct (clickable h page); [|discriminate Hs]. injection Hs as <-.
    destruct (footprint_handler h m) as (_ & _ & _ & _ & l & Hl & Hall & Hst).
    exists l. auto.
Qed.

Lemma append_inj_l (p a b : string) : p ++ a = p ++ b -> a = b.
Proof.
  induction p as [|c p IH]; cbn [append]; intros Heq; [exact Heq|].
  injection Heq as Heq. auto.
Qed.

End Wire.

(* ===================================================================== *)
(** ** Buttons on the page *)
(* ===================================================================== *)

Lemma buttons_aiAnalysisSection (v : value) : buttons (aiAnalysisSection v) = [].
Proof. unfold aiAnalysisSection. destruct (truthy v); reflexivity. Qed.

Lemma buttons_ThreatAlert (alert : value) (n : node) :
  ThreatAlert alert = Ok n -> buttons n = [].
Proof.
  unfold ThreatAlert. cbn [bind ret Monad_res].
  destruct (get alert "threat_level"); cbn [res_bind]; [|discriminate].
  destruct (get alert "platform"); cbn [res_bind]; [|discriminate].
  destruct (get alert "score"); cbn [res_bind]; [|discriminate].
  destruct (get alert "author"); cbn [res_bind]; [|discriminate].
  destruct (get alert "content"); cbn [res_bind]; [|discriminate].
  destruct (get alert "reason"); cbn [res_bind]; [|discriminate].
  destruct (get alert "ai_analysis"); cbn [res_bind]; [|discriminate].
  destruct (get alert "timestamp"); cbn [res_bind]; [|discriminate].
  destruct (get alert "url"); cbn [res_bind]; [|discriminate].
  destruct (index threatColors _); cbn [res_bind]; [|discriminate].
  destruct (index platformIcons _); cbn [res_bind]; [|discriminate].
  destruct (percent _); cbn [res_bind]; [|discriminate].
  destruct (formatTime _); cbn [res_bind]; [|discriminate].
  intros Hn. injection Hn as <-.
  cbn [buttons onClick_of cls flat_map app]. rewrite buttons_aiAnalysisSection.
  reflexivity.
Qed.

Lemma buttons_with_key (k : value) (n : node) :
  buttons (with_key k n) = buttons n.
Proof. destruct n; reflexivity. Qed.

Lemma buttons_alertCards (items : list value) (cards : list node) :
  alertCards (VArr items) = Ok cards -> flat_map buttons cards = [].
Proof.
  cbn [alertCards]. revert cards.
  induction items as [|a items IH]; intros cards; cbn [mapM_res].
  - intros Hc. injection Hc as <-. reflexivity.
  - cbn [bind ret Monad_res].
    destruct (get a "id"); cbn [res_bind]; [|discriminate].
    destruct (to_primitive _); cbn [res_bind]; [|discriminate].
    destruct (ThreatAlert a) as [card|] eqn:Hcard; cbn [res_bind]; [|discriminate].
    destruct (mapM_res _ items) as [rest|]; cbn [res_bind]; [|discriminate].
    intros Hc. injection Hc as <-. cbn [flat_map].
    rewrite buttons_with_key, (buttons_ThreatAlert a card Hcard), (IH rest eq_refl).
    reflexivity.
Qed.

Lemma buttons_NotificationPopup (n : option notification) :
  buttons (NotificationPopup n) = match n with
                                  | Some _ => [(closeNotification_h, false)]
                                  | None => []
                                  end.
Proof.
  destruct n as [n|]; [|reflexivity].
  unfold NotificationPopup.
  destruct (template_truthy (details n)); reflexivity.
Qed.

Lemma buttons_errorBanner (e : value) : buttons (errorBanner e) = [].
Proof. unfold errorBanner. destruct (truthy e); reflexivity. Qed.

(** The clickable elements of a page on screen: the close button of the
    notification, the test-alert buttons, and the three of the panel. *)
Lemma buttons_screen (s : state) (page : node) :
  screen s = Some page -> loading s = false ->
  exists monitoring extra,
    MonitoringStatus (status s) startMonitoring_h stopMonitoring_h clearAlerts_h
    = Ok monitoring
    /\ buttons page
       = (buttons (NotificationPopup (notification_of s))
            ++ [(generateMockAlert_h, false)]
            ++ buttons monitoring ++ extra)%list
    /\ (extra = [] \/ extra = [(generateMockAlert_h, false)]).
Proof.
  unfold screen. intros Hs Hl. rewrite (App_loaded s Hl) in Hs.
  cbn [bind ret Monad_res] in Hs.
  destruct (MonitoringStatus _ _ _ _) as [mon|]; cbn [res_bind] in Hs;
    [|discriminate Hs].
  destruct (get (alerts s) "length") as [len|] eqn:Hlen; cbn [res_bind] in Hs;
    [|discriminate Hs].
  exists mon.
  destruct (is_zero len).
  - cbn [res_bind] in Hs. destruct (react_ok _); [|discriminate Hs].
    injection Hs as <-. exists [(generateMockAlert_h, false)].
    split; [reflexivity|]. split; [|right; reflexivity].
    cbn [dashboard buttons onClick_of cls flat_map app disabled_of noThreats].
    rewrite buttons_errorBanner, !app_nil_r. reflexivity.
  - destruct (alertCards (alerts s)) as [cards|] eqn:Hcards; cbn [res_bind] in Hs;
      [|discriminate Hs].
    destruct (react_ok _); [|discriminate Hs].
    injection Hs as <-. exists [].
    split; [reflexivity|]. split; [|left; reflexivity].
    destruct (alerts s) as [| | | | |items|]; try discriminate Hcards.
    cbn [dashboard buttons onClick_of cls flat_map app disabled_of].
    rewrite buttons_errorBanner, (buttons_alertCards items cards Hcards), !app_nil_r.
    reflexivity.
Qed.

(* ===================================================================== *)
(** ** Start and Stop follow the displayed status *)
(* ===================================================================== *)

Section StartStop.
Context {W : Type} `{World W}.

Lemma start_only_from_start (e : event) :
  In POST_start (event_requests e) -> e = Click startMonitoring_h.
Proof.
  unfold POST_start, GET_alerts, GET_status.
  destruct e as [| |ms|i|h]; cbn [event_requests In];
    try (intros [Hq|[Hq|[]]]; discriminate Hq); try tauto.
  destruct h; cbn [may_send In];
    unfold POST_start, POST_stop, GET_alerts, GET_status, DELETE_alerts, GET_mock;
    intros Hin; try reflexivity;
    repeat (destruct Hin as [Hq|Hin]; [try discriminate Hq|]);
    try destruct Hin.
  injection Hq as Hq. apply append_inj_l in Hq. discriminate Hq.
Qed.

Lemma stop_only_from_stop (e : event) :
  In POST_stop (event_requests e) -> e = Click stopMonitoring_h.
Proof.
  unfold POST_stop, GET_alerts, GET_status.
  destruct e as [| |ms|i|h]; cbn [event_requests In];
    try (intros [Hq|[Hq|[]]]; discriminate Hq); try tauto.
  destruct h; cbn [may_send In];
    unfold POST_start, POST_stop, GET_alerts, GET_status, DELETE_alerts, GET_mock;
    intros Hin; try reflexivity;
    repeat (destruct Hin as [Hq|Hin]; [try discriminate Hq|]);
    try destruct Hin.
  injection Hq as Hq. apply append_inj_l in Hq. discriminate Hq.
Qed.

Lemma panel_buttons (st : value) (b : bool) (onStart onStop onClear : handler)
      (n : node) :
  get st "is_running" = Ok (VBool b) ->
  MonitoringStatus st onStart onStop onClear = Ok n ->
  buttons n = [(onStart, b); (onStop, negb b); (onClear, false)].
Proof.
  intros Hr Hn.
  destruct (MonitoringStatus_buttons _ _ _ _ n Hn) as (r & Hget & Hb).
  rewrite Hr in Hget. injection Hget as <-. exact Hb.
Qed.

Lemma click_disabled (m : machine W) (h : handler) (b : bool) :
  displayed_running m b ->
  h = (if b then startMonitoring_h else stopMonitoring_h) ->
  step (Click h) m = None.
Proof.
  intros Hr ->. cbn [step].
  destruct (mounted m); [|reflexivity].
  destruct (screen (hooks m)) as [page|] eqn:Hs; [|reflexivity].
  destruct (loading (hooks m)) eqn:Hl.
  - unfold screen, App in Hs. rewrite Hl in Hs. cbn in Hs.
    injection Hs as <-. destruct b; reflexivity.
  - destruct (buttons_screen _ _ Hs Hl) as (mon & extra & Hmon & Hb & Hextra).
    pose proof (panel_buttons _ b _ _ _ mon Hr Hmon) as Hbn.
    unfold clickable. rewrite Hb, Hbn, buttons_NotificationPopup.
    destruct (notification_of (hooks m)), b, Hextra as [-> | ->]; reflexivity.
Qed.

(** C10. With [is_running] displayed as true the Start button is
    disabled, with false the Stop button is; a click on a disabled
    button reaches no handler, so that no event makes the page post a
    start while it displays running, nor a stop while it displays
    stopped. *)
Theorem start_stop_disabled_by_displayed_status (m : machine W) :
  (forall st onStart onStop onClear n,
      get st "is_running" = Ok (VBool true) ->
      MonitoringStatus st onStart onStop onClear = Ok n ->
      buttons n = [(onStart, true); (onStop, false); (onClear, false)])
  /\ (forall st onStart onStop onClear n,
         get st "is_running" = Ok (VBool false) ->
         MonitoringStatus st onStart onStop onClear = Ok n ->
         buttons n = [(onStart, false); (onStop, true); (onClear, false)])
  /\ (displayed_running m true ->
      step (Click startMonitoring_h) m = None
      /\ forall e m' l, step e m = Some m' -> sent m m' l ->
                        ~ In POST_start (map fst l))
  /\ (displayed_running m false ->
      step (Click stopMonitoring_h) m = None
      /\ forall e m' l, step e m = Some m' -> sent m m' l ->
                        ~ In POST_stop (map fst l)).
Proof.
  split; [|split; [|split]].
  - intros st a b c n Hr Hn. apply (panel_buttons st true a b c n Hr Hn).
  - intros st a b c n Hr Hn. apply (panel_buttons st false a b c n Hr Hn).
  - intros Hr.
    assert (Hclick : step (Click startMonitoring_h) m = None)
      by (apply (click_disabled m _ true Hr); reflexivity).
    split; [exact Hclick|].
    intros e m' l Hs Hsent Hin.
    destruct (step_sends e m m' Hs) as (l0 & Hl0 & Hall & _).
    unfold sent in *. rewrite Hl0 in Hsent. apply app_inv_head in Hsent.
    subst l0. apply in_map_iff in Hin. destruct Hin as (x & Hx & Hin).
    rewrite Forall_forall in Hall. specialize (Hall x Hin). rewrite Hx in Hall.
    apply start_only_from_start in Hall. subst e.
    rewrite Hclick in Hs. discriminate Hs.
  - intros Hr.
    assert (Hclick : step (Click stopMonitoring_h) m = None)
      by (apply (click_disabled m _ false Hr); reflexivity).
    split; [exact Hclick|].
    intros e m' l Hs Hsent Hin.
    destruct (step_sends e m m' Hs) as (l0 & Hl0 & Hall & _).
    unfold sent in *. rewrite Hl0 in Hsent. apply app_inv_head in Hsent.
    subst l0. apply in_map_iff in Hin. destruct Hin as (x & Hx & Hin).
    rewrite Forall_forall in Hall. specialize (Hall x Hin). rewrite Hx in Hall.
    apply stop_only_from_stop in Hall. subst e.
    rewrite Hclick in Hs. discriminate Hs.
Qed.

End StartStop.

(* ===================================================================== *)
(** ** The monitoring panel on partial status objects *)
(* ===================================================================== *)

Ltac find_in :=
  cbn [subnodes flat_map app In];
  repeat (first [ left; reflexivity | right ]).

Section PartialStatus.
Context {W : Type} `{World W}.

Lemma steps_sends (es : list event) (m m' : machine W) :
  steps es m = Some m' ->
  exists l, sent m m' l
            /\ (status (hooks m') = status (hooks m) \/ status_fetched l).
Proof.
  revert m. induction es as [|e es IH]; intros m Hs; cbn [steps] in Hs.
  - injection Hs as <-. exists []. split; [symmetry; apply app_nil_r|].
    left. reflexivity.
  - destruct (step e m) as [m1|] eqn:Hstep; [|discriminate Hs].
    destruct (step_sends e m m1 Hstep) as (l1 & Hl1 & _ & Hst1).
    destruct (IH m1 Hs) as (l2 & Hl2 & Hst2).
    exists (l1 ++ l2)%list. unfold sent in *.
    split; [rewrite Hl2, Hl1, app_assoc; reflexivity|].
    unfold status_fetched in *.
    destruct Hst2 as [Hst2|[d Hd]].
    + destruct Hst1 as [Hst1|[d Hd]].
      * left. congruence.
      * right. exists d. apply in_or_app. left. exact Hd.
    + right. exists d. apply in_or_app. right. exact Hd.
Qed.

Lemma field_ok_cases ty fields k :
  field_ok ty fields k = true ->
  match assoc k fields with
  | Some v => nullish v = true \/ ty v = true
  | None => True
  end.
Proof.
  unfold field_ok, absent. destruct (assoc k fields) as [v|]; [|auto].
  intros Hv. apply orb_prop in Hv. exact Hv.
Qed.

Lemma partial_status_buildable (fields : list (string * value)) :
  partial_status fields = true -> panel_buildable (VObj fields) = true.
Proof.
  unfold partial_status, panel_buildable, field_is. intros Hp.
  apply andb_prop in Hp. destruct Hp as [_ Hlast].
  apply field_ok_cases in Hlast. cbn [get].
  destruct (assoc "last_check" fields) as [v|]; [|reflexivity].
  destruct Hlast as [Hv|Hv]; destruct v; try discriminate Hv;
    cbn [converts]; rewrite ?orb_true_r; reflexivity.
Qed.

(** C9. [MonitoringStatus] is total on partial status objects.  On an
    object it is built exactly when [last_check] is falsy or can be made
    a date, which holds when each field is absent, null or of its type;
    React then accepts the tree.  With [last_check] missing or null the
    panel is built and the Last Check cell shows --:--; with
    [platforms_monitored] missing or null the Platforms cell of the panel
    shows 0.  React refuses a panel only for an object, or an array
    holding one, as the alert count or as the platform count.  The status
    of a fresh page is the object of the source, and the page keeps it
    until a GET /status comes back with data. *)
Theorem MonitoringStatus_total_on_partial_status
        (fields : list (string * value)) (onStart onStop onClear : handler) :
  ((exists n, MonitoringStatus (VObj fields) onStart onStop onClear = Ok n)
   <-> panel_buildable (VObj fields) = true)
  /\ (partial_status fields = true ->
      exists n,
        MonitoringStatus (VObj fields) onStart onStop onClear = Ok n
        /\ react_ok n = true)
  /\ (assoc "last_check" fields = None
      \/ assoc "last_check" fields = Some VNull ->
      exists n,
        MonitoringStatus (VObj fields) onStart onStop onClear = Ok n
        /\ lastCheckText (VObj fields) = Ok [Lit "--:--"]
        /\ In (Elem "div" [cls "text-2xl font-bold text-purple-600"]
                 [TextOf [Lit "--:--"]]) (subnodes n))
  /\ (forall n,
         MonitoringStatus (VObj fields) onStart onStop onClear = Ok n ->
         (exists alerts_count platforms,
             get (VObj fields) "alerts_count" = Ok alerts_count
             /\ platformsCount (VObj fields) = Ok platforms
             /\ react_ok n = renderable alerts_count && renderable platforms)
         /\ (assoc "platforms_monitored" fields = None
             \/ assoc "platforms_monitored" fields = Some VNull ->
             platformsCount (VObj fields) = Ok (VNum 0)
             /\ In (Elem "div" [cls "text-2xl font-bold text-green-600"]
                      [Child (VNum 0)]) (subnodes n)))
  /\ (forall w : W,
         status (hooks (initial_machine w))
         = VObj [ ("is_running", VBool false);
                  ("platforms_monitored", VArr []);
                  ("alerts_count", VNum 0);
                  ("last_check", VNull) ])
  /\ (forall (w : W) es m,
         steps es (initial_machine w) = Some m ->
         ~ status_fetched (exchanges m) ->
         status (hooks m) = initial_status).
Proof.
  assert (Hbuilt : forall n,
             MonitoringStatus (VObj fields) onStart onStop onClear = Ok n ->
             (exists alerts_count platforms,
                 get (VObj fields) "alerts_count" = Ok alerts_count
                 /\ platformsCount (VObj fields) = Ok platforms
                 /\ react_ok n = renderable alerts_count && renderable platforms)
             /\ (assoc "platforms_monitored" fields = None
                 \/ assoc "platforms_monitored" fields = Some VNull ->
                 platformsCount (VObj fields) = Ok (VNum 0)
                 /\ In (Elem "div" [cls "text-2xl font-bold text-green-600"]
                          [Child (VNum 0)]) (subnodes n))).
  { intros n. unfold MonitoringStatus, platformsCount, lastCheckText.
    cbn [bind ret Monad_res res_bind get].
    destruct (if truthy _ then _ else _) as [last_check|]; cbn [res_bind];
      [|discriminate].
    intros Hn. injection Hn as <-. split.
    - do 2 eexists. split; [reflexivity|]. split; [reflexivity|].
      cbn [react_ok forallb andb renderable prop_ok cls].
      repeat match goal with
             | |- context [renderable ?v] => destruct (renderable v)
             end; reflexivity.
    - intros Hpm.
      assert (match assoc "platforms_monitored" fields with
              | Some x => x
              | None => VUndefined
              end = VUndefined
              \/ match assoc "platforms_monitored" fields with
                 | Some x => x
                 | None => VUndefined
                 end = VNull) as Hv
          by (destruct Hpm as [-> | ->]; auto).
      destruct Hv as [-> | ->]; (split; [reflexivity|]); find_in. }
  assert (Hiff : (exists n, MonitoringStatus (VObj fields) onStart onStop onClear
                            = Ok n)
                 <-> panel_buildable (VObj fields) = true).
  { unfold panel_buildable, field_is, MonitoringStatus, platformsCount,
      lastCheckText, to_primitive.
    cbn [bind ret Monad_res res_bind get].
    destruct (truthy _); cbn [negb orb];
      [destruct (converts _)|]; cbn [res_bind];
      (split; [intros [n Hn]; first [reflexivity | discriminate Hn]
              |intros Hb; first [discriminate Hb | eexists; reflexivity]]). }
  split; [exact Hiff|]. split; [|split; [|split; [exact Hbuilt|split]]].
  - intros Hp.
    destruct (proj2 Hiff (partial_status_buildable fields Hp)) as [n Hn].
    exists n. split; [exact Hn|].
    destruct (Hbuilt n Hn) as ((alerts_count & platforms & Hc & Hpl & ->) & _).
    unfold partial_status in Hp.
    apply andb_prop in Hp. destruct Hp as [Hp _].
    apply andb_prop in Hp. destruct Hp as [Hp Hcount].
    apply andb_prop in Hp. destruct Hp as [_ Hplat].
    apply field_ok_cases in Hcount, Hplat.
    unfold platformsCount in Hpl.
    cbn [bind ret Monad_res res_bind get] in Hc, Hpl.
    injection Hc as <-. injection Hpl as <-.
    assert (renderable
              match assoc "alerts_count" fields with
              | Some x => x
              | None => VUndefined
              end = true) as ->.
    { destruct (assoc "alerts_count" fields) as [v|]; [|reflexivity].
      destruct Hcount as [Hv|Hv]; destruct v; try discriminate Hv;
        reflexivity. }
    destruct (assoc "platforms_monitored" fields) as [v|]; [|reflexivity].
    destruct Hplat as [Hv|Hv]; destruct v; try discriminate Hv;
      try reflexivity.
    unfold js_or, get_opt, get. cbn [String.eqb Ascii.eqb Bool.eqb].
    destruct (truthy _); reflexivity.
  - intros Hlc.
    assert (Hfalsy : truthy match assoc "last_check" fields with
                            | Some x => x
                            | None => VUndefined
                            end = false)
      by (destruct Hlc as [-> | ->]; reflexivity).
    unfold MonitoringStatus, platformsCount, lastCheckText.
    cbn [bind ret Monad_res res_bind get]. rewrite Hfalsy. cbn [res_bind].
    eexists. split; [reflexivity|]. split; [reflexivity|]. find_in.
  - intros w. reflexivity.
  - intros w es m Hs Hno.
    destruct (steps_sends es _ m Hs) as (l & Hl & Hst).
    unfold sent in Hl. cbn [initial_machine exchanges app] in Hl.
    destruct Hst as [Hst|Hst]; [exact Hst|].
    contradiction Hno. rewrite Hl. exact Hst.
Qed.

End PartialStatus.

(* ===================================================================== *)
(** ** The alert card *)
(* ===================================================================== *)

Lemma ThreatAlert_nullish (a : value) :
  nullish a = true -> exists e, ThreatAlert a = Throw e.
Proof. destruct a; try discriminate; intros _; eexists; reflexivity. Qed.

Lemma get_total (a : value) (k : string) :
  nullish a = false -> exists v, get a k = Ok v.
Proof. destruct a; try discriminate; intros _; eexists; reflexivity. Qed.

Lemma field_is_get (ok : value -> bool) (a : value) (k : string) :
  field_is ok a k = true -> exists v, get a k = Ok v /\ ok v = true.
Proof.
  unfold field_is. destruct (get a k) as [v|]; [|discriminate].
  intros Hv. exists v. split; [reflexivity|exact Hv].
Qed.

Lemma field_is_nullish (ok : value -> bool) (a : value) (k : string) :
  field_is ok a k = true -> nullish a = false.
Proof. unfold field_is. destruct a; try reflexivity; discriminate. Qed.

Lemma index_ok (table : list (string * string)) (key : value) :
  converts key = true -> index table key = Ok (looked_up table key).
Proof. intros Hc. unfold index, to_primitive. rewrite Hc. reflexivity. Qed.

(** On an alert whose four fields can be converted the card is built,
    from the nine properties read off the alert. *)
Lemma ThreatAlert_card (a : value) :
  card_buildable a = true ->
  exists threat_level platform score author content reason ai_analysis
         timestamp url,
    get a "threat_level" = Ok threat_level
    /\ get a "platform" = Ok platform
    /\ get a "score" = Ok score
    /\ get a "author" = Ok author
    /\ get a "content" = Ok content
    /\ get a "reason" = Ok reason
    /\ get a "ai_analysis" = Ok ai_analysis
    /\ get a "timestamp" = Ok timestamp
    /\ get a "url" = Ok url
    /\ ThreatAlert a
       = Ok (card (looked_up threatColors threat_level)
                  (looked_up platformIcons platform)
                  (looked_up threatColors threat_level)
                  platform threat_level [ToFixed1x100 score]
                  author content reason ai_analysis
                  [ToLocaleString timestamp] url).
Proof.
  unfold card_buildable, converted_fields. cbn [forallb]. intros Hb.
  apply andb_prop in Hb. destruct Hb as [Htl Hb].
  apply andb_prop in Hb. destruct Hb as [Hpf Hb].
  apply andb_prop in Hb. destruct Hb as [Hsc Hb].
  apply andb_prop in Hb. destruct Hb as [Hts _].
  pose proof (field_is_nullish _ _ _ Htl) as Hn.
  destruct (field_is_get _ _ _ Htl) as (tl & Hgtl & Hctl).
  destruct (field_is_get _ _ _ Hpf) as (pf & Hgpf & Hcpf).
  destruct (field_is_get _ _ _ Hsc) as (sc & Hgsc & Hcsc).
  destruct (field_is_get _ _ _ Hts) as (ts & Hgts & Hcts).
  destruct (get_total a "author" Hn) as [au Hau].
  destruct (get_total a "content" Hn) as [co Hco].
  destruct (get_total a "reason" Hn) as [re Hre].
  destruct (get_total a "ai_analysis" Hn) as [ai Hai].
  destruct (get_total a "url" Hn) as [u Hu].
  exists tl, pf, sc, au, co, re, ai, ts, u.
  repeat (split; [assumption|]).
  unfold ThreatAlert, percent, formatTime, to_primitive.
  cbn [bind ret Monad_res].
  rewrite Hgtl, Hgpf, Hgsc, Hau, Hco, Hre, Hai, Hgts, Hu. cbn [res_bind].
  rewrite (index_ok threatColors tl Hctl), (index_ok platformIcons pf Hcpf),
    Hcsc, Hcts.
  reflexivity.
Qed.

(** A card that was built came from such an alert. *)
Lemma ThreatAlert_built (a : value) (n : node) :
  ThreatAlert a = Ok n -> card_buildable a = true.
Proof.
  unfold ThreatAlert, card_buildable, converted_fields, field_is, index,
    percent, formatTime, to_primitive.
  cbn [bind ret Monad_res forallb].
  destruct (get a "threat_level") as [tl|]; cbn [res_bind]; [|discriminate].
  destruct (get a "platform") as [pf|]; cbn [res_bind]; [|discriminate].
  destruct (get a "score") as [sc|]; cbn [res_bind]; [|discriminate].
  destruct (get a "author"); cbn [res_bind]; [|discriminate].
  destruct (get a "content"); cbn [res_bind]; [|discriminate].
  destruct (get a "reason"); cbn [res_bind]; [|discriminate].
  destruct (get a "ai_analysis"); cbn [res_bind]; [|discriminate].
  destruct (get a "timestamp") as [ts|]; cbn [res_bind]; [|discriminate].
  destruct (get a "url"); cbn [res_bind]; [|discriminate].
  destruct (converts tl); cbn [res_bind]; [|discriminate].
  destruct (converts pf); cbn [res_bind]; [|discriminate].
  destruct (converts sc); cbn [res_bind]; [|discriminate].
  destruct (converts ts); cbn [res_bind]; [|discriminate].
  reflexivity.
Qed.

Lemma values_aiAnalysisSection (v : value) :
  In v (values_of (aiAnalysisSection v)).
Proof.
  unfold aiAnalysisSection. destruct (truthy v); cbn; auto.
Qed.

Lemma heading_aiAnalysisSection (v : value) :
  In (Text "AI Analysis:") (subnodes (aiAnalysisSection v)) <-> truthy v = true.
Proof.
  unfold aiAnalysisSection. destruct (truthy v).
  - split; [reflexivity|]. intros _. find_in.
  - split; [|discriminate]. cbn [subnodes In].
    intros [Hq|[]]. discriminate Hq.
Qed.

(** A card that was built shows each of the nine properties. *)
Lemma ThreatAlert_shows (a : value) (n : node) (k : string) :
  ThreatAlert a = Ok n -> In k card_fields ->
  exists v, get a k = Ok v /\ In v (values_of n).
Proof.
  intros Hn Hk.
  destruct (ThreatAlert_card a (ThreatAlert_built a n Hn))
    as (tl & pf & sc & au & co & re & ai & ts & u
        & Htl & Hpf & Hsc & Hau & Hco & Hre & Hai & Hts & Hu & Hcard).
  rewrite Hcard in Hn. injection Hn as <-.
  pose proof (values_aiAnalysisSection ai) as Hin_ai.
  cbn [card_fields In] in Hk.
  cbn [card values_of flat_map prop_values text_value cls app].
  repeat (destruct Hk as [<-|Hk];
          [eexists; split; [eassumption|];
           repeat (first [ left; reflexivity
                         | apply in_or_app; left; exact Hin_ai
                         | apply in_or_app; right
                         | right ])|]).
  destruct Hk.
Qed.

(** C5. The card reads nine properties of the alert, all of them Alert
    fields of the data model, and the list of cards reads those and
    [id].  On an alert whose fields can be converted the card is built
    and each of the nine values is on the page: as a child, inside a
    formatted string, or as the target of the link.  Nothing else of the
    alert is consumed: two alerts that agree on the nine properties give
    the same card, and two lists that agree on the ten the same cards. *)
Theorem card_consumes_only_alert_fields
        (a : value) (Halert : card_buildable a = true) :
  incl card_fields alert_fields
  /\ alert_fields = [ "id"; "platform"; "author"; "content"; "url";
                      "timestamp"; "score"; "threat_level"; "reason";
                      "ai_analysis" ]
  /\ (exists n,
         ThreatAlert a = Ok n
         /\ forall k, In k card_fields ->
                      exists v, get a k = Ok v /\ In v (values_of n))
  /\ (forall b b',
         (forall k, In k card_fields -> get b k = get b' k) ->
         ThreatAlert b = ThreatAlert b')
  /\ (forall items items',
         Forall2 (fun b b' => forall k, In k alert_fields -> get b k = get b' k)
                 items items' ->
         alertCards (VArr items) = alertCards (VArr items')).
Proof.
  assert (Hcard : forall b b',
             (forall k, In k card_fields -> get b k = get b' k) ->
             ThreatAlert b = ThreatAlert b').
  { intros b b' Hag. unfold ThreatAlert.
    rewrite (Hag "threat_level"), (Hag "platform"), (Hag "score"),
      (Hag "author"), (Hag "content"), (Hag "reason"), (Hag "ai_analysis"),
      (Hag "timestamp"), (Hag "url") by (cbn [card_fields In]; tauto).
    reflexivity. }
  split; [|split; [|split; [|split]]].
  - intros k Hk. right. exact Hk.
  - reflexivity.
  - destruct (ThreatAlert_card a Halert)
      as (tl & pf & sc & au & co & re & ai & ts & u & Hrest).
    eexists. split; [apply Hrest|].
    intros k Hk. eapply ThreatAlert_shows; [apply Hrest|exact Hk].
  - exact Hcard.
  - intros items items' Hall. cbn [alertCards].
    induction Hall as [|b b' items items' Hag Hall IH]; [reflexivity|].
    cbn [mapM_res]. rewrite IH.
    rewrite (Hag "id") by (left; reflexivity).
    rewrite (Hcard b b') by (intros k Hk; apply Hag; right; exact Hk).
    reflexivity.
Qed.

Lemma renderable_falsy (v : value) : truthy v = false -> renderable v = true.
Proof. destruct v; try reflexivity; discriminate. Qed.

Lemma member_ok_looked_up (platform : value) :
  member_ok (looked_up platformIcons platform) = not_proto platform.
Proof.
  unfold looked_up, not_proto, lookup.
  destruct (to_string platform) as [k|]; [|reflexivity].
  destruct (String.eqb k "__proto__") eqn:Hk.
  - apply String.eqb_eq in Hk. subst k. reflexivity.
  - destruct (assoc k platformIcons); [reflexivity|].
    destruct (existsb _ _); reflexivity.
Qed.

(** What React makes of a card that was built. *)
Lemma react_ok_card (a : value) (n : node) :
  ThreatAlert a = Ok n -> react_ok n = card_acceptable a.
Proof.
  intros Hn.
  destruct (ThreatAlert_card a (ThreatAlert_built a n Hn))
    as (tl & pf & sc & au & co & re & ai & ts & u
        & Htl & Hpf & Hsc & Hau & Hco & Hre & Hai & Hts & Hu & Hcard).
  rewrite Hcard in Hn. injection Hn as <-.
  unfold card_acceptable, child_fields, field_is.
  cbn [forallb]. rewrite Htl, Hpf, Hau, Hco, Hre, Hai, Hu.
  cbn [card react_ok forallb prop_ok cls andb].
  rewrite member_ok_looked_up.
  assert (Hsection : react_ok (aiAnalysisSection ai) = renderable ai).
  { unfold aiAnalysisSection. destruct (truthy ai); cbn [react_ok forallb
      prop_ok cls andb]; rewrite ?andb_true_r; reflexivity. }
  rewrite Hsection.
  destruct (not_proto pf), (renderable pf), (renderable tl), (renderable au),
    (renderable co), (renderable re), (renderable ai), (converts u);
    reflexivity.
Qed.

(** C7. On an alert whose fields can be converted the card is built, and
    it carries the "AI Analysis:" block exactly when [ai_analysis] is
    truthy, which for a string means non-empty.  Without the block the
    card still shows the other eight fields, and React accepts it when
    the five fields that are children of the card are no objects, the
    [url] can be made a string and the platform is not the name of the
    prototype. *)
Theorem ai_analysis_section_iff_nonempty
        (a : value) (Halert : card_buildable a = true) :
  exists n ai_analysis,
    ThreatAlert a = Ok n
    /\ get a "ai_analysis" = Ok ai_analysis
    /\ (In (Text "AI Analysis:") (subnodes n) <-> truthy ai_analysis = true)
    /\ (forall s, ai_analysis = VStr s ->
                  (In (Text "AI Analysis:") (subnodes n) <-> s <> EmptyString))
    /\ (truthy ai_analysis = true ->
        In (Elem "div" [cls "text-sm text-gray-600"] [Child ai_analysis])
           (subnodes n))
    /\ (forall k, In k card_fields -> k <> "ai_analysis" ->
                  exists v, get a k = Ok v /\ In v (values_of n))
    /\ react_ok n = card_acceptable a
    /\ (truthy ai_analysis = false ->
        (forall k v, In k ["platform"; "threat_level"; "author"; "content";
                           "reason"] ->
                     get a k = Ok v -> renderable v = true) ->
        (forall v, get a "url" = Ok v -> converts v = true) ->
        (forall v, get a "platform" = Ok v ->
                   to_string v <> Some "__proto__") ->
        react_ok n = true).
Proof.
  destruct (ThreatAlert_card a Halert)
    as (tl & pf & sc & au & co & re & ai & ts & u
        & Htl & Hpf & Hsc & Hau & Hco & Hre & Hai & Hts & Hu & Hcard).
  eexists. exists ai. split; [exact Hcard|]. split; [exact Hai|].
  assert (Hiff : In (Text "AI Analysis:")
                    (subnodes
                       (card (looked_up threatColors tl)
                             (looked_up platformIcons pf)
                             (looked_up threatColors tl)
                             pf tl [ToFixed1x100 sc] au co re ai
                             [ToLocaleString ts] u))
                <-> truthy ai = true).
  { rewrite <- heading_aiAnalysisSection.
    cbn [card subnodes flat_map app In]. rewrite !in_app_iff. cbn [In].
    unfold dquote.
    split.
    - intros Hin.
      repeat (destruct Hin as [Hq|Hin]; [try discriminate Hq|]);
        try assumption; try destruct Hin.
    - intros Hin. tauto. }
  split; [exact Hiff|]. split; [|split; [|split; [|split]]].
  - intros s ->. rewrite Hiff. cbn [truthy].
    destruct s as [|c s]; cbn [String.eqb negb].
    + split; [discriminate|]. intros Hne. contradiction Hne. reflexivity.
    + split; [discriminate|]. reflexivity.
  - intros Ht. cbn [card subnodes flat_map app]. unfold aiAnalysisSection.
    rewrite Ht. find_in.
  - intros k Hk _. apply (ThreatAlert_shows a _ k Hcard Hk).
  - apply (react_ok_card a _ Hcard).
  - intros Ht Hren Hurl Hproto.
    rewrite (react_ok_card a _ Hcard).
    unfold card_acceptable, child_fields, field_is, not_proto.
    cbn [forallb]. rewrite Htl, Hpf, Hau, Hco, Hre, Hai, Hu.
    rewrite (Hren "platform" pf), (Hren "threat_level" tl),
      (Hren "author" au), (Hren "content" co), (Hren "reason" re),
      (renderable_falsy ai Ht), (Hurl u Hu)
      by (first [assumption | cbn [In]; tauto]).
    specialize (Hproto pf Hpf).
    destruct (to_string pf) as [k|]; [|reflexivity].
    destruct (String.eqb k "__proto__") eqn:Hk; [|reflexivity].
    apply String.eqb_eq in Hk. subst k. contradiction Hproto. reflexivity.
Qed.

(* ===================================================================== *)
(** ** The dashboard against the backend *)
(* ===================================================================== *)

Lemma request_url_api {W} `{World W} (mt : method) (path : string) :
  request_url (api_request mt path) = API ++ path
  /\ meth (api_request mt path) = mt.
Proof. split; reflexivity. Qed.

Section AgainstBackend.
Import Backend.

Lemma strip_app (p s : string) : strip p (p ++ s) = Some s.
Proof.
  induction p as [|c p IH]; cbn [strip append]; [destruct s; reflexivity|].
  rewrite Ascii.eqb_refl. exact IH.
Qed.






(** A request that is not lost is served by the row of its path. *)
Lemma sim_send_served (mt : method) (path : string) (w : sim) :
  lost (next_arrival w) = false ->
  send (api_request mt path) w
  = match handle (synth w) mt path (before_serving w) with
    | (Some body, s2) => (Resolved body, after w s2)
    | (None, s2) => (Rejected "Request failed with status code 404", after w s2)
    end.
Proof.
  intros Hl. cbn [send World_sim]. unfold sim_send. rewrite Hl.
  destruct (request_url_api mt path) as [-> ->].
  change (@API sim World_sim) with (base ++ "/api").
  rewrite strip_app. reflexivity.
Qed.



End AgainstBackend.

(* ===================================================================== *)
(** ** What the handlers leave in the hooks *)
(* ===================================================================== *)

Section Outcomes.
Context {W : Type} `{World W}.



(** The success path of [generateMockAlert]. *)
Lemma mock_resolved (m : machine W) data w1 a
      threat_level platform score author :
  send GET_mock (world m) = (Resolved data, w1) ->
  get data "alert" = Ok a ->
  get a "threat_level" = Ok threat_level ->
  get a "platform" = Ok platform ->
  get a "score" = Ok score ->
  get a "author" = Ok author ->
  converts threat_level = true ->
  converts platform = true ->
  converts score = true ->
  converts author = true ->
  exists ra rs,
    notification_of (hooks (run generateMockAlert m))
       = Some {| type := "success";
                 title := "✅ Test Alert Generated!";
                 message := [Lit "Created "; ToString threat_level;
                             Lit " threat alert from "; ToString platform];
                 details := [Lit "Score: "; ToFixed1x100 score;
                             Lit "% | Author: @"; ToString author] |}
    /\ sent m (run generateMockAlert m)
            [(GET_mock, Resolved data); (GET_alerts, ra); (GET_status, rs)]
    /\ timers (run generateMockAlert m)
       = (timers m ++ [hide_timer (next_timer m) 4000])%list
    /\ next_timer (run generateMockAlert m) = S (next_timer m)
    /\ now (run generateMockAlert m) = now m
    /\ mounted (run generateMockAlert m) = mounted m.
Proof.
  unfold GET_mock, GET_alerts, GET_status, sent.
  intros Hm Ha Htl Hpf Hsc Hau Hctl Hcpf Hcsc Hcau.
  open_machine m. unfold_M. rewrite Hm. unfold_M.
  repeat case_send;
    rewrite Ha, Htl, Hctl, Hpf, Hcpf, Hsc, Hcsc, Hau, Hcau; unfold hide_timer;
    do 2 eexists; rewrite <- ?app_assoc; repeat split.
Qed.



End Outcomes.

(* ===================================================================== *)
(** ** The two displayed counts *)
(* ===================================================================== *)

Section CountsAgree.
Import Backend.




Lemma handle_mock p s :
  handle p GET "/test/generate-mock-alert" s
  = (Some (VObj [("alert", alert_json (next_id s) (clock s) p)]),
     snd (persist p s)).
Proof. reflexivity. Qed.





End CountsAgree.

(* ===================================================================== *)
(** ** The test alert and its notification *)
(* ===================================================================== *)

Section Timers.
Context {W : Type} `{World W}.
Local Open Scope Z_scope.

Lemma fresh_footprint allowed (m m' : machine W) :
  fresh_ids m -> footprint allowed m m' -> fresh_ids m'.
Proof.
  intros Hf (_ & _ & _ & Ht & _) t.
  destruct Ht as [[-> ->]|[-> ->]]; [apply Hf|].
  intros Hin. apply in_app_or in Hin. destruct Hin as [Hin|[<-|[]]].
  - specialize (Hf t Hin). lia.
  - cbn [hide_timer tid]. lia.
Qed.

Lemma fresh_step (e : event) (m m' : machine W) :
  fresh_ids m -> step e m = Some m' -> fresh_ids m'.
Proof.
  intros Hf Hs. destruct e as [| |ms|i|h]; cbn [step] in Hs.
  - destruct (mounted m); [discriminate Hs|]. injection Hs as <-.
    unfold fresh_ids in *. open_machine m. unfold_M.
    repeat case_send; intros t Hin;
      (apply in_app_or in Hin; destruct Hin as [Hin|[<-|[]]];
       [specialize (Hf t Hin); lia | cbn [tid]; lia]).
  - destruct (mounted m); [|discriminate Hs]. injection Hs as <-.
    unfold run, unmount_effects, clearInterval.
    destruct (interval m); cbn [snd]; intros t Hin; cbn [timers next_timer] in *;
      [apply filter_In in Hin; destruct Hin as [Hin _]|]; apply (Hf t Hin).
  - destruct (_ && _); [|discriminate Hs]. injection Hs as <-.
    intros t Hin. unfold with_timers in *. cbn [timers next_timer] in *.
    apply in_map_iff in Hin. destruct Hin as (t0 & <- & Hin).
    cbn [tid]. apply (Hf t0 Hin).
  - destruct (find_timer i (timers m)) as [t|]; [|discriminate Hs].
    destruct (_ =? _); [|discriminate Hs]. injection Hs as <-.
    eapply fresh_footprint; [|apply footprint_callback].
    intros t' Hin. unfold with_timers in *. cbn [timers next_timer] in *.
    apply in_rearm in Hin. destruct Hin as (t0 & Hin & -> & _).
    apply (Hf t0 Hin).
  - destruct (mounted m); [|discriminate Hs].
    destruct (screen (hooks m)); [|discriminate Hs].
    destruct (clickable h _); [|discriminate Hs]. injection Hs as <-.
    eapply fresh_footprint; [exact Hf|apply footprint_handler].
Qed.

Lemma fresh_steps (es : list event) (m m' : machine W) :
  fresh_ids m -> steps es m = Some m' -> fresh_ids m'.
Proof.
  revert m. induction es as [|e es IH]; intros m Hf Hs; cbn [steps] in Hs.
  - injection Hs as <-. exact Hf.
  - destruct (step e m) as [m1|] eqn:Hstep; [|discriminate Hs].
    apply (IH m1 (fresh_step e m m1 Hf Hstep) Hs).
Qed.

Lemma fresh_initial (w : W) : fresh_ids (initial_machine w).
Proof. intros t []. Qed.

Lemma find_timer_last (ts : list timer) (t : timer) :
  (forall t0, In t0 ts -> (tid t0 < tid t)%nat) ->
  find_timer (tid t) (ts ++ [t]) = Some t.
Proof.
  unfold find_timer. induction ts as [|t0 ts IH]; intros Hlt; cbn [app find].
  - rewrite Nat.eqb_refl. reflexivity.
  - assert (Hne : Nat.eqb (tid t0) (tid t) = false).
    { apply Nat.eqb_neq. specialize (Hlt t0 (or_introl eq_refl)). lia. }
    rewrite Hne. apply IH. intros t1 Hin. apply Hlt. right. exact Hin.
Qed.

(** A notification timeout started now hides the notification after
    4000 ms and not before. *)
Lemma hides_after_4_seconds (m : machine W) (ts : list timer) (id : nat) :
  timers m = (ts ++ [hide_timer id 4000])%list ->
  (forall t, In t ts -> (tid t < id)%nat) ->
  step (Fire id) m = None
  /\ forall d m1,
      step (Elapse d) m = Some m1 ->
      0 < d <= 4000
      /\ (d < 4000 -> step (Fire id) m1 = None)
      /\ (d = 4000 ->
          exists m2, step (Fire id) m1 = Some m2
                     /\ notification_of (hooks m2) = None).
Proof.
  intros Ht Hlt. split.
  - pose proof (find_timer_last ts (hide_timer id 4000) Hlt) as Hfind.
    cbn [hide_timer tid] in Hfind. fold (hide_timer id 4000) in Hfind.
    cbn [step]. rewrite Ht, Hfind. reflexivity.
  - intros d m1 Hs. cbn [step] in Hs.
    destruct (0 <? d) eqn:Hpos; [|discriminate Hs]. cbn [andb] in Hs.
    destruct (forallb _ _) eqn:Hall; [|discriminate Hs].
    injection Hs as <-. apply Z.ltb_lt in Hpos.
    rewrite forallb_forall in Hall.
    assert (Hd : d <= 4000).
    { assert (Hin : In (hide_timer id 4000) (timers m))
        by (rewrite Ht; apply in_or_app; right; left; reflexivity).
      specialize (Hall _ Hin). apply Z.leb_le in Hall. exact Hall. }
    split; [lia|].
    assert (Hfind : find_timer id (timers (with_timers (map (tick d)) d m))
                    = Some (hide_timer id (4000 - d))).
    { unfold with_timers. cbn [timers]. rewrite Ht, map_app. cbn [map].
      apply (find_timer_last (map (tick d) ts) (tick d (hide_timer id 4000))).
      intros t0 Hin. apply in_map_iff in Hin. destruct Hin as (t1 & <- & Hin).
      cbn [tick tid hide_timer]. apply (Hlt t1 Hin). }
    fold (tick d). split.
    + intros Hlt4. cbn [step]. rewrite Hfind. cbn [hide_timer remaining].
      destruct (4000 - d =? 0) eqn:Hz; [|reflexivity].
      apply Z.eqb_eq in Hz. lia.
    + intros ->. cbn [step]. rewrite Hfind. cbn [hide_timer remaining].
      change (4000 - 4000 =? 0) with true. cbv iota.
      eexists. split; [reflexivity|]. reflexivity.
Qed.

End Timers.

Section MockAlert.
Import Backend.

(** C6. The mock endpoint persists one alert, counts it and returns it
    under [alert].  When the request gets through, the dashboard reads
    that alert, asks for /alerts and /status again, and shows a success
    notification made of the alert's threat level, platform, score and
    author, together with a timeout that hides it once 4000 ms have
    passed and not before. *)
Theorem mock_alert_notifies_and_refetches
        (w : sim) (es : list event) (m : machine sim)
        (Hrun : steps es (initial_machine w) = Some m)
        (Hnet : lost (next_arrival (world m)) = false) :
  let p := synth (world m) in
  let m' := run generateMockAlert m in
  (forall s, exists a s',
        handle p GET "/test/generate-mock-alert" s
        = (Some (VObj [("alert", a)]), s')
        /\ store s' = (store s ++ [a])%list
        /\ alerts_count s' = S (alerts_count s))
  /\ exists id time ra rs,
      sent m m' [ (GET_mock, Resolved (VObj [("alert", alert_json id time p)]));
                  (GET_alerts, ra); (GET_status, rs) ]
      /\ In (alert_json id time p) (store (srv (snd (send GET_mock (world m)))))
      /\ notification_of (hooks m') = Some (success_notification p)
      /\ In (TextOf (message (success_notification p)))
            (subnodes (NotificationPopup (notification_of (hooks m'))))
      /\ In (TextOf (details (success_notification p)))
            (subnodes (NotificationPopup (notification_of (hooks m'))))
      /\ timers m' = (timers m ++ [hide_timer (next_timer m) 4000])%list
      /\ step (Fire (next_timer m)) m' = None
      /\ (forall d m1,
             step (Elapse d) m' = Some m1 ->
             (0 < d <= 4000)%Z
             /\ (d < 4000 -> step (Fire (next_timer m)) m1 = None)%Z
             /\ (d = 4000%Z ->
                 exists m2, step (Fire (next_timer m)) m1 = Some m2
                            /\ notification_of (hooks m2) = None)).
Proof.
  intros p m'. split.
  - intros s. rewrite handle_mock. do 2 eexists.
    split; [reflexivity|]. split; reflexivity.
  - set (s := before_serving (world m)).
    pose proof (sim_send_served GET "/test/generate-mock-alert" (world m) Hnet)
      as Hsend.
    rewrite handle_mock in Hsend. fold s p in Hsend.
    destruct (mock_resolved m _ _ (alert_json (next_id s) (clock s) p)
                            _ _ _ _
                            Hsend eq_refl eq_refl eq_refl eq_refl eq_refl
                            eq_refl eq_refl eq_refl eq_refl)
      as (ra & rs & Hnote & Hsent & Htimers & Hnext & Hnow & Hmounted).
    exists (next_id s), (clock s), ra, rs. fold m' in Hnote, Hsent, Htimers.
    split; [exact Hsent|]. split.
    { change (send GET_mock (world m))
        with (send (api_request GET "/test/generate-mock-alert") (world m)).
      rewrite Hsend. cbn [snd after srv persist store].
      apply in_or_app. right. left. reflexivity. }
    split; [exact Hnote|].
    rewrite Hnote. split; [find_in|]. split; [find_in|].
    split; [exact Htimers|].
    apply (hides_after_4_seconds m' (timers m) (next_timer m) Htimers).
    apply (fresh_steps es _ m (fresh_initial w) Hrun).
Qed.

End MockAlert.

(* ===================================================================== *)
(** ** Worked instances *)
(* ===================================================================== *)

(** C1 on the backend that drops the first request after the initial
    load: the empty dashboard stays, with the error block. *)
Lemma failed_fetch_keeps_last_known_good_witness :
  let m := loaded flaky_world in
  screen (hooks m)
  = Some (dashboard (NotificationPopup None) (errorBanner VNull)
                    (panel_of (status (hooks m))) (VNum 0) noThreats)
  /\ alerts (hooks (run fetchAlerts m)) = VArr []
  /\ error (hooks (run fetchAlerts m)) = VStr "Failed to fetch alerts"
  /\ screen (hooks (run fetchAlerts m))
     = Some (dashboard (NotificationPopup None)
                       (errorBanner (VStr "Failed to fetch alerts"))
                       (panel_of (status (hooks m))) (VNum 0) noThreats).
Proof.
  intro m.
  assert (Hscreen : screen (hooks m)
                    = Some (dashboard (NotificationPopup None) (errorBanner VNull)
                                      (panel_of (status (hooks m))) (VNum 0)
                                      noThreats))
    by (vm_compute; reflexivity).
  split; [exact Hscreen|].
  destruct (failed_fetch_keeps_last_known_good m _ _ _ _ _ Hscreen) as (Ha & _).
  destruct (Ha "Network Error"
               (Backend.after (world m) (Backend.before_serving (world m))))
    as (H1 & _ & H3 & H4); [vm_compute; reflexivity|].
  split; [rewrite H1; vm_compute; reflexivity|].
  split; [exact H3|exact H4].
Defined.

(** C2 on a run with one tick. *)
Lemma polls_every_15_seconds_while_mounted_witness :
  exists r, polling (outcome [Mount; Elapse 15000; Fire 0] busy_world) 0 r.
Proof.
  assert (Hrun : steps [Mount; Elapse 15000; Fire 0] (initial_machine busy_world)
                 = Some (outcome [Mount; Elapse 15000; Fire 0] busy_world))
    by (vm_compute; reflexivity).
  assert (Hmounted : ~ In Unmount [Elapse 15000; Fire 0])
    by (simpl; intros [Hq|[Hq|[]]]; discriminate Hq).
  destruct (polls_every_15_seconds_while_mounted
              busy_world [Elapse 15000; Fire 0] _ Hrun Hmounted)
    as (_ & r & Hp & _).
  exists r. exact Hp.
Defined.


(** A timeout left over from an earlier notification hides the next one
    when it comes due: two test alerts 3 s apart, and the second
    notification is gone 1 s after it was shown. *)
Lemma earlier_timeout_hides_next_notification :
  option_map (fun m => notification_of (hooks m))
             (steps [Mount; Click generateMockAlert_h; Elapse 3000;
                     Click generateMockAlert_h]
                    (initial_machine calm_world))
  = Some (Some (success_notification threat))
  /\ option_map (fun m => (notification_of (hooks m), now m))
                (steps [Mount; Click generateMockAlert_h; Elapse 3000;
                        Click generateMockAlert_h; Elapse 1000; Fire 1]
                       (initial_machine calm_world))
     = Some (None, 4000%Z).
Proof. split; vm_compute; reflexivity. Qed.

(** C6 right after the mount on the busy backend. *)
Lemma mock_alert_notifies_and_refetches_witness :
  notification_of (hooks (run generateMockAlert (outcome [Mount] busy_world)))
  = Some (success_notification threat).
Proof.
  assert (Hrun : steps [Mount] (initial_machine busy_world)
                 = Some (outcome [Mount] busy_world))
    by (vm_compute; reflexivity).
  assert (Hnet : Backend.lost
                   (Backend.next_arrival (world (outcome [Mount] busy_world)))
                 = false)
    by (vm_compute; reflexivity).
  destruct (mock_alert_notifies_and_refetches busy_world [Mount] _ Hrun Hnet)
    as (_ & id & time & ra & rs & _ & _ & Hnote & _).
  exact Hnote.
Defined.

(** C7 on an alert whose analysis is empty. *)
Lemma ai_analysis_section_iff_nonempty_witness :
  exists n, ThreatAlert (Backend.alert_json 0 0 threat) = Ok n
            /\ ~ In (Text "AI Analysis:") (subnodes n)
            /\ react_ok n = true.
Proof.
  assert (Halert : card_buildable (Backend.alert_json 0 0 threat) = true)
    by (vm_compute; reflexivity).
  destruct (ai_analysis_section_iff_nonempty _ Halert)
    as (n & ai & Hn & Hai & Hiff & _ & _ & _ & Hok & _).
  exists n. split; [exact Hn|]. split.
  - rewrite Hiff. vm_compute in Hai. injection Hai as <-. discriminate.
  - rewrite Hok. vm_compute. reflexivity.
Defined.

(** C5 on the same alert: the card is built and the content of the post
    is on it. *)
Lemma card_consumes_only_alert_fields_witness :
  exists n, ThreatAlert (Backend.alert_json 0 0 threat) = Ok n
            /\ In (VStr "I know where you live") (values_of n).
Proof.
  assert (Halert : card_buildable (Backend.alert_json 0 0 threat) = true)
    by (vm_compute; reflexivity).
  destruct (card_consumes_only_alert_fields _ Halert)
    as (_ & _ & (n & Hn & Hshown) & _).
  exists n. split; [exact Hn|].
  destruct (Hshown "content") as (v & Hv & Hin).
  - cbn [card_fields In]. tauto.
  - vm_compute in Hv. injection Hv as <-. exact Hin.
Defined.

(* ===================================================================== *)
(** ** Handlers: what they return and what they leave behind *)
(* ===================================================================== *)

Section HandlerOutcomes.
Context {W : Type} `{World W}.

(** X1. No handler, timer callback or effect lets an exception out:
    whatever the network and the bodies of the responses, each of them
    returns normally. *)
Theorem handlers_never_throw (m : machine W) :
  (forall h, fst (handler_code h m) = Ok tt)
  /\ (forall cb, fst (callback_code cb m) = Ok tt)
  /\ fst (loadData m) = Ok tt
  /\ fst (mount_effects m) = Ok tt.
Proof.
  open_machine m.
  split; [|split; [|split]];
    [intros h; destruct h | intros cb; destruct cb | | ];
    unfold_M;
    try (destruct (confirm _ _) as [[|] w0]; unfold_M);
    repeat case_send; repeat case_get; reflexivity.
Qed.

(** X2. After Start, the hook state is decided by the two requests: a
    rejected POST leaves everything but the error, which becomes the
    start message; a resolved POST followed by a rejected GET /status
    also leaves the old status on display, with the fetch message; only a
    resolved GET /status replaces the status and clears the error.  The
    body of the POST response is not used.  Stop does the same with its
    own request and message. *)
Theorem start_stop_outcomes (m : machine W) :
  hooks (run startMonitoring m)
  = match send POST_start (world m) with
    | (Rejected _, _) => set_error (VStr "Failed to start monitoring") (hooks m)
    | (Resolved _, w1) =>
        match send GET_status w1 with
        | (Rejected _, _) => set_error (VStr "Failed to fetch status") (hooks m)
        | (Resolved data, _) =>
            {| alerts := alerts (hooks m); status := data;
               loading := loading (hooks m); error := VNull;
               notification_of := notification_of (hooks m) |}
        end
    end
  /\ hooks (run stopMonitoring m)
     = match send POST_stop (world m) with
       | (Rejected _, _) => set_error (VStr "Failed to stop monitoring") (hooks m)
       | (Resolved _, w1) =>
           match send GET_status w1 with
           | (Rejected _, _) => set_error (VStr "Failed to fetch status") (hooks m)
           | (Resolved data, _) =>
               {| alerts := alerts (hooks m); status := data;
                  loading := loading (hooks m); error := VNull;
                  notification_of := notification_of (hooks m) |}
           end
       end.
Proof.
  open_machine m. unfold POST_start, POST_stop, GET_status, set_error.
  split; unfold_M; repeat case_send; tidy_sends; reflexivity.
Qed.

(** X3. A confirmed clear whose DELETE succeeded reports only its last
    fetch: when GET /alerts is rejected and GET /status is resolved, the
    page keeps listing the old alerts next to the new status, with no
    error on display. *)
Theorem clear_hides_failed_alerts_fetch
        (m : machine W) (w0 w1 w2 w3 : W) (d ds : value) (msg : string)
        (Hyes : confirm clear_question (world m) = (true, w0))
        (Hdelete : send DELETE_alerts w0 = (Resolved d, w1))
        (Halerts : send GET_alerts w1 = (Rejected msg, w2))
        (Hstatus : send GET_status w2 = (Resolved ds, w3)) :
  alerts (hooks (run clearAlerts m)) = alerts (hooks m)
  /\ status (hooks (run clearAlerts m)) = ds
  /\ error (hooks (run clearAlerts m)) = VNull
  /\ errorBanner (error (hooks (run clearAlerts m))) = Child VNull
  /\ console (run clearAlerts m)
     = (console m ++ [("Error fetching alerts:", AxiosError msg)])%list.
Proof.
  open_machine m.
  unfold clear_question, DELETE_alerts, GET_alerts, GET_status in *.
  unfold_M. rewrite Hyes. unfold_M. rewrite Hdelete. unfold_M.
  rewrite Halerts. unfold_M. rewrite Hstatus. repeat split.
Qed.

(** X4. A failed DELETE, and a declined dialog, leave alerts and status
    alone; the failed DELETE sets the clear message and sends nothing
    more, the declined dialog changes no hook at all. *)
Theorem clear_failure_keeps_data (m : machine W) :
  match confirm clear_question (world m) with
  | (false, _) => hooks (run clearAlerts m) = hooks m
  | (true, w0) =>
      match send DELETE_alerts w0 with
      | (Rejected msg, _) =>
          hooks (run clearAlerts m)
          = set_error (VStr "Failed to clear alerts") (hooks m)
          /\ console (run clearAlerts m)
             = (console m ++ [("Error clearing alerts:", AxiosError msg)])%list
      | (Resolved _, _) =>
          error (hooks (run clearAlerts m)) <> VStr "Failed to clear alerts"
      end
  end.
Proof.
  open_machine m. unfold clear_question, DELETE_alerts, set_error.
  unfold_M. destruct (confirm _ _) as [[|] w0]; unfold_M; [|reflexivity].
  repeat case_send; tidy_sends; try (split; reflexivity); discriminate.
Qed.

(** X5. Every run of [generateMockAlert] ends with a notification on
    display and one more timeout of 4000 ms to hide it, whether it
    succeeded or failed.  The notification is the error one exactly when
    the error cell holds the mock-alert message. *)
Theorem mock_alert_always_notifies (m : machine W) :
  let m' := run generateMockAlert m in
  (notification_kind (notification_of (hooks m')) = Some "success"
   \/ notification_kind (notification_of (hooks m')) = Some "error")
  /\ timers m' = (timers m ++ [hide_timer (next_timer m) 4000])%list
  /\ next_timer m' = S (next_timer m)
  /\ (notification_kind (notification_of (hooks m')) = Some "error"
      <-> error (hooks m') = VStr "Failed to generate mock alert").
Proof.
  open_machine m. unfold hide_timer, notification_kind. unfold_M.
  repeat case_send; repeat case_get;
    (split; [first [left; reflexivity | right; reflexivity]|]);
    (split; [reflexivity|]); (split; [reflexivity|]);
    split; intros Hq; first [reflexivity | discriminate Hq].
Qed.

(** X6. When the mock-alert request is rejected, nothing else is sent,
    alerts and status stay, the error cell gets the mock-alert message
    and the notification is the error one, carrying the message of the
    rejection. *)
Theorem mock_alert_rejected
        (m : machine W) (msg : string) (w1 : W)
        (Hmock : send GET_mock (world m) = (Rejected msg, w1)) :
  hooks (run generateMockAlert m)
  = set_notification (Some (error_notification msg))
      (set_error (VStr "Failed to generate mock alert") (hooks m))
  /\ sent m (run generateMockAlert m) [(GET_mock, Rejected msg)]
  /\ console (run generateMockAlert m)
     = (console m ++ [("Error generating mock alert:", AxiosError msg)])%list.
Proof.
  open_machine m. unfold GET_mock, sent in *. unfold_M. rewrite Hmock.
  repeat split.
Qed.

(** X7. When the mock-alert request is resolved with a body that has no
    alert in it ([data] is null or undefined, or [data.alert] is), the
    two fetches still go out and their data is stored, and then the run
    ends like a failure: the mock-alert message in the error cell, over
    whatever the fetches left there, and the error notification with the
    message of the TypeError of the failed read. *)
Theorem mock_alert_without_alert
        (m : machine W) (data : value) (w1 : W)
        (Hmock : send GET_mock (world m) = (Resolved data, w1))
        (Hbody : nullish data = true
                 \/ exists a, get data "alert" = Ok a /\ nullish a = true) :
  (exists ra rs,
      sent m (run generateMockAlert m)
           [(GET_mock, Resolved data); (GET_alerts, ra); (GET_status, rs)]
      /\ alerts (hooks (run generateMockAlert m))
         = match ra with Resolved d => d | Rejected _ => alerts (hooks m) end
      /\ status (hooks (run generateMockAlert m))
         = match rs with Resolved d => d | Rejected _ => status (hooks m) end)
  /\ error (hooks (run generateMockAlert m))
     = VStr "Failed to generate mock alert"
  /\ notification_of (hooks (run generateMockAlert m))
     = Some (error_notification (missing_alert_message data))
  /\ (nullish data = true ->
      missing_alert_message data
      = "Cannot read properties of " ++ typeof_nullish data
          ++ " (reading 'alert')")
  /\ (forall a, get data "alert" = Ok a -> nullish a = true ->
                missing_alert_message data
                = "Cannot read properties of " ++ typeof_nullish a
                    ++ " (reading 'threat_level')").
Proof.
  assert (Hmsg1 : nullish data = true ->
                  missing_alert_message data
                  = "Cannot read properties of " ++ typeof_nullish data
                      ++ " (reading 'alert')")
    by (destruct data; try discriminate; reflexivity).
  assert (Hmsg2 : forall a, get data "alert" = Ok a -> nullish a = true ->
                            missing_alert_message data
                            = "Cannot read properties of " ++ typeof_nullish a
                                ++ " (reading 'threat_level')").
  { intros a Ha Hn. unfold missing_alert_message. rewrite Ha.
    destruct a; try discriminate Hn; reflexivity. }
  split; [|split; [|split; [|split; [exact Hmsg1|exact Hmsg2]]]];
    clear Hmsg1 Hmsg2;
    open_machine m; unfold GET_mock, GET_alerts, GET_status, sent,
      missing_alert_message in *;
    unfold_M; rewrite Hmock; unfold_M;
    (destruct Hbody as [Hn|(a & Ha & Hn)];
     [ destruct data; try discriminate Hn; cbn [get]
     | rewrite Ha; destruct a; try discriminate Hn; cbn [get] ]);
    repeat case_send;
    try (do 2 eexists; rewrite <- ?app_assoc; repeat split);
    reflexivity.
Qed.

End HandlerOutcomes.

(* ===================================================================== *)
(** ** What holds along every run *)
(* ===================================================================== *)

Lemma string_eqb_app_l (p a b : string) :
  String.eqb (p ++ a) (p ++ b) = String.eqb a b.
Proof.
  induction p as [|c p IH]; cbn [append String.eqb]; [reflexivity|].
  rewrite Ascii.eqb_refl. exact IH.
Qed.

Lemma last_resolved_app rq d l1 l2 :
  last_resolved rq d (l1 ++ l2) = last_resolved rq (last_resolved rq d l1) l2.
Proof.
  revert d. induction l1 as [|[r [data|msg]] l1 IH]; intros d;
    cbn [app last_resolved]; auto.
Qed.

(** Comparing two of the requests of the file. *)
Ltac eval_request_eqb :=
  cbv [request_eqb meth url method_eqb andb
       GET_alerts GET_status POST_start POST_stop DELETE_alerts GET_mock
       GET_recent];
  rewrite ?string_eqb_app_l;
  repeat match goal with
         | |- context [String.eqb ?a ?b] =>
             let v := eval vm_compute in (String.eqb a b) in
             change (String.eqb a b) with v
         end;
  cbv iota.

Ltac frame_done :=
  cbn [last_resolved app]; eval_request_eqb;
  repeat split;
  try reflexivity;
  try (repeat constructor; cbn [fst In]; tauto);
  try (intros _; reflexivity);
  try (intros Hk; exact Hk).

Section AlongRuns.
Context {W : Type} `{World W}.

Lemma frame_handler (h : handler) (m : machine W) :
  frame m (run (handler_code h) m)
  /\ loading (hooks (run (handler_code h) m)) = loading (hooks m).
Proof.
  open_machine m. unfold frame, sent, endpoints.
  destruct h; unfold_M;
    try (destruct (confirm _ _) as [[|] w0]; unfold_M);
    repeat case_send; repeat case_get;
    (split; [|reflexivity]);
    eexists;
    (split; [first [ symmetry; apply app_nil_r
                   | rewrite <- ?app_assoc; reflexivity ]|]);
    frame_done.
Qed.

Lemma frame_callback (cb : callback) (m : machine W) :
  frame m (run (callback_code cb) m)
  /\ loading (hooks (run (callback_code cb) m)) = loading (hooks m).
Proof.
  open_machine m. unfold frame, sent, endpoints.
  destruct cb; unfold_M;
    repeat case_send;
    (split; [|reflexivity]);
    eexists;
    (split; [first [ symmetry; apply app_nil_r
                   | rewrite <- ?app_assoc; reflexivity ]|]);
    frame_done.
Qed.

Lemma frame_mount (m : machine W) :
  frame m (run mount_effects m)
  /\ loading (hooks (run mount_effects m)) = false.
Proof.
  open_machine m. unfold frame, sent, endpoints.
  unfold_M.
  repeat case_send;
    (split; [|reflexivity]);
    eexists;
    (split; [first [ symmetry; apply app_nil_r
                   | rewrite <- ?app_assoc; reflexivity ]|]);
    frame_done.
Qed.

Lemma frame_refl (m m' : machine W) :
  hooks m' = hooks m -> exchanges m' = exchanges m -> frame m m'.
Proof.
  intros Hh He. exists []. unfold sent. rewrite He, Hh.
  repeat split; auto. symmetry. apply app_nil_r.
Qed.

Lemma frame_step (e : event) (m m' : machine W) :
  step e m = Some m' ->
  frame m m'
  /\ loading (hooks m') = match e with
                          | Mount => false
                          | _ => loading (hooks m)
                          end.
Proof.
  intros Hs. destruct e as [| |ms|i|h]; cbn [step] in Hs.
  - destruct (mounted m); [discriminate Hs|]. injection Hs as <-.
    apply frame_mount.
  - destruct (mounted m); [|discriminate Hs]. injection Hs as <-.
    split; [apply frame_refl|];
      unfold run, unmount_effects, clearInterval;
      destruct (interval m); reflexivity.
  - destruct (_ && _); [|discriminate Hs]. injection Hs as <-.
    split; [apply frame_refl|]; reflexivity.
  - destruct (find_timer i (timers m)) as [t|]; [|discriminate Hs].
    destruct (_ =? _)%Z; [|discriminate Hs]. injection Hs as <-.
    apply (frame_callback (callback_of t) (with_timers (rearm i) 0 m)).
  - destruct (mounted m); [|discriminate Hs].
    destruct (screen (hooks m)); [|discriminate Hs].
    destruct (clickable h _); [|discriminate Hs]. injection Hs as <-.
    apply frame_handler.
Qed.

Lemma frame_trans (m1 m2 m3 : machine W) :
  frame m1 m2 -> frame m2 m3 -> frame m1 m3.
Proof.
  intros (l1 & Hs1 & Hf1 & Ha1 & Hst1 & He1) (l2 & Hs2 & Hf2 & Ha2 & Hst2 & He2).
  exists (l1 ++ l2)%list. unfold sent in *.
  split; [rewrite Hs2, Hs1, app_assoc; reflexivity|].
  split; [apply Forall_app; split; assumption|].
  rewrite !last_resolved_app, <- Ha1, <- Hst1.
  repeat split; auto.
Qed.

Lemma frame_steps (es : list event) (m m' : machine W) :
  steps es m = Some m' -> frame m m'.
Proof.
  revert m. induction es as [|e es IH]; intros m Hs; cbn [steps] in Hs.
  - injection Hs as <-. apply frame_refl; reflexivity.
  - destruct (step e m) as [m1|] eqn:Hstep; [|discriminate Hs].
    eapply frame_trans; [apply (frame_step e m m1 Hstep)|apply IH; exact Hs].
Qed.

(** X8. Last known good, along every run from a fresh page: the alerts
    on display are the body of the latest GET /alerts that was resolved,
    and the empty list when none was; the status on display is the body
    of the latest GET /status that was resolved, and the initial object
    when none was.  No other response and no failure ever changes them. *)
Theorem displays_latest_resolved_bodies
        (w : W) (es : list event) (m : machine W)
        (Hrun : steps es (initial_machine w) = Some m) :
  alerts (hooks m) = last_resolved GET_alerts (VArr []) (exchanges m)
  /\ status (hooks m) = last_resolved GET_status initial_status (exchanges m).
Proof.
  destruct (frame_steps es _ m Hrun) as (l & Hs & _ & Ha & Hst & _).
  unfold sent in Hs. cbn [initial_machine exchanges app] in Hs.
  rewrite Hs. split; assumption.
Qed.

(** X9. Along every run from a fresh page the error cell is [null] or
    one of the six messages of the file, so that React always accepts the
    error block; the block is on the page exactly when the cell is not
    [null]. *)
Theorem error_is_null_or_known_message
        (w : W) (es : list event) (m : machine W)
        (Hrun : steps es (initial_machine w) = Some m) :
  known_error (error (hooks m)) = true
  /\ react_ok (errorBanner (error (hooks m))) = true
  /\ (errorBanner (error (hooks m)) = Child VNull <-> error (hooks m) = VNull).
Proof.
  destruct (frame_steps es _ m Hrun) as (l & _ & _ & _ & _ & He).
  specialize (He eq_refl).
  destruct (error (hooks m)) as [| | | |s| |]; try discriminate He.
  - repeat split; reflexivity.
  - split; [exact He|].
    assert (Hs : truthy (VStr s) = true).
    { destruct s; [discriminate He|reflexivity]. }
    unfold errorBanner. rewrite Hs. split; [reflexivity|].
    split; intros Hq; discriminate Hq.
Qed.

(** X10. Every request of every run from a fresh page goes to one of the
    six endpoints the file names; GET /alerts/recent is never asked for. *)
Theorem requests_stay_within_six_endpoints
        (w : W) (es : list event) (m : machine W)
        (Hrun : steps es (initial_machine w) = Some m) :
  Forall (fun x => In (fst x) endpoints) (exchanges m)
  /\ ~ In GET_recent (map fst (exchanges m)).
Proof.
  destruct (frame_steps es _ m Hrun) as (l & Hs & Hf & _).
  unfold sent in Hs. cbn [initial_machine exchanges app] in Hs. subst l.
  split; [exact Hf|].
  intros Hin. apply in_map_iff in Hin. destruct Hin as (x & Hx & Hin).
  rewrite Forall_forall in Hf. specialize (Hf x Hin). rewrite Hx in Hf.
  unfold endpoints, GET_recent, GET_alerts, GET_status, POST_start, POST_stop,
    DELETE_alerts, GET_mock in Hf.
  cbn [In] in Hf.
  repeat (destruct Hf as [Hq|Hf];
          [try discriminate Hq;
           injection Hq as Hq; apply append_inj_l in Hq; discriminate Hq|]).
  destruct Hf.
Qed.

(** X11. [loading] is touched by [loadData] alone.  A fresh page starts
    with it true; [loadData], once its two fetches are settled, leaves it
    false whatever they did; no handler and no timer callback changes
    it.  While it is true the page is the loading screen, which has
    nothing to click. *)
Theorem loading_is_cleared_by_loadData_alone (m : machine W) :
  loading (hooks (run loadData m)) = false
  /\ (forall h, loading (hooks (run (handler_code h) m)) = loading (hooks m))
  /\ (forall cb,
         loading (hooks (run (callback_code cb) m)) = loading (hooks m))
  /\ (forall w : W, loading (hooks (initial_machine w)) = true)
  /\ (forall s, loading s = true ->
                screen s = Some loadingScreen /\ buttons loadingScreen = [])
  /\ (forall h, loading (hooks m) = true -> step (Click h) m = None).
Proof.
  split; [|split; [|split; [|split; [reflexivity|split]]]].
  - open_machine m. unfold_M. repeat case_send; reflexivity.
  - intros h. apply (frame_handler h m).
  - intros cb. apply (frame_callback cb m).
  - intros s Hl. unfold screen, App. rewrite Hl. split; reflexivity.
  - intros h Hl. cbn [step]. destruct (mounted m); [|reflexivity].
    unfold screen, App. rewrite Hl. cbn. destruct h; reflexivity.
Qed.

End AlongRuns.

(* ===================================================================== *)
(** ** What the page shows and lets the user do *)
(* ===================================================================== *)

Lemma MonitoringStatus_nullish (st : value) (onStart onStop onClear : handler) :
  nullish st = true ->
  MonitoringStatus st onStart onStop onClear
  = Throw (TypeError ("Cannot read properties of " ++ typeof_nullish st
                        ++ " (reading 'is_running')")).
Proof. destruct st; try discriminate; reflexivity. Qed.

Lemma MonitoringStatus_unconvertible
      (st : value) (onStart onStop onClear : handler) :
  nullish st = false -> panel_buildable st = false ->
  MonitoringStatus st onStart onStop onClear = Throw cannot_convert.
Proof.
  intros Hn Hb.
  destruct (get_total st "is_running" Hn) as [v Hv].
  destruct (get_total st "alerts_count" Hn) as [ac Hac].
  destruct (get_total st "platforms_monitored" Hn) as [pm Hpm].
  destruct (get_total st "last_check" Hn) as [lc Hlc].
  unfold panel_buildable, field_is in Hb. rewrite Hlc in Hb.
  unfold MonitoringStatus, platformsCount, lastCheckText, to_primitive.
  rewrite Hv, Hac, Hpm, Hlc. cbn [bind ret Monad_res res_bind].
  destruct (truthy lc); [|discriminate Hb].
  destruct (converts lc); [discriminate Hb|reflexivity].
Qed.

Lemma MonitoringStatus_panel (st : value) (onStart onStop onClear : handler) :
  panel_buildable st = true ->
  exists n v,
    get st "is_running" = Ok v
    /\ MonitoringStatus st onStart onStop onClear = Ok n
    /\ buttons n = [ (onStart, truthy v); (onStop, negb (truthy v));
                     (onClear, false) ]
    /\ In (Elem "div"
             [className
                [Lit "px-3 py-1 rounded-full text-sm font-semibold ";
                 Lit (if truthy v
                      then "bg-green-100 text-green-800"
                      else "bg-gray-100 text-gray-800")]]
             [Child (VStr (if truthy v then "🟢 ACTIVE" else "⭕ STOPPED"))])
          (subnodes n).
Proof.
  intros Hb. pose proof (field_is_nullish _ _ _ Hb) as Hn.
  destruct (get_total st "is_running" Hn) as [v Hv].
  destruct (get_total st "alerts_count" Hn) as [ac Hac].
  destruct (get_total st "platforms_monitored" Hn) as [pm Hpm].
  destruct (get_total st "last_check" Hn) as [lc Hlc].
  unfold panel_buildable, field_is in Hb. rewrite Hlc in Hb.
  unfold MonitoringStatus, platformsCount, lastCheckText, to_primitive.
  rewrite Hv, Hac, Hpm, Hlc. cbn [bind ret Monad_res res_bind].
  destruct (truthy lc); cbn [negb orb] in Hb; [rewrite Hb|];
    cbn [res_bind];
    (do 2 eexists; split; [reflexivity|]; split; [reflexivity|];
     split; [reflexivity|]; find_in).
Qed.

Lemma MonitoringStatus_ok_iff (st : value) (onStart onStop onClear : handler) :
  (exists n, MonitoringStatus st onStart onStop onClear = Ok n)
  <-> panel_buildable st = true.
Proof.
  split.
  - intros [n Hn]. destruct (panel_buildable st) eqn:Hb; [reflexivity|].
    destruct (nullish st) eqn:Hnull.
    + rewrite (MonitoringStatus_nullish _ _ _ _ Hnull) in Hn. discriminate Hn.
    + rewrite (MonitoringStatus_unconvertible _ _ _ _ Hnull Hb) in Hn.
      discriminate Hn.
  - intros Hb.
    destruct (MonitoringStatus_panel st onStart onStop onClear Hb)
      as (n & v & _ & Hn & _).
    exists n. exact Hn.
Qed.

(** X12. The panel is built from every status whose [last_check] is
    falsy or can be made a date: its badge is the green ACTIVE one when
    [is_running] is truthy and the grey STOPPED one otherwise, Start is
    disabled exactly when the badge says ACTIVE, Stop exactly when it
    says STOPPED, and Clear is always enabled.  On [null] or [undefined]
    the panel throws a TypeError on its first read, and on a
    [last_check] that is truthy and cannot be converted the TypeError of
    the conversion. *)
Theorem panel_badge_and_buttons_agree
        (st : value) (onStart onStop onClear : handler) :
  (nullish st = true ->
   MonitoringStatus st onStart onStop onClear
   = Throw (TypeError ("Cannot read properties of " ++ typeof_nullish st
                         ++ " (reading 'is_running')")))
  /\ (nullish st = false -> panel_buildable st = false ->
      MonitoringStatus st onStart onStop onClear
      = Throw (TypeError "Cannot convert object to primitive value"))
  /\ (panel_buildable st = true ->
      exists n v,
        get st "is_running" = Ok v
        /\ MonitoringStatus st onStart onStop onClear = Ok n
        /\ buttons n = [ (onStart, truthy v); (onStop, negb (truthy v));
                         (onClear, false) ]
        /\ In (Elem "div"
                 [className
                    [Lit "px-3 py-1 rounded-full text-sm font-semibold ";
                     Lit (if truthy v
                          then "bg-green-100 text-green-800"
                          else "bg-gray-100 text-gray-800")]]
                 [Child (VStr (if truthy v
                               then "🟢 ACTIVE" else "⭕ STOPPED"))])
              (subnodes n)).
Proof.
  split; [|split].
  - apply MonitoringStatus_nullish.
  - apply MonitoringStatus_unconvertible.
  - apply MonitoringStatus_panel.
Qed.

Lemma is_zero_length (n : nat) : is_zero (num_of_nat n) = true <-> n = O.
Proof.
  destruct n as [|n]; [split; reflexivity|].
  split; [|discriminate]. unfold is_zero, num_of_nat. intros Hq.
  apply Qeq_bool_iff in Hq. unfold Qeq, inject_Z in Hq.
  cbn [Qnum Qden] in Hq. lia.
Qed.

Lemma ThreatAlert_ok_iff (a : value) :
  (exists n, ThreatAlert a = Ok n) <-> card_buildable a = true.
Proof.
  split.
  - intros [n Hn]. apply (ThreatAlert_built a n Hn).
  - intros Hb.
    destruct (ThreatAlert_card a Hb)
      as (tl & pf & sc & au & co & re & ai & ts & u & _ & _ & _ & _ & _ & _
          & _ & _ & _ & Hcard).
    eexists. exact Hcard.
Qed.

Lemma alertCards_built (items : list value) (cards : list node) :
  alertCards (VArr items) = Ok cards ->
  forallb entry_buildable items = true /\ Forall2 keyed_card items cards.
Proof.
  cbn [alertCards]. revert cards.
  induction items as [|a items IH]; intros cards; cbn [mapM_res forallb].
  - intros Hc. injection Hc as <-. split; [reflexivity|constructor].
  - cbn [bind ret Monad_res]. unfold entry_buildable at 1.
    unfold field_is, to_primitive.
    destruct (get a "id") as [id|] eqn:Hid; cbn [res_bind]; [|discriminate].
    destruct (converts id); cbn [res_bind]; [|discriminate].
    destruct (ThreatAlert a) as [card0|] eqn:Hcard; cbn [res_bind];
      [|discriminate].
    destruct (mapM_res _ items) as [rest|]; cbn [res_bind]; [|discriminate].
    intros Hc. injection Hc as <-.
    destruct (IH rest eq_refl) as [Hall Hk].
    rewrite (ThreatAlert_built a card0 Hcard), Hall.
    split; [reflexivity|]. constructor; [|exact Hk].
    exists id, card0. auto.
Qed.

Lemma alertCards_ok (items : list value) :
  forallb entry_buildable items = true ->
  exists cards, alertCards (VArr items) = Ok cards
                /\ Forall2 keyed_card items cards.
Proof.
  cbn [alertCards]. induction items as [|a items IH]; cbn [forallb mapM_res].
  - intros _. exists []. split; [reflexivity|constructor].
  - intros Hall. apply andb_prop in Hall. destruct Hall as [Ha Hrest].
    unfold entry_buildable in Ha. apply andb_prop in Ha.
    destruct Ha as [Hid Hcard].
    destruct (field_is_get _ _ _ Hid) as (id & Hgid & Hcid).
    destruct (IH Hrest) as (cards & Hcards & Hall).
    destruct (proj2 (ThreatAlert_ok_iff a) Hcard) as [n Hn].
    exists (with_key id n :: cards).
    assert (Hp : to_primitive id = Ok tt)
      by (unfold to_primitive; rewrite Hcid; reflexivity).
    cbn [bind ret Monad_res] in *.
    rewrite Hgid. cbn [res_bind]. rewrite Hp. cbn [res_bind].
    rewrite Hn. cbn [res_bind]. rewrite Hcards. cbn [res_bind].
    split; [reflexivity|]. constructor; [|exact Hall].
    exists id, n. auto.
Qed.

Lemma alertCards_throws (items : list value) :
  forallb entry_buildable items = false ->
  exists e, alertCards (VArr items) = Throw e.
Proof.
  intros Hall.
  destruct (alertCards (VArr items)) as [cards|e] eqn:Hc;
    [|eexists; reflexivity].
  destruct (alertCards_built items cards Hc) as [Hok _]. congruence.
Qed.

(** The list part of [App], from [alerts] alone. *)
Lemma list_part (a : value) :
  if list_buildable a
  then exists len lst,
      get a "length" = Ok len
      /\ (if is_zero len then ret noThreats
          else cards <- alertCards a ;;
               ret (Elem "div" [cls "space-y-4"] cards)) = Ok lst
  else (exists e, get a "length" = Throw e)
       \/ exists len e,
           get a "length" = Ok len
           /\ (if is_zero len then ret noThreats
               else cards <- alertCards a ;;
                    ret (Elem "div" [cls "space-y-4"] cards)) = Throw e.
Proof.
  destruct a as [| |b|q|s|items|fields]; cbn [list_buildable].
  - left. eexists. reflexivity.
  - left. eexists. reflexivity.
  - right. do 2 eexists. split; reflexivity.
  - right. do 2 eexists. split; reflexivity.
  - cbn [get String.eqb Ascii.eqb Bool.eqb].
    destruct (is_zero (num_of_nat (String.length s))) eqn:Hz.
    + do 2 eexists. split; [reflexivity|]. rewrite Hz. reflexivity.
    + right. do 2 eexists. split; [reflexivity|]. rewrite Hz. reflexivity.
  - destruct (forallb _ items) eqn:Hall.
    + destruct (alertCards_ok items Hall) as (cards & Hcards & _).
      exists (num_of_nat (List.length items)). cbn [get String.eqb].
      rewrite Ascii.eqb_refl. cbn [String.eqb].
      change (String.eqb "ength" "ength") with true. cbv iota.
      destruct (is_zero (num_of_nat (List.length items))).
      * exists noThreats. split; reflexivity.
      * eexists. split; [reflexivity|].
        cbn [bind ret Monad_res]. rewrite Hcards. reflexivity.
    + right. destruct (alertCards_throws items Hall) as [e He].
      do 2 eexists. split; [reflexivity|].
      destruct (is_zero _) eqn:Hz.
      * apply is_zero_length in Hz. destruct items; discriminate.
      * cbn [bind ret Monad_res]. rewrite He. reflexivity.
  - cbn [get].
    destruct (is_zero _) eqn:Hz.
    + do 2 eexists. split; [reflexivity|]. rewrite Hz. reflexivity.
    + right. do 2 eexists. split; [reflexivity|]. rewrite Hz. reflexivity.
Qed.

Lemma App_ok_iff (s : state) :
  loading s = false ->
  ((exists n, App s = Ok n)
   <-> panel_buildable (status s) = true /\ list_buildable (alerts s) = true).
Proof.
  intros Hl. rewrite (App_loaded s Hl). cbn [bind ret Monad_res].
  pose proof (list_part (alerts s)) as Hlist.
  pose proof (MonitoringStatus_ok_iff (status s) startMonitoring_h
                stopMonitoring_h clearAlerts_h) as Hpanel.
  destruct (MonitoringStatus (status s) _ _ _) as [mon|e]; cbn [res_bind].
  - assert (Hst : panel_buildable (status s) = true)
      by (apply Hpanel; eexists; reflexivity).
    rewrite Hst.
    destruct (list_buildable (alerts s)).
    + destruct Hlist as (len & lst & Hlen & Hlst).
      rewrite Hlen. cbn [res_bind]. cbn [bind ret Monad_res] in Hlst.
      rewrite Hlst. cbn [res_bind].
      split; [auto|]. intros _. eexists. reflexivity.
    + split; [|intros [_ Hq]; discriminate Hq].
      intros [n Hn]. exfalso.
      destruct Hlist as [[e He]|(len & e & Hlen & He)].
      * rewrite He in Hn. discriminate Hn.
      * rewrite Hlen in Hn. cbn [res_bind] in Hn.
        cbn [bind ret Monad_res] in He. rewrite He in Hn. discriminate Hn.
  - assert (Hst : panel_buildable (status s) = false).
    { destruct (panel_buildable (status s)); [|reflexivity].
      destruct (proj2 Hpanel eq_refl) as [n Hn]. discriminate Hn. }
    rewrite Hst.
    split; [intros [n Hn]; discriminate Hn|intros [Hq _]; discriminate Hq].
Qed.

Lemma unbuildable_no_page (s : state) :
  loading s = false ->
  panel_buildable (status s) = false \/ list_buildable (alerts s) = false ->
  screen s = None.
Proof.
  intros Hl Hbad. unfold screen.
  destruct (App s) as [n|e] eqn:HApp; [|reflexivity].
  exfalso.
  destruct (proj1 (App_ok_iff s Hl) (ex_intro _ n HApp)) as [Hst Hli].
  destruct Hbad; congruence.
Qed.

Lemma buildable_listable (a : value) :
  list_buildable a = true -> listable a = true.
Proof.
  destruct a as [| |b|q|s|items|fields]; cbn [list_buildable listable];
    try (intros Hq; exact Hq).
  intros Hall. rewrite forallb_forall in *. intros x Hx.
  specialize (Hall x Hx). unfold entry_buildable in Hall.
  apply andb_prop in Hall. destruct Hall as [Hid _].
  rewrite (field_is_nullish _ _ _ Hid). reflexivity.
Qed.

Lemma unusable_data_no_page (s : state) :
  loading s = false ->
  nullish (status s) = true \/ listable (alerts s) = false ->
  screen s = None.
Proof.
  intros Hl Hbad. apply unbuildable_no_page; [exact Hl|].
  destruct Hbad as [Hst|Hli].
  - left. destruct (status s); try discriminate Hst; reflexivity.
  - right. destruct (list_buildable (alerts s)) eqn:Hb; [|reflexivity].
    rewrite (buildable_listable _ Hb) in Hli. discriminate Hli.
Qed.

(** X13. Once loading is over, the body of [App] returns a tree exactly
    when the panel and the list can be built: the [last_check] of the
    status can be read and is falsy or can be made a date, and the alerts
    are an array of entries whose key and card fields can be converted,
    or something else whose length is 0.  Otherwise it throws and there
    is no page. *)
Theorem page_builds_iff_data_is_usable (s : state) (Hloaded : loading s = false) :
  ((exists n, App s = Ok n)
   <-> panel_buildable (status s) = true /\ list_buildable (alerts s) = true)
  /\ (panel_buildable (status s) = false \/ list_buildable (alerts s) = false ->
      screen s = None).
Proof.
  split; [apply App_ok_iff; exact Hloaded|].
  apply unbuildable_no_page. exact Hloaded.
Qed.

Section Trust.
Context {W : Type} `{World W}.

(** X14. The bodies of the responses are stored as they come: a GET
    /alerts resolved with a body that is not usable as a list, or a GET
    /status resolved with [null], takes the page down although the
    request succeeded and the error cell is cleared. *)
Theorem resolved_fetch_with_bad_body_breaks_page
        (m : machine W) (data : value) (w' : W)
        (Hloaded : loading (hooks m) = false) :
  (send GET_alerts (world m) = (Resolved data, w') ->
   listable data = false ->
   screen (hooks (run fetchAlerts m)) = None
   /\ error (hooks (run fetchAlerts m)) = VNull)
  /\ (send GET_status (world m) = (Resolved data, w') ->
      nullish data = true ->
      screen (hooks (run fetchStatus m)) = None
      /\ error (hooks (run fetchStatus m)) = VNull).
Proof.
  split; intros Hs Hbad.
  - rewrite (fetchAlerts_resolved m data w' Hs). split; [|reflexivity].
    apply unusable_data_no_page; [exact Hloaded|]. right. exact Hbad.
  - rewrite (fetchStatus_resolved m data w' Hs). split; [|reflexivity].
    apply unusable_data_no_page; [exact Hloaded|]. left. exact Hbad.
Qed.

End Trust.

(** X15. On a page on screen, the list part is the "No Threats Detected"
    block when [alerts.length] is 0; otherwise the alerts are a non-empty
    array and the list holds one card for each alert, in the order of the
    array, each card carrying the alert's [id] as its key. *)
Theorem one_card_per_alert
        (s : state) (popup banner monitoring lst : node) (length : value)
        (Hscreen : screen s = Some (dashboard popup banner monitoring length lst)) :
  (is_zero length = true -> lst = noThreats)
  /\ (is_zero length = false ->
      exists items cards,
        alerts s = VArr items
        /\ items <> []
        /\ length = num_of_nat (List.length items)
        /\ lst = Elem "div" [cls "space-y-4"] cards
        /\ Forall2 keyed_card items cards).
Proof.
  apply screen_dashboard in Hscreen.
  destruct Hscreen as (_ & _ & _ & _ & Hlen & Hlist & _).
  split; intros Hz; rewrite Hz in Hlist.
  - injection Hlist as <-. reflexivity.
  - cbn [bind ret Monad_res] in Hlist.
    destruct (alerts s) as [| | | | |items|]; try discriminate Hlist.
    destruct (forallb entry_buildable items) eqn:Hall.
    + destruct (alertCards_ok items Hall) as (cards & Hcards & Hkeyed).
      rewrite Hcards in Hlist. cbn [res_bind] in Hlist. injection Hlist as <-.
      cbn [get String.eqb] in Hlen. rewrite Ascii.eqb_refl in Hlen.
      cbn [String.eqb] in Hlen.
      change (String.eqb "ength" "ength") with true in Hlen. cbv iota in Hlen.
      injection Hlen as <-.
      exists items, cards. repeat split; auto.
      intros ->. discriminate Hz.
    + destruct (alertCards_throws items Hall) as [e He].
      rewrite He in Hlist. discriminate Hlist.
Qed.

Section Clicks.
Context {W : Type} `{World W}.

Lemma clear_declined_sends_nothing (m : machine W) :
  fst (confirm clear_question (world m)) = false ->
  exchanges (run clearAlerts m) = exchanges m.
Proof.
  open_machine m. unfold clear_question. unfold_M.
  destruct (confirm _ _) as [[|] w0]; unfold_M; [discriminate|reflexivity].
Qed.

(** X16. The close button of the notification is on the page exactly
    when a notification is: without one a click on it cannot happen;
    with one, on a mounted page on screen, the click removes the
    notification and nothing else: no request goes out and the timers,
    the pending timeout of the notification included, stay as they are. *)
Theorem close_button_only_hides
        (m : machine W) (page : node)
        (Hmounted : mounted m = true)
        (Hscreen : screen (hooks m) = Some page)
        (Hloaded : loading (hooks m) = false) :
  (notification_of (hooks m) = None ->
   step (Click closeNotification_h) m = None)
  /\ (notification_of (hooks m) <> None ->
      exists m',
        step (Click closeNotification_h) m = Some m'
        /\ hooks m' = set_notification None (hooks m)
        /\ timers m' = timers m
        /\ exchanges m' = exchanges m
        /\ world m' = world m).
Proof.
  destruct (buttons_screen _ _ Hscreen Hloaded)
    as (mon & extra & Hmon & Hb & Hextra).
  destruct (MonitoringStatus_buttons _ _ _ _ mon Hmon) as (v & _ & Hbn).
  rewrite Hbn, buttons_NotificationPopup in Hb.
  split.
  - intros Hnone. cbn [step]. rewrite Hmounted, Hscreen.
    unfold clickable. rewrite Hb, Hnone.
    destruct Hextra as [-> | ->]; reflexivity.
  - intros Hsome. cbn [step]. rewrite Hmounted, Hscreen.
    unfold clickable. rewrite Hb.
    destruct (notification_of (hooks m)) as [x|]; [|contradiction Hsome; reflexivity].
    cbn [app existsb fst snd handler_eqb negb andb orb].
    eexists. split; [reflexivity|].
    open_machine m. repeat split.
Qed.

(** X17. The cleanup of the polling effect takes the interval and
    nothing else: after an unmount the browser still holds every pending
    notification timeout, with the delay it had, and the hooks and the
    log are untouched. *)
Theorem unmount_keeps_notification_timeouts
        (w : W) (es : list event) (m : machine W)
        (Hrun : steps (Mount :: es) (initial_machine w) = Some m)
        (Hmounted : ~ In Unmount es) :
  exists m',
    step Unmount m = Some m'
    /\ timers m' = filter is_hide (timers m)
    /\ interval m' = None
    /\ hooks m' = hooks m
    /\ exchanges m' = exchanges m.
Proof.
  cbn [steps] in Hrun.
  destruct (step Mount (initial_machine w)) as [m0|] eqn:Hmount;
    [|discriminate Hrun].
  destruct (polling_mount w m0 Hmount) as (Hp0 & _).
  destruct (polling_steps es m0 m 0%nat 15000%Z Hp0 Hrun Hmounted) as [r Hp].
  destruct Hp as (Hm & Hi & Hf & _ & _ & Hid & _).
  eexists. cbn [step]. rewrite Hm. split; [reflexivity|].
  unfold run, unmount_effects, clearInterval. rewrite Hi. cbn [snd timers interval hooks exchanges].
  repeat split.
  apply filter_ext_in. intros t Hin. unfold is_hide. f_equal.
  destruct (is_poll t) eqn:Hpt.
  - rewrite (poll_timer_only _ _ _ _ Hf Hin Hpt). reflexivity.
  - destruct (Nat.eqb (tid t) 0) eqn:Ht; [|reflexivity].
    apply Nat.eqb_eq in Ht. rewrite (Hid t Hin Ht) in Hpt. discriminate Hpt.
Qed.

Lemma request_origin (e : event) (rq : request) :
  In rq (event_requests e) ->
  In rq [GET_alerts; GET_status]
  \/ (rq = POST_start /\ e = Click startMonitoring_h)
  \/ (rq = POST_stop /\ e = Click stopMonitoring_h)
  \/ (rq = DELETE_alerts /\ e = Click clearAlerts_h)
  \/ (rq = GET_mock /\ e = Click generateMockAlert_h).
Proof.
  destruct e as [| |ms|i|h]; cbn [event_requests]; try tauto.
  - intros [].
  - intros [].
  - destruct h; cbn [may_send In]; intros Hin;
      repeat (destruct Hin as [<-|Hin]; [cbn [In]; tauto|]); destruct Hin.
Qed.

(** X18. Only the buttons change anything on the backend.  The mount and
    the timers send nothing but GET /alerts and GET /status.  A DELETE of
    /alerts comes from a click on Clear whose dialog was accepted, the
    mock-alert request from a click on a test-alert button, a start or a
    stop from a click on its button. *)
Theorem only_buttons_change_the_backend
        (e : event) (m m' : machine W) (l : list (request * response))
        (Hstep : step e m = Some m')
        (Hsent : sent m m' l) :
  ((forall h, e <> Click h) ->
   Forall (fun x => In (fst x) [GET_alerts; GET_status]) l)
  /\ (In DELETE_alerts (map fst l) ->
      e = Click clearAlerts_h
      /\ fst (confirm clear_question (world m)) = true)
  /\ (In GET_mock (map fst l) -> e = Click generateMockAlert_h)
  /\ (In POST_start (map fst l) -> e = Click startMonitoring_h)
  /\ (In POST_stop (map fst l) -> e = Click stopMonitoring_h).
Proof.
  destruct (step_sends e m m' Hstep) as (l0 & Hl0 & Hall & _).
  unfold sent in *. rewrite Hl0 in Hsent. apply app_inv_head in Hsent.
  subst l0. rewrite Forall_forall in Hall.
  assert (Horigin : forall rq, In rq (map fst l) -> In rq (event_requests e)).
  { intros rq Hin. apply in_map_iff in Hin. destruct Hin as (x & <- & Hin).
    apply Hall. exact Hin. }
  assert (Hneq : forall rq,
             In rq [GET_alerts; GET_status] ->
             rq <> DELETE_alerts /\ rq <> GET_mock /\ rq <> POST_start
             /\ rq <> POST_stop).
  { unfold GET_alerts, GET_status, DELETE_alerts, GET_mock, POST_start, POST_stop.
    intros rq [<-|[<-|[]]]; repeat split; intros Hq; try discriminate Hq;
      injection Hq as Hq; apply append_inj_l in Hq; discriminate Hq. }
  assert (Hdiff : DELETE_alerts <> GET_mock /\ DELETE_alerts <> POST_start
                  /\ DELETE_alerts <> POST_stop /\ GET_mock <> POST_start
                  /\ GET_mock <> POST_stop /\ POST_start <> POST_stop).
  { unfold DELETE_alerts, GET_mock, POST_start, POST_stop.
    repeat split; intros Hq; try discriminate Hq.
    injection Hq as Hq; apply append_inj_l in Hq; discriminate Hq. }
  destruct Hdiff as (D1 & D2 & D3 & D4 & D5 & D6).
  split; [|split; [|split; [|split]]].
  - intros Hnc. apply Forall_forall. intros x Hx. specialize (Hall x Hx).
    destruct e as [| |ms|i|h]; cbn [event_requests] in Hall;
      try exact Hall; try destruct Hall.
    contradiction (Hnc h). reflexivity.
  - intros Hin. pose proof (Horigin _ Hin) as Ho. apply request_origin in Ho.
    destruct Ho as [Ho|[[Hq _]|[[Hq _]|[[_ He]|[Hq _]]]]];
      try (exfalso; destruct (Hneq _ Ho) as (N1 & N2 & N3 & N4); congruence);
      try (exfalso; congruence).
    split; [exact He|]. subst e.
    destruct (fst (confirm clear_question (world m))) eqn:Hc; [reflexivity|].
    exfalso. cbn [step] in Hstep.
    destruct (mounted m); [|discriminate Hstep].
    destruct (screen (hooks m)); [|discriminate Hstep].
    destruct (clickable _ _); [|discriminate Hstep].
    injection Hstep as <-. cbn [handler_code] in Hl0.
    rewrite (clear_declined_sends_nothing m Hc) in Hl0.
    rewrite <- (app_nil_r (exchanges m)) in Hl0 at 1.
    apply app_inv_head in Hl0. subst l. destruct Hin.
  - intros Hin. pose proof (Horigin _ Hin) as Ho. apply request_origin in Ho.
    destruct Ho as [Ho|[[Hq _]|[[Hq _]|[[Hq _]|[_ He]]]]];
      try (exfalso; destruct (Hneq _ Ho) as (N1 & N2 & N3 & N4); congruence);
      try (exfalso; congruence).
    exact He.
  - intros Hin. pose proof (Horigin _ Hin) as Ho. apply request_origin in Ho.
    destruct Ho as [Ho|[[_ He]|[[Hq _]|[[Hq _]|[Hq _]]]]];
      try (exfalso; destruct (Hneq _ Ho) as (N1 & N2 & N3 & N4); congruence);
      try (exfalso; congruence).
    exact He.
  - intros Hin. pose proof (Horigin _ Hin) as Ho. apply request_origin in Ho.
    destruct Ho as [Ho|[[Hq _]|[[_ He]|[[Hq _]|[Hq _]]]]];
      try (exfalso; destruct (Hneq _ Ho) as (N1 & N2 & N3 & N4); congruence);
      try (exfalso; congruence).
    exact He.
Qed.

End Clicks.

Ltac logged_done :=
  unfold sent, logged, rejected_count;
  do 2 eexists;
  (split; [first [ symmetry; apply app_nil_r
                 | rewrite <- ?app_assoc; reflexivity ]|]);
  (split; [first [ symmetry; apply app_nil_r
                 | rewrite <- ?app_assoc; reflexivity ]|]);
  cbn [app filter is_rejected snd List.length];
  (split; [lia|]);
  apply Forall_forall;
  let x := fresh "x" in
  let Hx := fresh "Hx" in
  intros x Hx; cbn [In] in Hx;
  repeat (destruct Hx as [<-|Hx]; [cbn [fst console_labels In]; tauto|]);
  destruct Hx.

Section Console.
Context {W : Type} `{World W}.

Lemma logged_handler (h : handler) (m : machine W) :
  logged m (run (handler_code h) m).
Proof.
  open_machine m.
  destruct h; unfold_M;
    try (destruct (confirm _ _) as [[|] w0]; unfold_M);
    repeat case_send; repeat case_get; logged_done.
Qed.

Lemma logged_callback (cb : callback) (m : machine W) :
  logged m (run (callback_code cb) m).
Proof.
  open_machine m. destruct cb; unfold_M; repeat case_send; logged_done.
Qed.

Lemma logged_mount (m : machine W) : logged m (run mount_effects m).
Proof.
  open_machine m. unfold_M. repeat case_send; logged_done.
Qed.

Lemma logged_refl (m m' : machine W) :
  exchanges m' = exchanges m -> console m' = console m -> logged m m'.
Proof.
  intros He Hc. exists [], []. unfold sent. rewrite He, Hc, !app_nil_r.
  repeat split; auto.
Qed.

Lemma logged_step (e : event) (m m' : machine W) :
  step e m = Some m' -> logged m m'.
Proof.
  intros Hs. destruct e as [| |ms|i|h]; cbn [step] in Hs.
  - destruct (mounted m); [discriminate Hs|]. injection Hs as <-.
    apply logged_mount.
  - destruct (mounted m); [|discriminate Hs]. injection Hs as <-.
    apply logged_refl; unfold run, unmount_effects, clearInterval;
      destruct (interval m); reflexivity.
  - destruct (_ && _); [|discriminate Hs]. injection Hs as <-.
    apply logged_refl; reflexivity.
  - destruct (find_timer i (timers m)) as [t|]; [|discriminate Hs].
    destruct (_ =? _)%Z; [|discriminate Hs]. injection Hs as <-.
    apply (logged_callback (callback_of t) (with_timers (rearm i) 0 m)).
  - destruct (mounted m); [|discriminate Hs].
    destruct (screen (hooks m)); [|discriminate Hs].
    destruct (clickable h _); [|discriminate Hs]. injection Hs as <-.
    apply logged_handler.
Qed.

Lemma rejected_count_app l1 l2 :
  rejected_count (l1 ++ l2) = (rejected_count l1 + rejected_count l2)%nat.
Proof. unfold rejected_count. rewrite filter_app, length_app. reflexivity. Qed.

Lemma logged_steps (es : list event) (m m' : machine W) :
  steps es m = Some m' -> logged m m'.
Proof.
  revert m. induction es as [|e es IH]; intros m Hs; cbn [steps] in Hs.
  - injection Hs as <-. apply logged_refl; reflexivity.
  - destruct (step e m) as [m1|] eqn:Hstep; [|discriminate Hs].
    destruct (logged_step e m m1 Hstep) as (l1 & c1 & Hl1 & Hc1 & Hn1 & Hf1).
    destruct (IH m1 Hs) as (l2 & c2 & Hl2 & Hc2 & Hn2 & Hf2).
    exists (l1 ++ l2)%list, (c1 ++ c2)%list. unfold sent in *.
    split; [rewrite Hl2, Hl1, app_assoc; reflexivity|].
    split; [rewrite Hc2, Hc1, app_assoc; reflexivity|].
    split; [rewrite rejected_count_app, length_app; lia|].
    apply Forall_app. split; assumption.
Qed.

(** X19. No rejected request goes unreported: along every run from a
    fresh page the console holds at least one [console.error] entry for
    each rejected request of the log, and every entry carries one of the
    six labels of the file. *)
Theorem every_rejection_is_logged
        (w : W) (es : list event) (m : machine W)
        (Hrun : steps es (initial_machine w) = Some m) :
  (rejected_count (exchanges m) <= List.length (console m))%nat
  /\ Forall (fun x => In (fst x) console_labels) (console m).
Proof.
  destruct (logged_steps es _ m Hrun) as (l & c & Hl & Hc & Hn & Hf).
  unfold sent in Hl. cbn [initial_machine exchanges console app] in Hl, Hc.
  subst. split; assumption.
Qed.

End Console.

(* ===================================================================== *)
(** ** The controls of the page and the popup of a test alert *)
(* ===================================================================== *)

(** X20. The controls of a page on screen are, in document order: the
    close button when a notification is on display, the test-alert
    button of the header, Start, Stop and Clear, and a second test-alert
    button exactly when [alerts.length] is 0.  The cards of the alerts
    carry no control, and no test-alert button is ever disabled. *)
Theorem page_controls
        (s : state) (page : node)
        (Hscreen : screen s = Some page)
        (Hloaded : loading s = false) :
  exists running length,
    get (status s) "is_running" = Ok running
    /\ get (alerts s) "length" = Ok length
    /\ buttons page
       = ((match notification_of s with
           | Some _ => [(closeNotification_h, false)]
           | None => []
           end)
          ++ [ (generateMockAlert_h, false);
               (startMonitoring_h, truthy running);
               (stopMonitoring_h, negb (truthy running));
               (clearAlerts_h, false) ]
          ++ (if is_zero length then [(generateMockAlert_h, false)] else []))%list.
Proof.
  unfold screen in Hscreen. rewrite (App_loaded s Hloaded) in Hscreen.
  cbn [bind ret Monad_res] in Hscreen.
  destruct (MonitoringStatus _ _ _ _) as [mon|] eqn:Hmon;
    cbn [res_bind] in Hscreen; [|discriminate Hscreen].
  destruct (MonitoringStatus_buttons _ _ _ _ mon Hmon) as (v & Hv & Hbn).
  destruct (get (alerts s) "length") as [len|] eqn:Hlen;
    cbn [res_bind] in Hscreen; [|discriminate Hscreen].
  exists v, len. split; [exact Hv|]. split; [reflexivity|].
  destruct (is_zero len).
  - cbn [res_bind] in Hscreen. destruct (react_ok _); [|discriminate Hscreen].
    injection Hscreen as <-.
    cbn [dashboard buttons onClick_of cls flat_map app disabled_of noThreats].
    rewrite buttons_errorBanner, buttons_NotificationPopup, Hbn, !app_nil_r.
    reflexivity.
  - destruct (alertCards (alerts s)) as [cards|] eqn:Hcards;
      cbn [res_bind] in Hscreen; [|discriminate Hscreen].
    destruct (react_ok _); [|discriminate Hscreen].
    injection Hscreen as <-.
    destruct (alerts s) as [| | | | |items|]; try discriminate Hcards.
    cbn [dashboard buttons onClick_of cls flat_map app disabled_of].
    rewrite buttons_errorBanner, buttons_NotificationPopup, Hbn,
      (buttons_alertCards items cards Hcards), !app_nil_r.
    reflexivity.
Qed.

Section Popup.
Context {W : Type} `{World W}.

(** X21. The popup after [generateMockAlert] tells how it went.  React
    always accepts it.  When the error cell holds the mock-alert message
    the popup is the red one with the error title; otherwise it is the
    green one, and its details line is on display. *)
Theorem mock_alert_popup_tells_outcome (m : machine W) :
  let s' := hooks (run generateMockAlert m) in
  exists n,
    notification_of s' = Some n
    /\ react_ok (NotificationPopup (Some n)) = true
    /\ (error s' = VStr "Failed to generate mock alert" ->
        title n = "❌ Error"
        /\ exists kids,
            NotificationPopup (Some n)
            = popup_frame "bg-red-50 border-red-200" "text-red-800" kids)
    /\ (error s' <> VStr "Failed to generate mock alert" ->
        title n = "✅ Test Alert Generated!"
        /\ (exists kids,
               NotificationPopup (Some n)
               = popup_frame "bg-green-50 border-green-200" "text-green-800"
                             kids)
        /\ In (Elem "div" [cls "text-xs opacity-75"] [TextOf (details n)])
              (subnodes (NotificationPopup (Some n)))).
Proof.
  open_machine m. unfold popup_frame. unfold_M.
  repeat case_send; repeat case_get;
    (eexists; split; [reflexivity|]);
    (split; [cbn [NotificationPopup react_ok forallb andb type title message
                  details];
             match goal with
             | |- context [template_truthy ?t] => destruct (template_truthy t)
             end; reflexivity|]);
    (split; intros Hq;
     [first [discriminate Hq | split; [reflexivity|eexists; reflexivity]]
     |first [exfalso; apply Hq; reflexivity
            |split; [reflexivity|]; split; [eexists; reflexivity|];
             vm_compute; tauto]]).
Qed.

End Popup.

(* ===================================================================== *)
(** ** Worked instances of the further properties *)
(* ===================================================================== *)

Section Scripted.
#[local] Existing Instance World_script.

(** X3 on a page listing one alert: the clear goes through, the fetch of
    the alerts fails, the fetch of the status succeeds. *)
Lemma clear_hides_failed_alerts_fetch_witness :
  let m := outcome [Mount]
                   [ Resolved one_alert; Resolved (running_status 1);
                     Resolved (VObj []); Rejected "timeout";
                     Resolved (running_status 0) ] in
  alerts (hooks (run clearAlerts m)) = one_alert
  /\ status (hooks (run clearAlerts m)) = running_status 0
  /\ error (hooks (run clearAlerts m)) = VNull.
Proof.
  intro m.
  destruct (clear_hides_failed_alerts_fetch
              m
              [Resolved (VObj []); Rejected "timeout"; Resolved (running_status 0)]
              [Rejected "timeout"; Resolved (running_status 0)]
              [Resolved (running_status 0)]
              []
              (VObj []) (running_status 0) "timeout")
    as (Ha & Hs & He & _);
    try (vm_compute; reflexivity).
  split; [rewrite Ha; vm_compute; reflexivity|].
  split; [exact Hs|exact He].
Defined.

(** X6 on a page whose test-alert request is dropped. *)
Lemma mock_alert_rejected_witness :
  let m := outcome [Mount]
                   [ Resolved one_alert; Resolved (running_status 1);
                     Rejected "Network Error" ] in
  error (hooks (run generateMockAlert m)) = VStr "Failed to generate mock alert"
  /\ notification_of (hooks (run generateMockAlert m))
     = Some (error_notification "Network Error").
Proof.
  intro m.
  destruct (mock_alert_rejected m "Network Error" [])
    as (Hh & _); [vm_compute; reflexivity|].
  rewrite Hh. split; reflexivity.
Defined.

(** X7 on a test-alert response that is an empty object. *)
Lemma mock_alert_without_alert_witness :
  let m := outcome [Mount]
                   [ Resolved one_alert; Resolved (running_status 1);
                     Resolved (VObj []); Resolved one_alert;
                     Resolved (running_status 1) ] in
  notification_of (hooks (run generateMockAlert m))
  = Some (error_notification
            "Cannot read properties of undefined (reading 'threat_level')").
Proof.
  intro m.
  destruct (mock_alert_without_alert
              m (VObj []) [Resolved one_alert; Resolved (running_status 1)])
    as (_ & _ & Hn & _).
  - vm_compute. reflexivity.
  - right. exists VUndefined. split; reflexivity.
  - rewrite Hn. reflexivity.
Defined.

(** X8 on the bumpy run: the alerts of the initial load, the status of
    the poll. *)
Lemma displays_latest_resolved_bodies_witness :
  alerts (hooks (outcome bumpy_run bumpy_script)) = one_alert
  /\ status (hooks (outcome bumpy_run bumpy_script)) = running_status 2.
Proof.
  assert (Hrun : steps bumpy_run (initial_machine bumpy_script)
                 = Some (outcome bumpy_run bumpy_script))
    by (vm_compute; reflexivity).
  destruct (displays_latest_resolved_bodies bumpy_script bumpy_run _ Hrun)
    as [Ha Hs].
  split; [rewrite Ha|rewrite Hs]; vm_compute; reflexivity.
Defined.

(** X9 on the bumpy run. *)
Lemma error_is_null_or_known_message_witness :
  known_error (error (hooks (outcome bumpy_run bumpy_script))) = true.
Proof.
  assert (Hrun : steps bumpy_run (initial_machine bumpy_script)
                 = Some (outcome bumpy_run bumpy_script))
    by (vm_compute; reflexivity).
  exact (proj1 (error_is_null_or_known_message bumpy_script bumpy_run _ Hrun)).
Defined.

(** X10 on the bumpy run. *)
Lemma requests_stay_within_six_endpoints_witness :
  Forall (fun x => In (fst x) endpoints)
         (exchanges (outcome bumpy_run bumpy_script)).
Proof.
  assert (Hrun : steps bumpy_run (initial_machine bumpy_script)
                 = Some (outcome bumpy_run bumpy_script))
    by (vm_compute; reflexivity).
  exact (proj1 (requests_stay_within_six_endpoints bumpy_script bumpy_run _ Hrun)).
Defined.

(** X13 on a state whose alerts are [null]. *)
Lemma page_builds_iff_data_is_usable_witness :
  screen {| alerts := VNull; status := running_status 0; loading := false;
            error := VNull; notification_of := None |} = None.
Proof.
  assert (Hloaded : loading {| alerts := VNull; status := running_status 0;
                               loading := false; error := VNull;
                               notification_of := None |} = false)
    by reflexivity.
  apply (proj2 (page_builds_iff_data_is_usable _ Hloaded)).
  right. reflexivity.
Defined.

(** X14 on a page whose next GET /alerts is resolved with [null]. *)
Lemma resolved_fetch_with_bad_body_breaks_page_witness :
  let m := outcome [Mount]
                   [ Resolved one_alert; Resolved (running_status 1);
                     Resolved VNull ] in
  screen (hooks m) = Some (page_of (hooks m))
  /\ screen (hooks (run fetchAlerts m)) = None.
Proof.
  intro m.
  assert (Hloaded : loading (hooks m) = false) by (vm_compute; reflexivity).
  split; [vm_compute; reflexivity|].
  destruct (resolved_fetch_with_bad_body_breaks_page m VNull [] Hloaded)
    as [Ha _].
  apply Ha; vm_compute; reflexivity.
Defined.

(** X15 on a page listing one alert. *)
Lemma one_card_per_alert_witness :
  let s := hooks (outcome [Mount]
                          [Resolved one_alert; Resolved (running_status 1)]) in
  exists items cards,
    alerts s = VArr items
    /\ Forall2 keyed_card items cards
    /\ cards = [with_key (VNum 0) (card_of (Backend.alert_json 0 0 threat))].
Proof.
  intro s.
  assert (Hscreen :
            screen s
            = Some (dashboard (NotificationPopup None) (errorBanner VNull)
                              (panel_of (status s)) (VNum 1)
                              (Elem "div" [cls "space-y-4"]
                                 [with_key (VNum 0)
                                    (card_of (Backend.alert_json 0 0 threat))])))
    by (vm_compute; reflexivity).
  destruct (one_card_per_alert s _ _ _ _ _ Hscreen) as [_ Hlist].
  destruct (Hlist eq_refl) as (items & cards & Ha & _ & _ & Hl & Hk).
  exists items, cards. split; [exact Ha|]. split; [exact Hk|].
  injection Hl as <-. reflexivity.
Defined.

(** X16 on the notified page. *)
Lemma close_button_only_hides_witness :
  exists m',
    step (Click closeNotification_h) notified = Some m'
    /\ notification_of (hooks m') = None
    /\ timers m' = timers notified.
Proof.
  assert (Hmounted : mounted notified = true) by (vm_compute; reflexivity).
  assert (Hscreen : screen (hooks notified) = Some (page_of (hooks notified)))
    by (vm_compute; reflexivity).
  assert (Hloaded : loading (hooks notified) = false)
    by (vm_compute; reflexivity).
  destruct (close_button_only_hides notified _ Hmounted Hscreen Hloaded)
    as [_ Hclose].
  destruct Hclose as (m' & Hstep & Hh & Ht & _);
    [vm_compute; discriminate|].
  exists m'. split; [exact Hstep|]. split; [rewrite Hh; reflexivity|exact Ht].
Defined.

(** X17 on the notified page: the timeout of the notification outlives
    the unmount. *)
Lemma unmount_keeps_notification_timeouts_witness :
  exists m',
    step Unmount notified = Some m'
    /\ timers m' = [hide_timer 1 4000].
Proof.
  assert (Hrun : steps (Mount :: [Click generateMockAlert_h])
                       (initial_machine
                          [ Resolved (VArr []); Resolved (running_status 0);
                            Resolved (VObj [("alert",
                                             Backend.alert_json 0 0 threat)]);
                            Resolved one_alert; Resolved (running_status 1) ])
                 = Some notified)
    by (vm_compute; reflexivity).
  assert (Hmounted : ~ In Unmount [Click generateMockAlert_h])
    by (simpl; intros [Hq|[]]; discriminate Hq).
  destruct (unmount_keeps_notification_timeouts _ _ _ Hrun Hmounted)
    as (m' & Hstep & Ht & _).
  exists m'. split; [exact Hstep|].
  transitivity (filter is_hide (timers notified));
    [exact Ht|vm_compute; reflexivity].
Defined.

(** X18 on a confirmed clear. *)
Lemma only_buttons_change_the_backend_witness :
  let m := outcome [Mount]
                   [ Resolved one_alert; Resolved (running_status 1);
                     Resolved (VObj []); Resolved (VArr []);
                     Resolved (running_status 0) ] in
  step (Click clearAlerts_h) m = Some (run clearAlerts m)
  /\ fst (confirm clear_question (world m)) = true.
Proof.
  intro m.
  assert (Hstep : step (Click clearAlerts_h) m = Some (run clearAlerts m))
    by (vm_compute; reflexivity).
  assert (Hsent : sent m (run clearAlerts m)
                       (skipn 2 (exchanges (run clearAlerts m))))
    by (vm_compute; reflexivity).
  split; [exact Hstep|].
  destruct (only_buttons_change_the_backend _ _ _ _ Hstep Hsent)
    as (_ & Hdelete & _).
  apply Hdelete. vm_compute. left. reflexivity.
Defined.

(** X19 on the bumpy run: one rejection, one entry. *)
Lemma every_rejection_is_logged_witness :
  rejected_count (exchanges (outcome bumpy_run bumpy_script)) = 1%nat
  /\ (1 <= List.length (console (outcome bumpy_run bumpy_script)))%nat.
Proof.
  assert (Hrun : steps bumpy_run (initial_machine bumpy_script)
                 = Some (outcome bumpy_run bumpy_script))
    by (vm_compute; reflexivity).
  assert (Hone : rejected_count (exchanges (outcome bumpy_run bumpy_script))
                 = 1%nat)
    by (vm_compute; reflexivity).
  split; [exact Hone|]. rewrite <- Hone.
  exact (proj1 (every_rejection_is_logged bumpy_script bumpy_run _ Hrun)).
Defined.

(** X20 on the notified page: a notification, a running status and one
    alert. *)
Lemma page_controls_witness :
  buttons (page_of (hooks notified))
  = [ (closeNotification_h, false); (generateMockAlert_h, false);
      (startMonitoring_h, true); (stopMonitoring_h, false);
      (clearAlerts_h, false) ].
Proof.
  assert (Hscreen : screen (hooks notified) = Some (page_of (hooks notified)))
    by (vm_compute; reflexivity).
  assert (Hloaded : loading (hooks notified) = false)
    by (vm_compute; reflexivity).
  destruct (page_controls _ _ Hscreen Hloaded)
    as (running & length & Hrunning & Hlength & Hbuttons).
  vm_compute in Hrunning. injection Hrunning as <-.
  vm_compute in Hlength. injection Hlength as <-.
  etransitivity; [exact Hbuttons|]. vm_compute. reflexivity.
Defined.

End Scripted.
